(** * MovieMeet relay: room presence, playback synchronisation and chat

    A shallow embedding of the relay server (the Express and socket.io
    process: the in-memory [rooms] registry with its fallback HTTP
    endpoints and its push event handlers) and of the client's
    drift-correction handler ([src/components/VideoPlayer.tsx],
    [handleVideoStateUpdate]).

    Modelling conventions.
    - A JavaScript [Map] is an insertion-ordered association list with
      the semantics of [Map.prototype.get/has/set/delete]; the order is
      kept because the handlers stop at the first matching entry and
      serialise [Array.from(room.users.values())].
    - A field that a request body or an event payload may lack is an
      [option]; [None] is JavaScript's [undefined].  Fields that are
      present are strings (identifiers, names, text), IEEE 754 doubles
      (Rocq's primitive [float], for [currentTime]), booleans
      ([isPlaying]) and integer milliseconds since the epoch (dates,
      and the [timestamp] number of a chat post).  An event of the push
      path is taken with its [roomId].
    - The fallback join and leave are given a second time for a
      [username] that is any JSON value (module [Untyped]): there the
      conversion of a username to a string can throw, and the handler's
      [catch] answers 500 with the registry as the handler left it.
    - [Date.now()] / [new Date()] and the random suffix of generated
      identifiers are inputs of a handler ([now], [rnd]); one handler
      invocation reads one instant.
    - What a handler emits is returned as a list of [Emit] records that
      carry the socket.io target as written in the source
      ([io.to(room)], [socket.to(room)], [socket.emit]); [recipients]
      interprets a target against the adapter's room membership. *)

From Stdlib Require Import List String ZArith Bool Lia DecimalString Floats.
Import ListNotations.

Local Open Scope string_scope.
Local Open Scope list_scope.

(** ** JavaScript helpers *)

(** [!s] is false exactly for a present, non-empty string: [required s]
    returns that string when the guard [if (!s) return ...] lets it pass. *)
Definition required (s : option string) : option string :=
  match s with
  | Some x => if (x =? "")%string then None else Some x
  | None => None
  end.

(** Interpolation [${s}] inside a template literal. *)
Definition interp (s : option string) : string :=
  match s with
  | Some x => x
  | None => "undefined"
  end.

(** Strict equality [a === b] on possibly-undefined strings. *)
Definition strict_eq (a b : option string) : bool :=
  match a, b with
  | Some x, Some y => (x =? y)%string
  | None, None => true
  | _, _ => false
  end.

(** [n.toString()] for an integer. *)
Definition toString (z : Z) : string := NilZero.string_of_int (Z.to_int z).

(** ** [Map] with string keys, in insertion order *)
Module JSMap.

Definition t (V : Type) : Type := list (string * V).

Section Ops.
Context {V : Type}.

Fixpoint get (k : string) (m : t V) : option V :=
  match m with
  | [] => None
  | (k', v) :: m' => if (k' =? k)%string then Some v else get k m'
  end.

Definition has (k : string) (m : t V) : bool :=
  match get k m with
  | Some _ => true
  | None => false
  end.

(** An existing key keeps its position, a new key goes last. *)
Fixpoint set (k : string) (v : V) (m : t V) : t V :=
  match m with
  | [] => [(k, v)]
  | (k', v') :: m' =>
      if (k' =? k)%string then (k, v) :: m' else (k', v') :: set k v m'
  end.

Definition delete (k : string) (m : t V) : t V :=
  filter (fun e => negb (fst e =? k)%string) m.

Definition size (m : t V) : nat := List.length m.

Definition values (m : t V) : list V := map snd m.

Definition keys (m : t V) : list string := map fst m.
End Ops.

End JSMap.

(** ** [Set] of strings, in insertion order *)
Module JSSet.

Definition t : Type := list string.

Definition has (x : string) (s : t) : bool :=
  existsb (fun y => (y =? x)%string) s.

Definition add (x : string) (s : t) : t :=
  if has x s then s else s ++ [x].

Definition delete (x : string) (s : t) : t :=
  filter (fun y => negb (y =? x)%string) s.

End JSSet.

(** ** Data model *)

(** A participant entry: [{ username, userId }] on the fallback path,
    [{ username, socketId }] on the push path. *)
Module User.
Record t : Type := mk {
  username : option string;
  userId : option string;
  socketId : option string
}.
End User.

Module VideoState.
Record t : Type := mk {
  currentTime : option float;
  isPlaying : option bool
}.
End VideoState.

Module Message.
Record t : Type := mk {
  id : string;
  user : option string;
  text : option string;
  timestamp : Z
}.
End Message.

Module Room.
Record t : Type := mk {
  users : JSMap.t User.t;
  videoState : VideoState.t;
  messages : list Message.t
}.
End Room.

(** Per-connection state: the closure variable [userRooms] of the
    connection handler and the socket.io rooms the socket has joined. *)
Module Conn.
Record t : Type := mk {
  userRooms : JSSet.t;
  joined : JSSet.t
}.
Definition fresh : t := mk [] [].
End Conn.

(** The process state: the global [rooms] registry and the open sockets. *)
Module Server.
Record t : Type := mk {
  rooms : JSMap.t Room.t;
  conns : JSMap.t Conn.t
}.
Definition initial : t := mk [] [].
End Server.

(** ** What a handler sends *)

Inductive Target : Type :=
| ToRoom (roomId : string)                    (* io.to(roomId).emit *)
| ToRoomExcept (roomId : string) (sender : string)   (* socket.to(roomId).emit *)
| ToSocket (socketId : string).               (* socket.emit *)

Inductive Payload : Type :=
| PMessage (m : Message.t)
| PVideoState (currentTime : option float) (isPlaying : option bool)
              (userId : option string) (username : option string)
| PRoomUsers (users : list User.t) (videoState : VideoState.t)
             (messages : list Message.t).

Record Emit : Type := emit {
  target : Target;
  event : string;
  payload : Payload
}.

Inductive Body : Type :=
| BError (error : string)
| BJoin (userId : string) (users : list User.t) (videoState : VideoState.t)
        (messages : list Message.t)
| BLeave (roomDeleted : bool)
| BSuccess
| BChat (messageId : string).

Record Response : Type := respond {
  status : Z;
  body : Body
}.

(** The sockets a target reaches, given who has joined which room. *)
Definition recipients (st : Server.t) (t : Target) : list string :=
  match t with
  | ToRoom r =>
      JSMap.keys (filter (fun e => JSSet.has r (Conn.joined (snd e))) (Server.conns st))
  | ToRoomExcept r s =>
      JSMap.keys (filter (fun e => JSSet.has r (Conn.joined (snd e))
                                   && negb (fst e =? s)%string) (Server.conns st))
  | ToSocket s => [s]
  end.

(** ** The registry *)

(** The room literal of both join paths. *)
Definition newRoom : Room.t :=
  Room.mk [] (VideoState.mk (Some 0%float) (Some false)) [].

(** [if (!rooms.has(roomId)) rooms.set(roomId, { ... })] *)
Definition ensureRoom (roomId : string) (rooms : JSMap.t Room.t) : JSMap.t Room.t :=
  if JSMap.has roomId rooms then rooms else JSMap.set roomId newRoom rooms.

Definition setRooms (rooms : JSMap.t Room.t) (st : Server.t) : Server.t :=
  Server.mk rooms (Server.conns st).

(** [existingUser.username === username] for a present [username]. *)
Definition hasUsername (username : string) (u : User.t) : bool :=
  strict_eq (User.username u) (Some username).

(** The eviction loop of the fallback join: every entry whose username
    matches is deleted by its key. *)
Definition evictUsername (username : string) (users : JSMap.t User.t) : JSMap.t User.t :=
  fold_left
    (fun acc e => if hasUsername username (snd e) then JSMap.delete (fst e) acc else acc)
    users users.

(** The first entry with the given username (the loops that [break]). *)
Fixpoint findByUsername (username : string) (users : JSMap.t User.t)
  : option (string * User.t) :=
  match users with
  | [] => None
  | (k, u) :: rest =>
      if hasUsername username u then Some (k, u) else findByUsername username rest
  end.

Definition systemMessage (now : Z) (text : string) : Message.t :=
  Message.mk (toString now) (Some "System") (Some text) now.

(** ** Fallback path: the HTTP endpoints *)

Definition HttpResult : Type := Server.t * Response * list Emit.

(** [POST /api/room/join] *)
Definition httpJoin (now : Z) (rnd : string)
    (roomId username : option string) (st : Server.t) : HttpResult :=
  match required roomId, required username with
  | Some r, Some name =>
      let rooms1 := ensureRoom r (Server.rooms st) in
      let userId := ("user-" ++ toString now ++ "-" ++ rnd)%string in
      match JSMap.get r rooms1 with
      | None => (st, respond 500 (BError "Failed to join room"), [])
      | Some room =>
          let users1 := evictUsername name (Room.users room) in
          let users2 := JSMap.set userId (User.mk (Some name) (Some userId) None) users1 in
          let newMessage := systemMessage now (name ++ " joined the room")%string in
          let messages1 := Room.messages room ++ [newMessage] in
          let room1 := Room.mk users2 (Room.videoState room) messages1 in
          (setRooms (JSMap.set r room1 rooms1) st,
           respond 200 (BJoin userId (JSMap.values users2) (Room.videoState room) messages1),
           [emit (ToRoom r) "user_joined" (PMessage newMessage)])
      end
  | _, _ => (st, respond 400 (BError "roomId and username are required"), [])
  end.

(** The participant a fallback leave removes: by [userId] when it is a
    key of the room, else the first entry with the given [username]. *)
Definition httpLeaveFind (userId username : option string) (users : JSMap.t User.t)
  : option (User.t * JSMap.t User.t) :=
  let byName :=
    match required username with
    | Some name =>
        match findByUsername name users with
        | Some (k, u) => Some (u, JSMap.delete k users)
        | None => None
        end
    | None => None
    end in
  match required userId with
  | Some uid =>
      match JSMap.get uid users with
      | Some u => Some (u, JSMap.delete uid users)
      | None => byName
      end
  | None => byName
  end.

(** [POST /api/room/leave] *)
Definition httpLeave (now : Z)
    (roomId userId username : option string) (st : Server.t) : HttpResult :=
  match required roomId with
  | None => (st, respond 400 (BError "roomId is required"), [])
  | Some r =>
      match JSMap.get r (Server.rooms st) with
      | None => (st, respond 404 (BError "Room not found"), [])
      | Some room =>
          match httpLeaveFind userId username (Room.users room) with
          | None => (st, respond 404 (BError "User not found in room"), [])
          | Some (u, users1) =>
              let newMessage :=
                systemMessage now (interp (User.username u) ++ " left the room")%string in
              let room1 := Room.mk users1 (Room.videoState room)
                                   (Room.messages room ++ [newMessage]) in
              let out := [emit (ToRoom r) "user_left" (PMessage newMessage)] in
              if Nat.eqb (JSMap.size users1) 0
              then (setRooms (JSMap.delete r (Server.rooms st)) st,
                    respond 200 (BLeave true), out)
              else (setRooms (JSMap.set r room1 (Server.rooms st)) st,
                    respond 200 (BLeave false), out)
          end
      end
  end.

(** [POST /api/room/video-state] *)
Definition httpVideoState
    (roomId : option string) (currentTime : option float) (isPlaying : option bool)
    (st : Server.t) : HttpResult :=
  match required roomId, currentTime, isPlaying with
  | Some r, Some _, Some _ =>
      match JSMap.get r (Server.rooms st) with
      | None => (st, respond 404 (BError "Room not found"), [])
      | Some room =>
          let room1 := Room.mk (Room.users room)
                               (VideoState.mk currentTime isPlaying)
                               (Room.messages room) in
          (setRooms (JSMap.set r room1 (Server.rooms st)) st,
           respond 200 BSuccess,
           [emit (ToRoom r) "video_state_update"
                 (PVideoState currentTime isPlaying None None)])
      end
  | _, _, _ =>
      (st, respond 400 (BError "roomId, currentTime, and isPlaying are required"), [])
  end.

(** [POST /api/room/chat] *)
Definition httpChat (now : Z)
    (roomId text user : option string) (st : Server.t) : HttpResult :=
  match required roomId, required text, required user with
  | Some r, Some txt, Some usr =>
      match JSMap.get r (Server.rooms st) with
      | None => (st, respond 404 (BError "Room not found"), [])
      | Some room =>
          let messageId := toString now in
          let newMessage := Message.mk messageId (Some usr) (Some txt) now in
          let room1 := Room.mk (Room.users room) (Room.videoState room)
                               (Room.messages room ++ [newMessage]) in
          (setRooms (JSMap.set r room1 (Server.rooms st)) st,
           respond 200 (BChat messageId),
           [emit (ToRoom r) "chat_message" (PMessage newMessage)])
      end
  | _, _, _ => (st, respond 400 (BError "roomId, text, and user are required"), [])
  end.

(** ** Push path: the socket.io event handlers *)

Definition PushResult : Type := Server.t * list Emit.

Definition connOf (socketId : string) (st : Server.t) : Conn.t :=
  match JSMap.get socketId (Server.conns st) with
  | Some c => c
  | None => Conn.fresh
  end.

Definition setConn (socketId : string) (c : Conn.t) (st : Server.t) : Server.t :=
  Server.mk (Server.rooms st) (JSMap.set socketId c (Server.conns st)).

(** [io.on('connection', ...)]: a socket with an empty [userRooms]. *)
Definition connection (socketId : string) (st : Server.t) : Server.t :=
  setConn socketId Conn.fresh st.

(** [socket.join(roomId); userRooms.add(roomId);] *)
Definition socketJoin (socketId roomId : string) (st : Server.t) : Server.t :=
  let c := connOf socketId st in
  setConn socketId
    (Conn.mk (JSSet.add roomId (Conn.userRooms c)) (JSSet.add roomId (Conn.joined c))) st.

(** [socket.leave(roomId); userRooms.delete(roomId);] *)
Definition socketLeave (socketId roomId : string) (st : Server.t) : Server.t :=
  let c := connOf socketId st in
  setConn socketId
    (Conn.mk (JSSet.delete roomId (Conn.userRooms c)) (JSSet.delete roomId (Conn.joined c))) st.

(** The participant [leaveRoomCleanup] settles on, with the map after
    the deletions it made: the entry under [socket.id], else the first
    entry with the given [username]. *)
Definition cleanupFind (socketId : string) (username : option string)
    (users : JSMap.t User.t) : option (User.t * JSMap.t User.t) :=
  match JSMap.get socketId users with
  | Some u => Some (u, JSMap.delete socketId users)
  | None =>
      match required username with
      | Some name =>
          match findByUsername name users with
          | Some (k, u) =>
              let users1 := JSMap.delete k users in
              Some (u, if JSMap.has socketId users1
                       then JSMap.delete socketId users1 else users1)
          | None => None
          end
      | None => None
      end
  end.

(** [function leaveRoomCleanup(socket, roomId, username)] *)
Definition leaveRoomCleanup (now : Z) (socketId roomId : string)
    (username : option string) (st : Server.t) : PushResult :=
  match JSMap.get roomId (Server.rooms st) with
  | None => (st, [])
  | Some room =>
      match cleanupFind socketId username (Room.users room) with
      | Some (u, users1) =>
          let left := Message.mk (toString now) (User.username u)
                        (Some (interp (User.username u) ++ " left the room")%string) now in
          let out := [emit (ToRoom roomId) "user_left" (PMessage left)] in
          let room1 := Room.mk users1 (Room.videoState room) (Room.messages room) in
          let rooms1 :=
            if Nat.eqb (JSMap.size users1) 0
            then JSMap.delete roomId (Server.rooms st)
            else JSMap.set roomId room1 (Server.rooms st) in
          (socketLeave socketId roomId (setRooms rooms1 st), out)
      | None => (socketLeave socketId roomId st, [])
      end
  end.

(** [socket.on('join_room', ({ roomId, username }) => ...)] *)
Definition joinRoom (now : Z) (socketId roomId : string)
    (username : option string) (st : Server.t) : PushResult :=
  let '(st1, out1) :=
    if JSSet.has roomId (Conn.userRooms (connOf socketId st))
    then leaveRoomCleanup now socketId roomId username st
    else (st, []) in
  let st2 := socketJoin socketId roomId st1 in
  let rooms1 := ensureRoom roomId (Server.rooms st2) in
  match JSMap.get roomId rooms1 with
  | None => (st2, out1)
  | Some room =>
      let users1 :=
        JSMap.set socketId (User.mk username None (Some socketId)) (Room.users room) in
      let room1 := Room.mk users1 (Room.videoState room) (Room.messages room) in
      let joinedMsg := Message.mk (toString now) username
                         (Some (interp username ++ " joined the room")%string) now in
      (setRooms (JSMap.set roomId room1 rooms1) st2,
       out1 ++ [emit (ToRoom roomId) "user_joined" (PMessage joinedMsg);
                emit (ToSocket socketId) "room_users"
                     (PRoomUsers (JSMap.values users1) (Room.videoState room)
                                 (Room.messages room))])
  end.

(** [socket.on('leave_room', ({ roomId, username }) => ...)] *)
Definition leaveRoom (now : Z) (socketId roomId : string)
    (username : option string) (st : Server.t) : PushResult :=
  leaveRoomCleanup now socketId roomId username st.

(** [socket.on('video_state_update', ({ currentTime, isPlaying, roomId }) => ...)] *)
Definition videoStateUpdate (socketId : string)
    (currentTime : option float) (isPlaying : option bool) (roomId : string)
    (st : Server.t) : PushResult :=
  match JSMap.get roomId (Server.rooms st) with
  | None => (st, [])
  | Some room =>
      match JSMap.get socketId (Room.users room) with
      | None => (st, [])
      | Some u =>
          let room1 := Room.mk (Room.users room)
                               (VideoState.mk currentTime isPlaying)
                               (Room.messages room) in
          (setRooms (JSMap.set roomId room1 (Server.rooms st)) st,
           [emit (ToRoomExcept roomId socketId) "video_state_update"
                 (PVideoState currentTime isPlaying (Some socketId) (User.username u))])
      end
  end.

(** [new Date(t).getTime()]: a time value more than 8.64e15 ms away
    from the epoch is no date, and [getTime()] is then [NaN] ([None]). *)
Definition getTime (t : Z) : option Z :=
  if (Z.abs t <=? 8640000000000000)%Z then Some t else None.

(** [timestamp || new Date()]: the client's timestamp, unless it is
    absent or 0. *)
Definition orNow (timestamp : option Z) (now : Z) : Z :=
  match timestamp with
  | Some t => if (t =? 0)%Z then now else t
  | None => now
  end.

(** The filter of [chat_message]: same user, same text, stored less than
    2000 ms before [now]; a comparison with [NaN] is false. *)
Definition isRecentDuplicate (now : Z) (user text : option string)
    (msg : Message.t) : bool :=
  strict_eq (Message.user msg) user
  && strict_eq (Message.text msg) text
  && match getTime (Message.timestamp msg) with
     | Some t => (now - t <? 2000)%Z
     | None => false
     end.

(** [socket.on('chat_message', ({ text, roomId, user, timestamp }) => ...)] *)
Definition chatMessage (now : Z) (rnd : string) (socketId : string)
    (text : option string) (roomId : string) (user : option string)
    (timestamp : option Z) (st : Server.t) : PushResult :=
  match JSMap.get roomId (Server.rooms st) with
  | None => (st, [])
  | Some room =>
      let messageId := (toString now ++ "-" ++ rnd)%string in
      let recentDuplicates :=
        filter (isRecentDuplicate now user text) (Room.messages room) in
      if Nat.ltb 0 (List.length recentDuplicates) then (st, [])
      else
        let newMessage := Message.mk messageId user text (orNow timestamp now) in
        let room1 := Room.mk (Room.users room) (Room.videoState room)
                             (Room.messages room ++ [newMessage]) in
        (setRooms (JSMap.set roomId room1 (Server.rooms st)) st,
         [emit (ToRoom roomId) "chat_message" (PMessage newMessage)])
  end.

(** The username registered for a socket in a room, if any. *)
Definition usernameIn (socketId roomId : string) (st : Server.t) : option string :=
  match JSMap.get roomId (Server.rooms st) with
  | Some room =>
      match JSMap.get socketId (Room.users room) with
      | Some u => User.username u
      | None => None
      end
  | None => None
  end.

(** [socket.on('disconnect', ...)]: socket.io has already taken the
    socket out of its rooms; the handler cleans up every room of
    [userRooms], then every room that still lists the socket, and the
    connection is gone. *)
Definition disconnect (now : Z) (socketId : string) (st : Server.t) : PushResult :=
  let c := connOf socketId st in
  let st0 := setConn socketId (Conn.mk (Conn.userRooms c) []) st in
  let tracked :=
    fold_left
      (fun (acc : PushResult) roomId =>
         let '(s, out) := acc in
         let '(s', o) :=
           leaveRoomCleanup now socketId roomId (usernameIn socketId roomId s) s in
         (s', out ++ o))
      (Conn.userRooms c) (st0, []) in
  let legacy :=
    fold_left
      (fun (acc : PushResult) roomId =>
         let '(s, out) := acc in
         match JSMap.get roomId (Server.rooms s) with
         | Some room =>
             if JSMap.has socketId (Room.users room)
             then let '(s', o) :=
                    leaveRoomCleanup now socketId roomId (usernameIn socketId roomId s) s in
                  (s', out ++ o)
             else acc
         | None => acc
         end)
      (JSMap.keys (Server.rooms (fst tracked))) tracked in
  (Server.mk (Server.rooms (fst legacy))
             (JSMap.delete socketId (Server.conns (fst legacy))),
   snd legacy).

(** ** The relay as a transition system *)

(** One request of the fallback path or one event of the push path. *)
Inductive Request : Type :=
| PostJoin (now : Z) (rnd : string) (roomId username : option string)
| PostLeave (now : Z) (roomId userId username : option string)
| PostVideoState (roomId : option string) (currentTime : option float)
                 (isPlaying : option bool)
| PostChat (now : Z) (roomId text user : option string)
| OnConnection (socketId : string)
| OnJoinRoom (now : Z) (socketId roomId : string) (username : option string)
| OnLeaveRoom (now : Z) (socketId roomId : string) (username : option string)
| OnVideoStateUpdate (socketId : string) (currentTime : option float)
                     (isPlaying : option bool) (roomId : string)
| OnChatMessage (now : Z) (rnd : string) (socketId : string) (text : option string)
                (roomId : string) (user : option string) (timestamp : option Z)
| OnDisconnect (now : Z) (socketId : string).

Definition dropResponse (r : HttpResult) : PushResult := (fst (fst r), snd r).

Definition handle (rq : Request) (st : Server.t) : PushResult :=
  match rq with
  | PostJoin now rnd roomId username => dropResponse (httpJoin now rnd roomId username st)
  | PostLeave now roomId userId username =>
      dropResponse (httpLeave now roomId userId username st)
  | PostVideoState roomId currentTime isPlaying =>
      dropResponse (httpVideoState roomId currentTime isPlaying st)
  | PostChat now roomId text user => dropResponse (httpChat now roomId text user st)
  | OnConnection socketId => (connection socketId st, [])
  | OnJoinRoom now socketId roomId username => joinRoom now socketId roomId username st
  | OnLeaveRoom now socketId roomId username => leaveRoom now socketId roomId username st
  | OnVideoStateUpdate socketId currentTime isPlaying roomId =>
      videoStateUpdate socketId currentTime isPlaying roomId st
  | OnChatMessage now rnd socketId text roomId user timestamp =>
      chatMessage now rnd socketId text roomId user timestamp st
  | OnDisconnect now socketId => disconnect now socketId st
  end.

(** The states the process can be in: it starts with an empty registry
    and handles one request after the other. *)
Inductive reachable : Server.t -> Prop :=
| reachable_initial : reachable Server.initial
| reachable_handle (rq : Request) (st : Server.t) :
    reachable st -> reachable (fst (handle rq st)).

(** Running a list of requests in order, collecting what is emitted. *)
Definition run (rqs : list Request) (st : Server.t) : PushResult :=
  fold_left (fun (acc : PushResult) rq =>
               let '(s, o) := handle rq (fst acc) in (s, snd acc ++ o))
            rqs (st, []).

(** A room with at least one participant entry. *)
Definition occupied (room : Room.t) : Prop := Room.users room <> [].

(** No room of the registry has an empty participant map. *)
Definition noEmptyRoom (st : Server.t) : Prop :=
  Forall (fun e => occupied (snd e)) (Server.rooms st).

(** The key of [x] is the key of some entry of [l] named [username]. *)
Definition keyOfNamed (username : string) (l : JSMap.t User.t)
    (x : string * User.t) : bool :=
  existsb (fun e => hasUsername username (snd e) && (fst x =? fst e)%string) l.

(** The participant entries of a room that carry a given username. *)
Definition entriesNamed (username : string) (room : Room.t) : list (string * User.t) :=
  filter (fun e => hasUsername username (snd e)) (Room.users room).

(** ** The client: drift correction in [VideoPlayer.tsx] *)

(** The part of the [<video>] element the handler reads and writes. *)
Module Video.
Record t : Type := mk {
  currentTime : float;
  paused : bool
}.
End Video.

Module Player.
Record t : Type := mk {
  videoRef : option Video.t;       (* videoRef.current *)
  isPlaying : bool;                (* React state *)
  isExternalUpdate : bool          (* React state *)
}.
End Player.

(** [Math.abs(videoRef.current.currentTime - currentTime)] *)
Definition timeDiff (v : Video.t) (currentTime : float) : float :=
  PrimFloat.abs (PrimFloat.sub (Video.currentTime v) currentTime).

(** [handleVideoStateUpdate({ currentTime, isPlaying, username })].
    [canPlay] says whether the browser lets [play()] start playback. *)
Definition handleVideoStateUpdate (canPlay : bool)
    (currentTime : float) (isPlaying : bool) (p : Player.t) : Player.t :=
  match Player.videoRef p with
  | None => p
  | Some v =>
      let v1 :=
        if PrimFloat.ltb 1%float (timeDiff v currentTime)
        then Video.mk currentTime (Video.paused v)
        else v in
      let v2 :=
        if isPlaying && Video.paused v1
        then Video.mk (Video.currentTime v1) (negb canPlay)
        else if negb isPlaying && negb (Video.paused v1)
             then Video.mk (Video.currentTime v1) true
             else v1 in
      Player.mk (Some v2) isPlaying true
  end.

(** ** Concrete states used by the examples *)

(** Room ["abc"] with the single participant ["A"] on socket ["a"]. *)
Definition roomOfOne : Server.t :=
  fst (run [OnConnection "a"; OnJoinRoom 1000 "a" "abc" (Some "A")] Server.initial).

(** Room ["abc"] with ["A"] on socket ["a"]; socket ["b"] is connected
    but has joined nothing. *)
Definition roomWithBystander : Server.t :=
  fst (run [OnConnection "a"; OnConnection "b";
            OnJoinRoom 1000 "a" "abc" (Some "A")] Server.initial).

(** Room ["abc"] with ["A"] on socket ["a"] and ["B"] on socket ["b"]. *)
Definition roomOfTwo : Server.t :=
  fst (run [OnConnection "a"; OnConnection "b";
            OnJoinRoom 1000 "a" "abc" (Some "A");
            OnJoinRoom 1001 "b" "abc" (Some "B")] Server.initial).


(** The length of a room's message history, 0 for an absent room. *)
Definition historyLength (roomId : string) (st : Server.t) : nat :=
  match JSMap.get roomId (Server.rooms st) with
  | Some room => List.length (Room.messages room)
  | None => 0
  end.

(** ** Representation invariants and views used by the further properties *)

(** An entry is stored under its own identifier: the generated [userId]
    on the fallback path, [socket.id] on the push path. *)
Definition keyed (e : string * User.t) : Prop :=
  (User.userId (snd e) = Some (fst e) /\ User.socketId (snd e) = None) \/
  (User.socketId (snd e) = Some (fst e) /\ User.userId (snd e) = None).

(** A participant map: no key twice, every entry under its identifier. *)
Definition entriesWf (users : JSMap.t User.t) : Prop :=
  NoDup (JSMap.keys users) /\ Forall keyed users.

(** The registry: no room id twice, every room's participants well formed. *)
Definition wellFormed (st : Server.t) : Prop :=
  NoDup (JSMap.keys (Server.rooms st)) /\
  Forall (fun e => entriesWf (Room.users (snd e))) (Server.rooms st).

(** The room a request is addressed to: the [roomId] of a push event,
    the [roomId] of a fallback request when it passes the handler's
    [!roomId] check; none for a new connection and for a disconnect,
    which goes through every room of the socket. *)
Definition roomOf (rq : Request) : option string :=
  match rq with
  | PostJoin _ _ roomId _ => required roomId
  | PostLeave _ roomId _ _ => required roomId
  | PostVideoState roomId _ _ => required roomId
  | PostChat _ roomId _ _ => required roomId
  | OnConnection _ => None
  | OnJoinRoom _ _ roomId _ => Some roomId
  | OnLeaveRoom _ _ roomId _ => Some roomId
  | OnVideoStateUpdate _ _ _ roomId => Some roomId
  | OnChatMessage _ _ _ _ roomId _ _ => Some roomId
  | OnDisconnect _ _ => None
  end.

(** An emission addressed to room [r] or to a single socket. *)
Definition withinRoom (r : string) (e : Emit) : Prop :=
  match target e with
  | ToRoom r' => r' = r
  | ToRoomExcept r' _ => r' = r
  | ToSocket _ => True
  end.

(** What [leaveRoomCleanup] does to the registry when it is called for
    the socket's own entry, as the disconnect handler calls it. *)
Definition dropSocket (socketId roomId : string) (rooms : JSMap.t Room.t)
  : JSMap.t Room.t :=
  match JSMap.get roomId rooms with
  | Some room =>
      match JSMap.get socketId (Room.users room) with
      | Some _ =>
          let users1 := JSMap.delete socketId (Room.users room) in
          if Nat.eqb (JSMap.size users1) 0
          then JSMap.delete roomId rooms
          else JSMap.set roomId
                 (Room.mk users1 (Room.videoState room) (Room.messages room)) rooms
      | None => rooms
      end
  | None => rooms
  end.

(** [dropSocket] for a list of rooms, one after the other. *)
Definition dropAll (socketId : string) (rs : list string) (rooms : JSMap.t Room.t)
  : JSMap.t Room.t :=
  fold_left (fun acc r => dropSocket socketId r acc) rs rooms.

(** What is left of a room once the socket has been dropped from it. *)
Definition settled (socketId r0 : string) (room0 : Room.t) (rooms : JSMap.t Room.t)
  : Prop :=
  match JSMap.get socketId (Room.users room0) with
  | None => JSMap.get r0 rooms = Some room0
  | Some _ =>
      let users1 := JSMap.delete socketId (Room.users room0) in
      if Nat.eqb (JSMap.size users1) 0
      then JSMap.get r0 rooms = None
      else JSMap.get r0 rooms =
             Some (Room.mk users1 (Room.videoState room0) (Room.messages room0))
  end.

(** ** The client: what the player reports *)

(** The player together with the room id of the socket context and the
    [isSeeking] state; [Sent] is an argument of [sendVideoState]. *)
Module Session.
Record t : Type := mk {
  player : Player.t;
  roomId : option string;
  isSeeking : bool
}.
End Session.

Definition Sent : Type := (float * bool)%type.

(** [if (roomId && videoRef.current) sendVideoState({ currentTime:
    videoRef.current.currentTime, isPlaying })] *)
Definition report (s : Session.t) (isPlaying : bool) : list Sent :=
  match required (Session.roomId s), Player.videoRef (Session.player s) with
  | Some _, Some v => [(Video.currentTime v, isPlaying)]
  | _, _ => []
  end.

(** An incoming [video_state_update], handled within a session. *)
Definition onVideoStateUpdate (canPlay : bool) (currentTime : float)
    (isPlaying : bool) (s : Session.t) : Session.t :=
  Session.mk (handleVideoStateUpdate canPlay currentTime isPlaying (Session.player s))
             (Session.roomId s) (Session.isSeeking s).

(** The [onPlay] listener of the [<video>] element. *)
Definition onPlay (s : Session.t) : Session.t * list Sent :=
  let p := Session.player s in
  if Player.isExternalUpdate p
  then (Session.mk (Player.mk (Player.videoRef p) (Player.isPlaying p) false)
                   (Session.roomId s) (Session.isSeeking s), [])
  else (Session.mk (Player.mk (Player.videoRef p) true false)
                   (Session.roomId s) (Session.isSeeking s),
        report s true).

(** The [onPause] listener of the [<video>] element. *)
Definition onPause (s : Session.t) : Session.t * list Sent :=
  let p := Session.player s in
  if Player.isExternalUpdate p
  then (Session.mk (Player.mk (Player.videoRef p) (Player.isPlaying p) false)
                   (Session.roomId s) (Session.isSeeking s), [])
  else (Session.mk (Player.mk (Player.videoRef p) false false)
                   (Session.roomId s) (Session.isSeeking s),
        if Session.isSeeking s then [] else report s false).

(** [handleSeekStart], the [onSeeking] listener. *)
Definition handleSeekStart (s : Session.t) : Session.t :=
  Session.mk (Session.player s) (Session.roomId s) true.

(** [handleSeekEnd], the [onSeeked] listener. *)
Definition handleSeekEnd (s : Session.t) : Session.t * list Sent :=
  (Session.mk (Session.player s) (Session.roomId s) false,
   if Session.isSeeking s
   then report s (Player.isPlaying (Session.player s))
   else []).

(** ** The client: the message list of [Chat] *)

(** The three listeners of the chat panel, each a functional update of
    the [messages] state: a message whose [id] is already listed is
    ignored, any other is appended; join and leave notices are shown as
    coming from ["System"]. *)
Module ChatView.

Inductive Incoming : Type :=
| ChatMessage (message : Message.t)     (* socket.on('chat_message') *)
| UserJoined (message : Message.t)      (* socket.on('user_joined') *)
| UserLeft (message : Message.t).       (* socket.on('user_left') *)

(** [prevMessages.some(m => m.id === message.id)] *)
Definition known (message : Message.t) (prevMessages : list Message.t) : bool :=
  existsb (fun m => (Message.id m =? Message.id message)%string) prevMessages.

(** [{ ...message, timestamp, user: 'System' }] *)
Definition asSystem (message : Message.t) : Message.t :=
  Message.mk (Message.id message) (Some "System") (Message.text message)
             (Message.timestamp message).

Definition handleChatMessage (message : Message.t) (prevMessages : list Message.t)
  : list Message.t :=
  if known message prevMessages then prevMessages else prevMessages ++ [message].

Definition handleUserJoined (message : Message.t) (prevMessages : list Message.t)
  : list Message.t :=
  if known message prevMessages then prevMessages
  else prevMessages ++ [asSystem message].

Definition handleUserLeft (message : Message.t) (prevMessages : list Message.t)
  : list Message.t :=
  if known message prevMessages then prevMessages
  else prevMessages ++ [asSystem message].

Definition receive (prevMessages : list Message.t) (ev : Incoming) : list Message.t :=
  match ev with
  | ChatMessage message => handleChatMessage message prevMessages
  | UserJoined message => handleUserJoined message prevMessages
  | UserLeft message => handleUserLeft message prevMessages
  end.

Definition receiveAll (evs : list Incoming) (prevMessages : list Message.t)
  : list Message.t :=
  fold_left receive evs prevMessages.

Definition ids (messages : list Message.t) : list string := map Message.id messages.

(** What the panel is handed for an emission of the relay. *)
Definition ofEmit (e : Emit) : option Incoming :=
  match payload e with
  | PMessage m =>
      if (event e =? "chat_message")%string then Some (ChatMessage m)
      else if (event e =? "user_joined")%string then Some (UserJoined m)
      else if (event e =? "user_left")%string then Some (UserLeft m)
      else None
  | _ => None
  end.

End ChatView.

(** ** The fallback join and leave on any request body

    [express.json()] hands the two endpoints whatever JSON the body
    holds, and the participant map keeps the [username] as it came.
    This section embeds [POST /api/room/join] and [POST /api/room/leave]
    once more, with the [username] any JSON value; [roomId] and
    [userId] stay strings.  The handlers above are these, restricted to
    usernames that are strings or absent ([untyped_httpJoin_agrees],
    [untyped_httpLeave_agrees] below). *)
Module Untyped.

(** A value in [username] position, as far as the two handlers can
    tell values apart: they test it for truth, compare it with [===]
    and convert it to a string inside a template literal.  An absent
    field is [undefined]; in a request, [null], [false] and [0] fail
    the same checks. *)
Inductive Name : Type :=
| Undefined
| Str (s : string)
| Prim (shown : string)         (* [true] or a non-zero number, with its string form *)
| Obj (shown : option string).  (* an array or object, parsed afresh for each
                                   request; its string form, [None] when the
                                   conversion throws a TypeError, as for
                                   {toString: 1} *)

(** [!!v] *)
Definition truthy (v : Name) : bool :=
  match v with
  | Undefined => false
  | Str s => negb (s =? "")%string
  | Prim _ => true
  | Obj _ => true
  end.

(** [stored === given], the second operand taken from the request at
    hand: an object of the request is identical to no stored value. *)
Definition strict_eq (stored given : Name) : bool :=
  match stored, given with
  | Undefined, Undefined => true
  | Str x, Str y => (x =? y)%string
  | Prim x, Prim y => (x =? y)%string
  | _, _ => false
  end.

(** Conversion to a string by [${v}]; [None] when it throws. *)
Definition interp (v : Name) : option string :=
  match v with
  | Undefined => Some "undefined"
  | Str s => Some s
  | Prim shown => Some shown
  | Obj shown => shown
  end.

Record User : Type := mkUser {
  username : Name;
  userId : option string;
  socketId : option string
}.

Record Room : Type := mkRoom {
  users : JSMap.t User;
  videoState : VideoState.t;
  messages : list Message.t
}.

Inductive Body : Type :=
| BError (error : string)
| BJoin (userId : string) (users : list User) (videoState : VideoState.t)
        (messages : list Message.t)
| BLeave (roomDeleted : bool).

Record Response : Type := respond {
  status : Z;
  body : Body
}.

Definition newRoom : Room :=
  mkRoom [] (VideoState.mk (Some 0%float) (Some false)) [].

Definition hasUsername (given : Name) (u : User) : bool :=
  strict_eq (username u) given.

Definition evictUsername (given : Name) (users : JSMap.t User) : JSMap.t User :=
  fold_left
    (fun acc e => if hasUsername given (snd e) then JSMap.delete (fst e) acc else acc)
    users users.

Fixpoint findByUsername (given : Name) (users : JSMap.t User)
  : option (string * User) :=
  match users with
  | [] => None
  | (k, u) :: rest =>
      if hasUsername given u then Some (k, u) else findByUsername given rest
  end.

Definition HttpResult : Type := JSMap.t Room * Response * list Emit.

(** [POST /api/room/join].  The entry is set before the notice is
    built: when the conversion of [username] throws, the handler's
    [catch] answers 500 and the room, created if need be, keeps the
    entry. *)
Definition httpJoin (now : Z) (rnd : string)
    (roomId : option string) (username : Name) (rooms : JSMap.t Room) : HttpResult :=
  match required roomId, truthy username with
  | Some r, true =>
      let room := match JSMap.get r rooms with
                  | Some room => room
                  | None => newRoom
                  end in
      let userId := ("user-" ++ toString now ++ "-" ++ rnd)%string in
      let users1 := evictUsername username (users room) in
      let users2 := JSMap.set userId (mkUser username (Some userId) None) users1 in
      match interp username with
      | None =>
          (JSMap.set r (mkRoom users2 (videoState room) (messages room)) rooms,
           respond 500 (BError "Failed to join room"), [])
      | Some name =>
          let newMessage := systemMessage now (name ++ " joined the room")%string in
          let messages1 := messages room ++ [newMessage] in
          (JSMap.set r (mkRoom users2 (videoState room) messages1) rooms,
           respond 200 (BJoin userId (JSMap.values users2) (videoState room) messages1),
           [emit (ToRoom r) "user_joined" (PMessage newMessage)])
      end
  | _, _ => (rooms, respond 400 (BError "roomId and username are required"), [])
  end.

Definition httpLeaveFind (userId : option string) (username : Name)
    (users : JSMap.t User) : option (User * JSMap.t User) :=
  let byName :=
    if truthy username
    then match findByUsername username users with
         | Some (k, u) => Some (u, JSMap.delete k users)
         | None => None
         end
    else None in
  match required userId with
  | Some uid =>
      match JSMap.get uid users with
      | Some u => Some (u, JSMap.delete uid users)
      | None => byName
      end
  | None => byName
  end.

(** [POST /api/room/leave].  The entry is deleted before the notice is
    built: when the conversion of the stored username throws, the
    handler's [catch] answers 500 before the check for an empty room is
    reached, and the room stays with the entries that are left. *)
Definition httpLeave (now : Z)
    (roomId userId : option string) (username : Name) (rooms : JSMap.t Room)
  : HttpResult :=
  match required roomId with
  | None => (rooms, respond 400 (BError "roomId is required"), [])
  | Some r =>
      match JSMap.get r rooms with
      | None => (rooms, respond 404 (BError "Room not found"), [])
      | Some room =>
          match httpLeaveFind userId username (users room) with
          | None => (rooms, respond 404 (BError "User not found in room"), [])
          | Some (u, users1) =>
              match interp (Untyped.username u) with
              | None =>
                  (JSMap.set r (mkRoom users1 (videoState room) (messages room)) rooms,
                   respond 500 (BError "Failed to leave room"), [])
              | Some name =>
                  let newMessage :=
                    systemMessage now (name ++ " left the room")%string in
                  let room1 := mkRoom users1 (videoState room)
                                      (messages room ++ [newMessage]) in
                  let out := [emit (ToRoom r) "user_left" (PMessage newMessage)] in
                  if Nat.eqb (JSMap.size users1) 0
                  then (JSMap.delete r rooms, respond 200 (BLeave true), out)
                  else (JSMap.set r room1 rooms, respond 200 (BLeave false), out)
              end
          end
      end
  end.

(** The registry of the handlers above, seen with untyped usernames. *)
Definition ofOption (username : option string) : Name :=
  match username with
  | Some s => Str s
  | None => Undefined
  end.

Definition ofUser (u : User.t) : User :=
  mkUser (ofOption (User.username u)) (User.userId u) (User.socketId u).

Definition ofUsers (users : JSMap.t User.t) : JSMap.t User :=
  map (fun e => (fst e, ofUser (snd e))) users.

Definition ofRoom (room : Room.t) : Room :=
  mkRoom (ofUsers (Room.users room)) (Room.videoState room)
         (Room.messages room).

Definition ofRooms (rooms : JSMap.t Room.t) : JSMap.t Room :=
  map (fun e => (fst e, ofRoom (snd e))) rooms.

End Untyped.

(** * Properties *)

(** ** Facts about [Map] *)
Section JSMapFacts.
Context {V : Type}.
Implicit Types (m : JSMap.t V) (k : string) (v : V).

Lemma get_set_eq k v m : JSMap.get k (JSMap.set k v m) = Some v.
Proof.
  induction m as [|[k' v'] m IH]; simpl.
  - now rewrite String.eqb_refl.
  - destruct (String.eqb k' k) eqn:E; simpl.
    + now rewrite String.eqb_refl.
    + now rewrite E.
Qed.

Lemma get_set_ne k k' v m :
  k <> k' -> JSMap.get k' (JSMap.set k v m) = JSMap.get k' m.
Proof.
  intros Hne. apply String.eqb_neq in Hne.
  induction m as [|[k0 v0] m IH]; simpl.
  - now rewrite Hne.
  - destruct (String.eqb k0 k) eqn:E; simpl.
    + apply String.eqb_eq in E. subst k0. now rewrite Hne.
    + destruct (String.eqb k0 k'); [reflexivity | exact IH].
Qed.

Lemma get_delete_eq k m : JSMap.get k (JSMap.delete k m) = None.
Proof.
  unfold JSMap.delete.
  induction m as [|[k' v'] m IH]; simpl; [reflexivity|].
  destruct (String.eqb k' k) eqn:E; simpl; [exact IH|].
  now rewrite E.
Qed.

Lemma get_delete_ne k k' m :
  k <> k' -> JSMap.get k' (JSMap.delete k m) = JSMap.get k' m.
Proof.
  intros Hne. unfold JSMap.delete.
  induction m as [|[k0 v0] m IH]; simpl; [reflexivity|].
  destruct (String.eqb k0 k) eqn:E; simpl.
  - apply String.eqb_eq in E. subst k0.
    apply String.eqb_neq in Hne. now rewrite Hne.
  - destruct (String.eqb k0 k'); [reflexivity | exact IH].
Qed.

Lemma set_set k v v0 m : JSMap.set k v (JSMap.set k v0 m) = JSMap.set k v m.
Proof.
  induction m as [|[k' v'] m IH]; simpl.
  - now rewrite String.eqb_refl.
  - destruct (String.eqb k' k) eqn:E; simpl.
    + now rewrite String.eqb_refl.
    + now rewrite E, IH.
Qed.

Lemma set_not_nil k v m : JSMap.set k v m <> [].
Proof.
  destruct m as [|[k' v'] m]; simpl; [discriminate|].
  destruct (String.eqb k' k); discriminate.
Qed.

Lemma get_In k v m : JSMap.get k m = Some v -> In (k, v) m.
Proof.
  induction m as [|[k' v'] m IH]; simpl; [discriminate|].
  destruct (String.eqb k' k) eqn:E.
  - apply String.eqb_eq in E. intros [= ->]. subst. now left.
  - intros H. right. now apply IH.
Qed.

Section Entries.
Variable P : V -> Prop.

Lemma Forall_set k v m :
  Forall (fun e => P (snd e)) m -> P v ->
  Forall (fun e => P (snd e)) (JSMap.set k v m).
Proof.
  intros Hm Hv. induction Hm as [|[k' v'] m Hx Hm IH]; simpl.
  - constructor; [exact Hv | constructor].
  - destruct (String.eqb k' k); constructor; auto.
Qed.

Lemma Forall_delete k m :
  Forall (fun e => P (snd e)) m ->
  Forall (fun e => P (snd e)) (JSMap.delete k m).
Proof.
  intros Hm. unfold JSMap.delete. rewrite Forall_forall in *.
  intros e He. apply filter_In in He. now apply Hm.
Qed.

Lemma Forall_get k v m :
  Forall (fun e => P (snd e)) m -> JSMap.get k m = Some v -> P v.
Proof.
  intros Hm Hg. apply get_In in Hg. rewrite Forall_forall in Hm.
  exact (Hm _ Hg).
Qed.
End Entries.
End JSMapFacts.

Lemma required_present r : r <> "" -> required (Some r) = Some r.
Proof.
  intros H. simpl. apply String.eqb_neq in H. now rewrite H.
Qed.

(** ** The registry after [ensureRoom] *)

Lemma ensureRoom_get_absent r rooms :
  JSMap.get r rooms = None -> JSMap.get r (ensureRoom r rooms) = Some newRoom.
Proof.
  intros H. unfold ensureRoom, JSMap.has. rewrite H. apply get_set_eq.
Qed.

Lemma ensureRoom_get_present r rooms room :
  JSMap.get r rooms = Some room -> JSMap.get r (ensureRoom r rooms) = Some room.
Proof.
  intros H. unfold ensureRoom, JSMap.has. now rewrite H.
Qed.

Lemma ensureRoom_set r room rooms :
  JSMap.set r room (ensureRoom r rooms) = JSMap.set r room rooms.
Proof.
  unfold ensureRoom. destruct (JSMap.has r rooms); [reflexivity | apply set_set].
Qed.

(** ** No room of the registry is ever empty *)

Lemma noEmptyRoom_set r room st :
  noEmptyRoom st -> occupied room ->
  noEmptyRoom (setRooms (JSMap.set r room (Server.rooms st)) st).
Proof. intros Hst Hr. exact (Forall_set occupied r room _ Hst Hr). Qed.

Lemma noEmptyRoom_delete r st :
  noEmptyRoom st -> noEmptyRoom (setRooms (JSMap.delete r (Server.rooms st)) st).
Proof. intros Hst. exact (Forall_delete occupied r _ Hst). Qed.

Lemma noEmptyRoom_get r room st :
  noEmptyRoom st -> JSMap.get r (Server.rooms st) = Some room -> occupied room.
Proof. intros Hst Hg. exact (Forall_get occupied r room _ Hst Hg). Qed.

Lemma noEmptyRoom_rooms st st' :
  Server.rooms st' = Server.rooms st -> noEmptyRoom st -> noEmptyRoom st'.
Proof. unfold noEmptyRoom. now intros ->. Qed.

Lemma noEmptyRoom_socketLeave socketId roomId st :
  noEmptyRoom st -> noEmptyRoom (socketLeave socketId roomId st).
Proof. apply noEmptyRoom_rooms. reflexivity. Qed.

Lemma noEmptyRoom_socketJoin socketId roomId st :
  noEmptyRoom st -> noEmptyRoom (socketJoin socketId roomId st).
Proof. apply noEmptyRoom_rooms. reflexivity. Qed.

Lemma httpJoin_noEmptyRoom now rnd roomId username st :
  noEmptyRoom st -> noEmptyRoom (fst (fst (httpJoin now rnd roomId username st))).
Proof.
  intros Hst. unfold httpJoin.
  destruct (required roomId) as [r|]; [|exact Hst].
  destruct (required username) as [name|]; [|exact Hst].
  destruct (JSMap.get r (ensureRoom r (Server.rooms st))) as [room|]; [|exact Hst].
  cbn [fst]. rewrite ensureRoom_set.
  apply noEmptyRoom_set; [exact Hst | apply set_not_nil].
Qed.

Lemma httpLeave_noEmptyRoom now roomId userId username st :
  noEmptyRoom st -> noEmptyRoom (fst (fst (httpLeave now roomId userId username st))).
Proof.
  intros Hst. unfold httpLeave.
  destruct (required roomId) as [r|]; [|exact Hst].
  destruct (JSMap.get r (Server.rooms st)) as [room|]; [|exact Hst].
  destruct (httpLeaveFind userId username (Room.users room)) as [[u users1]|];
    [|exact Hst].
  destruct (Nat.eqb (JSMap.size users1) 0) eqn:E; cbn [fst].
  - now apply noEmptyRoom_delete.
  - apply noEmptyRoom_set; [exact Hst|].
    unfold occupied; cbn. intros ->. discriminate.
Qed.

Lemma httpVideoState_noEmptyRoom roomId currentTime isPlaying st :
  noEmptyRoom st ->
  noEmptyRoom (fst (fst (httpVideoState roomId currentTime isPlaying st))).
Proof.
  intros Hst. unfold httpVideoState.
  destruct (required roomId) as [r|]; [|exact Hst].
  destruct currentTime; [|exact Hst]. destruct isPlaying; [|exact Hst].
  destruct (JSMap.get r (Server.rooms st)) as [room|] eqn:Hg; [|exact Hst].
  cbn [fst]. apply noEmptyRoom_set; [exact Hst|].
  exact (noEmptyRoom_get _ _ _ Hst Hg).
Qed.

Lemma httpChat_noEmptyRoom now roomId text user st :
  noEmptyRoom st -> noEmptyRoom (fst (fst (httpChat now roomId text user st))).
Proof.
  intros Hst. unfold httpChat.
  destruct (required roomId) as [r|]; [|exact Hst].
  destruct (required text); [|exact Hst]. destruct (required user); [|exact Hst].
  destruct (JSMap.get r (Server.rooms st)) as [room|] eqn:Hg; [|exact Hst].
  cbn [fst]. apply noEmptyRoom_set; [exact Hst|].
  exact (noEmptyRoom_get _ _ _ Hst Hg).
Qed.

Lemma leaveRoomCleanup_noEmptyRoom now socketId roomId username st :
  noEmptyRoom st ->
  noEmptyRoom (fst (leaveRoomCleanup now socketId roomId username st)).
Proof.
  intros Hst. unfold leaveRoomCleanup.
  destruct (JSMap.get roomId (Server.rooms st)) as [room|]; [|exact Hst].
  destruct (cleanupFind socketId username (Room.users room)) as [[u users1]|];
    cbn [fst]; apply noEmptyRoom_socketLeave; [|exact Hst].
  destruct (Nat.eqb (JSMap.size users1) 0) eqn:E.
  - now apply noEmptyRoom_delete.
  - apply noEmptyRoom_set; [exact Hst|].
    unfold occupied; cbn. intros ->. discriminate.
Qed.

Lemma joinRoom_noEmptyRoom now socketId roomId username st :
  noEmptyRoom st -> noEmptyRoom (fst (joinRoom now socketId roomId username st)).
Proof.
  intros Hst. unfold joinRoom.
  assert (H1 : noEmptyRoom
                 (fst (if JSSet.has roomId (Conn.userRooms (connOf socketId st))
                       then leaveRoomCleanup now socketId roomId username st
                       else (st, [])))).
  { destruct (JSSet.has roomId _);
      [now apply leaveRoomCleanup_noEmptyRoom | exact Hst]. }
  destruct (if JSSet.has roomId _ then _ else _) as [st1 out1]. cbn [fst] in H1.
  assert (H2 : noEmptyRoom (socketJoin socketId roomId st1))
    by now apply noEmptyRoom_socketJoin.
  destruct (JSMap.get roomId (ensureRoom roomId _)) as [room|]; [|exact H2].
  cbn [fst]. rewrite ensureRoom_set.
  apply noEmptyRoom_set; [exact H2 | apply set_not_nil].
Qed.

Lemma videoStateUpdate_noEmptyRoom socketId currentTime isPlaying roomId st :
  noEmptyRoom st ->
  noEmptyRoom (fst (videoStateUpdate socketId currentTime isPlaying roomId st)).
Proof.
  intros Hst. unfold videoStateUpdate.
  destruct (JSMap.get roomId (Server.rooms st)) as [room|] eqn:Hg; [|exact Hst].
  destruct (JSMap.get socketId (Room.users room)); [|exact Hst].
  cbn [fst]. apply noEmptyRoom_set; [exact Hst|].
  exact (noEmptyRoom_get _ _ _ Hst Hg).
Qed.

Lemma chatMessage_noEmptyRoom now rnd socketId text roomId user timestamp st :
  noEmptyRoom st ->
  noEmptyRoom (fst (chatMessage now rnd socketId text roomId user timestamp st)).
Proof.
  intros Hst. unfold chatMessage.
  destruct (JSMap.get roomId (Server.rooms st)) as [room|] eqn:Hg; [|exact Hst].
  destruct (Nat.ltb 0 _); [exact Hst|].
  cbn [fst]. apply noEmptyRoom_set; [exact Hst|].
  exact (noEmptyRoom_get _ _ _ Hst Hg).
Qed.

Lemma fold_noEmptyRoom {A : Type} (f : PushResult -> A -> PushResult) l :
  (forall acc x, noEmptyRoom (fst acc) -> noEmptyRoom (fst (f acc x))) ->
  forall acc, noEmptyRoom (fst acc) -> noEmptyRoom (fst (fold_left f l acc)).
Proof.
  intros Hf. induction l as [|x l IH]; intros acc Hacc; simpl; auto.
Qed.

Lemma disconnect_noEmptyRoom now socketId st :
  noEmptyRoom st -> noEmptyRoom (fst (disconnect now socketId st)).
Proof.
  intros Hst. unfold disconnect, noEmptyRoom. cbn [fst Server.rooms].
  apply fold_noEmptyRoom.
  - intros [s out] r Hs. cbn [fst] in Hs.
    destruct (JSMap.get r (Server.rooms s)) as [room|]; [|exact Hs].
    destruct (JSMap.has socketId (Room.users room)); [|exact Hs].
    pose proof (leaveRoomCleanup_noEmptyRoom now socketId r
                  (usernameIn socketId r s) s Hs) as H.
    destruct (leaveRoomCleanup now socketId r (usernameIn socketId r s) s).
    exact H.
  - apply fold_noEmptyRoom; [|exact Hst].
    intros [s out] r Hs. cbn [fst] in Hs.
    pose proof (leaveRoomCleanup_noEmptyRoom now socketId r
                  (usernameIn socketId r s) s Hs) as H.
    destruct (leaveRoomCleanup now socketId r (usernameIn socketId r s) s).
    exact H.
Qed.

Lemma handle_noEmptyRoom rq st :
  noEmptyRoom st -> noEmptyRoom (fst (handle rq st)).
Proof.
  intros Hst. destruct rq; cbn [handle dropResponse fst];
    auto using httpJoin_noEmptyRoom, httpLeave_noEmptyRoom,
      httpVideoState_noEmptyRoom, httpChat_noEmptyRoom, joinRoom_noEmptyRoom,
      leaveRoomCleanup_noEmptyRoom, videoStateUpdate_noEmptyRoom,
      chatMessage_noEmptyRoom, disconnect_noEmptyRoom.
Qed.

Lemma reachable_noEmptyRoom st : reachable st -> noEmptyRoom st.
Proof.
  induction 1 as [|rq st _ IH]; [constructor | now apply handle_noEmptyRoom].
Qed.

(** ** Leaving a room *)

(** The fallback leave, once a participant is found: the room is deleted
    when no entry remains and otherwise keeps the remaining entries. *)
Lemma httpLeave_found now r userId username st room u users1 :
  r <> "" ->
  JSMap.get r (Server.rooms st) = Some room ->
  httpLeaveFind userId username (Room.users room) = Some (u, users1) ->
  let newMessage := systemMessage now (interp (User.username u) ++ " left the room")%string in
  httpLeave now (Some r) userId username st =
    (setRooms (if Nat.eqb (JSMap.size users1) 0
               then JSMap.delete r (Server.rooms st)
               else JSMap.set r (Room.mk users1 (Room.videoState room)
                                         (Room.messages room ++ [newMessage]))
                              (Server.rooms st)) st,
     respond 200 (BLeave (Nat.eqb (JSMap.size users1) 0)),
     [emit (ToRoom r) "user_left" (PMessage newMessage)]).
Proof.
  intros Hr Hg Hf. unfold httpLeave.
  rewrite (required_present r Hr), Hg, Hf.
  destruct (Nat.eqb (JSMap.size users1) 0); reflexivity.
Qed.

(** The push leave, once a participant is found. *)
Lemma leaveRoom_found now socketId r username st room u users1 :
  JSMap.get r (Server.rooms st) = Some room ->
  cleanupFind socketId username (Room.users room) = Some (u, users1) ->
  leaveRoom now socketId r username st =
    (socketLeave socketId r
       (setRooms (if Nat.eqb (JSMap.size users1) 0
                  then JSMap.delete r (Server.rooms st)
                  else JSMap.set r (Room.mk users1 (Room.videoState room)
                                            (Room.messages room))
                                 (Server.rooms st)) st),
     [emit (ToRoom r) "user_left"
           (PMessage (Message.mk (toString now) (User.username u)
                        (Some (interp (User.username u) ++ " left the room")%string)
                        now))]).
Proof.
  intros Hg Hf. unfold leaveRoom, leaveRoomCleanup. now rewrite Hg, Hf.
Qed.

(** A room's only participant is found by either leave when addressed
    by its key, and nothing remains. *)
Lemma cleanupFind_sole socketId username u :
  cleanupFind socketId username [(socketId, u)] = Some (u, []).
Proof.
  unfold cleanupFind. cbn. now rewrite String.eqb_refl.
Qed.

Lemma httpLeaveFind_sole userId username u :
  userId <> "" ->
  httpLeaveFind (Some userId) username [(userId, u)] = Some (u, []).
Proof.
  intros Hne. unfold httpLeaveFind. rewrite (required_present userId Hne).
  cbn. now rewrite String.eqb_refl.
Qed.

(** As long as every request carries a username that is a string or
    none at all: in every state the relay can reach, no room of the
    registry has an empty participant map, and this still holds right
    after a leave on either path; a leave that removes the last
    participant entry of a room (the entries that remain are none)
    deletes the room within the same handler: the room is absent from
    the registry afterwards, and the fallback path answers
    [roomDeleted: true]. *)
Lemma leave_deletes_emptied_room :
  forall st, reachable st ->
    noEmptyRoom st /\
    (forall now roomId userId username,
        noEmptyRoom (fst (fst (httpLeave now roomId userId username st)))) /\
    (forall now socketId roomId username,
        noEmptyRoom (fst (leaveRoom now socketId roomId username st))) /\
    (forall now r userId username room u,
        r <> "" ->
        JSMap.get r (Server.rooms st) = Some room ->
        httpLeaveFind userId username (Room.users room) = Some (u, []) ->
        JSMap.get r (Server.rooms (fst (fst (httpLeave now (Some r) userId username st))))
          = None /\
        snd (fst (httpLeave now (Some r) userId username st))
          = respond 200 (BLeave true)) /\
    (forall now socketId r username room u,
        JSMap.get r (Server.rooms st) = Some room ->
        cleanupFind socketId username (Room.users room) = Some (u, []) ->
        JSMap.get r (Server.rooms (fst (leaveRoom now socketId r username st))) = None).
Proof.
  intros st Hreach. pose proof (reachable_noEmptyRoom st Hreach) as Hst.
  split; [exact Hst|].
  split; [intros; now apply httpLeave_noEmptyRoom|].
  split; [intros; now apply leaveRoomCleanup_noEmptyRoom|].
  split.
  - intros now r userId username room u Hr Hg Hf.
    rewrite (httpLeave_found now r userId username st room u [] Hr Hg Hf).
    split; [cbn; apply get_delete_eq | reflexivity].
  - intros now socketId r username room u Hg Hf.
    rewrite (leaveRoom_found now socketId r username st room u [] Hg Hf).
    cbn. apply get_delete_eq.
Qed.

Lemma run_reachable rqs st : reachable st -> reachable (fst (run rqs st)).
Proof.
  intros Hst. unfold run.
  assert (H : reachable (fst (st, @nil Emit))) by exact Hst.
  revert H. generalize (st, @nil Emit).
  induction rqs as [|rq rqs IH]; intros acc Hacc; simpl; [exact Hacc|].
  apply IH. pose proof (reachable_handle rq (fst acc) Hacc) as H.
  destruct (handle rq (fst acc)). exact H.
Qed.

Example leave_deletes_emptied_room_example :
  reachable roomOfOne /\
  JSMap.get "abc" (Server.rooms (fst (leaveRoom 2000 "a" "abc" None roomOfOne))) = None.
Proof.
  assert (R : reachable roomOfOne) by apply run_reachable, reachable_initial.
  split; [exact R|].
  eapply (proj2 (proj2 (proj2 (proj2 (leave_deletes_emptied_room roomOfOne R))))
            2000%Z "a" "abc" None); reflexivity.
Qed.

(** ** Joining a room *)

Lemma filter_all {A : Type} (l : list A) : filter (fun _ => true) l = l.
Proof. induction l as [|x l IH]; simpl; [reflexivity | now rewrite IH]. Qed.

Lemma filter_filter {A : Type} (f g : A -> bool) (l : list A) :
  filter f (filter g l) = filter (fun x => g x && f x) l.
Proof.
  induction l as [|x l IH]; simpl; [reflexivity|].
  destruct (g x); simpl; [destruct (f x); now rewrite IH | exact IH].
Qed.

(** The eviction loop, over any snapshot [l] of the entries. *)
Lemma evict_fold username l acc :
  fold_left
    (fun acc e => if hasUsername username (snd e) then JSMap.delete (fst e) acc else acc)
    l acc
  = filter (fun x => negb (keyOfNamed username l x)) acc.
Proof.
  revert acc. induction l as [|e l IH]; intros acc; simpl.
  - apply eq_sym, filter_all.
  - rewrite IH. destruct (hasUsername username (snd e)); simpl.
    + unfold JSMap.delete. rewrite filter_filter. apply filter_ext.
      intros x. now rewrite negb_orb.
    + reflexivity.
Qed.

(** After the eviction loop no entry carries the username. *)
Lemma evictUsername_none username users :
  Forall (fun e => hasUsername username (snd e) = false) (evictUsername username users).
Proof.
  unfold evictUsername. rewrite evict_fold. apply Forall_forall.
  intros x Hx. apply filter_In in Hx. destruct Hx as [Hin Hk].
  destruct (hasUsername username (snd x)) eqn:E; [|reflexivity].
  apply negb_true_iff in Hk.
  assert (Ht : keyOfNamed username users x = true).
  { apply existsb_exists. exists x. split; [exact Hin|].
    now rewrite E, String.eqb_refl. }
  congruence.
Qed.

(** The eviction loop removes nothing but entries that share a key with
    an entry of that username. *)
Lemma evictUsername_keeps username users x :
  In x users -> keyOfNamed username users x = false ->
  In x (evictUsername username users).
Proof.
  intros Hin Hk. unfold evictUsername. rewrite evict_fold.
  apply filter_In. now rewrite Hk.
Qed.

Lemma filter_set_fresh (f : User.t -> bool) k v (m : JSMap.t User.t) :
  Forall (fun e => f (snd e) = false) m -> f v = true ->
  filter (fun e => f (snd e)) (JSMap.set k v m) = [(k, v)].
Proof.
  intros Hm Hv. induction Hm as [|[k' v'] m Hx Hm IH]; simpl.
  - now rewrite Hv.
  - cbn in Hx. destruct (String.eqb k' k); simpl.
    + rewrite Hv. f_equal.
      clear IH. induction Hm as [|y m Hy Hm IH]; simpl; [reflexivity|].
      now rewrite Hy.
    + now rewrite Hx.
Qed.

Lemma hasUsername_refl username uid sid :
  hasUsername username (User.mk (Some username) uid sid) = true.
Proof. unfold hasUsername. cbn. apply String.eqb_refl. Qed.

(** The fallback join on a well-formed request: the room it works on,
    the room it leaves behind, the response and the broadcast. *)
Lemma httpJoin_accepted now rnd r name st :
  r <> "" -> name <> "" ->
  let room := match JSMap.get r (Server.rooms st) with
              | Some room => room
              | None => newRoom
              end in
  let userId := ("user-" ++ toString now ++ "-" ++ rnd)%string in
  let users2 := JSMap.set userId (User.mk (Some name) (Some userId) None)
                          (evictUsername name (Room.users room)) in
  let newMessage := systemMessage now (name ++ " joined the room")%string in
  httpJoin now rnd (Some r) (Some name) st =
    (setRooms (JSMap.set r (Room.mk users2 (Room.videoState room)
                                    (Room.messages room ++ [newMessage]))
                         (Server.rooms st)) st,
     respond 200 (BJoin userId (JSMap.values users2) (Room.videoState room)
                        (Room.messages room ++ [newMessage])),
     [emit (ToRoom r) "user_joined" (PMessage newMessage)]).
Proof.
  intros Hr Hn. unfold httpJoin.
  rewrite (required_present r Hr), (required_present name Hn).
  destruct (JSMap.get r (Server.rooms st)) as [room|] eqn:Hg.
  - rewrite (ensureRoom_get_present _ _ _ Hg), ensureRoom_set. reflexivity.
  - rewrite (ensureRoom_get_absent _ _ Hg), ensureRoom_set. reflexivity.
Qed.

(** On the fallback path the join leaves exactly one entry with the
    joining username: the new one. *)
Lemma httpJoin_one_entry_per_username now rnd r name st :
  r <> "" -> name <> "" ->
  let userId := ("user-" ++ toString now ++ "-" ++ rnd)%string in
  exists room',
    JSMap.get r (Server.rooms (fst (fst (httpJoin now rnd (Some r) (Some name) st))))
      = Some room' /\
    entriesNamed name room' = [(userId, User.mk (Some name) (Some userId) None)].
Proof.
  intros Hr Hn. cbv zeta. rewrite (httpJoin_accepted now rnd r name st Hr Hn).
  cbn [fst setRooms Server.rooms]. rewrite get_set_eq.
  eexists. split; [reflexivity|].
  unfold entriesNamed. cbn [Room.users].
  apply (filter_set_fresh (hasUsername name)).
  - apply evictUsername_none.
  - apply hasUsername_refl.
Qed.

(** The push join of a socket that is not yet in the room's [userRooms]:
    no cleanup runs, the entry is set under [socket.id], the history is
    not touched. *)
Lemma joinRoom_first_time now socketId r username st :
  JSSet.has r (Conn.userRooms (connOf socketId st)) = false ->
  let room := match JSMap.get r (Server.rooms st) with
              | Some room => room
              | None => newRoom
              end in
  let users1 := JSMap.set socketId (User.mk username None (Some socketId))
                          (Room.users room) in
  joinRoom now socketId r username st =
    (setRooms (JSMap.set r (Room.mk users1 (Room.videoState room) (Room.messages room))
                         (Server.rooms st))
              (socketJoin socketId r st),
     [emit (ToRoom r) "user_joined"
           (PMessage (Message.mk (toString now) username
                        (Some (interp username ++ " joined the room")%string) now));
      emit (ToSocket socketId) "room_users"
           (PRoomUsers (JSMap.values users1) (Room.videoState room)
                       (Room.messages room))]).
Proof.
  intros Hfresh. unfold joinRoom. rewrite Hfresh.
  change (Server.rooms (socketJoin socketId r st)) with (Server.rooms st).
  destruct (JSMap.get r (Server.rooms st)) as [room|] eqn:Hg.
  - rewrite (ensureRoom_get_present _ _ _ Hg), ensureRoom_set. reflexivity.
  - rewrite (ensureRoom_get_absent _ _ Hg), ensureRoom_set. reflexivity.
Qed.

(** C2, at the input where the push path departs from it: ["A"] is in
    room ["abc"] on socket ["a"]; a second socket ["a2"] joins the room
    with the same username.  The earlier entry is not removed and two
    entries named ["A"] remain, whereas the same join through the
    fallback path leaves one. *)
Theorem push_join_keeps_namesake :
  (exists room,
      JSMap.get "abc" (Server.rooms
        (fst (run [OnConnection "a2"; OnJoinRoom 2000 "a2" "abc" (Some "A")] roomOfOne)))
        = Some room /\
      entriesNamed "A" room =
        [("a", User.mk (Some "A") None (Some "a"));
         ("a2", User.mk (Some "A") None (Some "a2"))]) /\
  (exists room,
      JSMap.get "abc" (Server.rooms
        (fst (run [PostJoin 2000 "k3x" (Some "abc") (Some "A")] roomOfOne)))
        = Some room /\
      entriesNamed "A" room =
        [("user-2000-k3x", User.mk (Some "A") (Some "user-2000-k3x") None)]).
Proof.
  split; eexists; split; reflexivity.
Qed.

(** ** Chat *)

Lemma strict_eq_refl a : strict_eq a a = true.
Proof. destruct a; cbn; [apply String.eqb_refl | reflexivity]. Qed.

Lemma strict_eq_true a b : strict_eq a b = true -> a = b.
Proof.
  destruct a, b; cbn; try discriminate; [|reflexivity].
  intros H. apply String.eqb_eq in H. now subst.
Qed.

Lemma getTime_in_range t :
  (Z.abs t <= 8640000000000000)%Z -> getTime t = Some t.
Proof. intros H. unfold getTime. apply Z.leb_le in H. now rewrite H. Qed.

Lemma getTime_out_of_range t :
  (8640000000000000 < Z.abs t)%Z -> getTime t = None.
Proof.
  intros H. unfold getTime.
  destruct (Z.leb_spec (Z.abs t) 8640000000000000); [lia | reflexivity].
Qed.

(** What the filter of [chat_message] accepts. *)
Lemma isRecentDuplicate_true now user text msg :
  isRecentDuplicate now user text msg = true <->
  Message.user msg = user /\ Message.text msg = text /\
  (Z.abs (Message.timestamp msg) <= 8640000000000000)%Z /\
  (now - Message.timestamp msg < 2000)%Z.
Proof.
  unfold isRecentDuplicate, getTime. split.
  - intros H. apply andb_true_iff in H. destruct H as [H Hlt].
    apply andb_true_iff in H. destruct H as [Hu Ht].
    apply strict_eq_true in Hu. apply strict_eq_true in Ht.
    destruct (Z.leb_spec (Z.abs (Message.timestamp msg)) 8640000000000000);
      [|discriminate].
    apply Z.ltb_lt in Hlt. auto.
  - intros [Hu [Ht [Hr Hlt]]]. rewrite Hu, Ht, !strict_eq_refl.
    apply Z.leb_le in Hr. rewrite Hr. cbn. now apply Z.ltb_lt.
Qed.

(** The push path drops a post when the history holds a message of the
    same user and text whose timestamp is a date less than 2000 ms
    before [now]. *)
Lemma chatMessage_drops_recent_duplicate
    now rnd socketId text r user timestamp st room msg :
  JSMap.get r (Server.rooms st) = Some room ->
  In msg (Room.messages room) ->
  Message.user msg = user -> Message.text msg = text ->
  (Z.abs (Message.timestamp msg) <= 8640000000000000)%Z ->
  (now - Message.timestamp msg < 2000)%Z ->
  chatMessage now rnd socketId text r user timestamp st = (st, []).
Proof.
  intros Hg Hin Hu Ht Hr Hlt. unfold chatMessage. rewrite Hg.
  destruct (filter (isRecentDuplicate now user text) (Room.messages room))
    as [|d ds] eqn:Hf; [|reflexivity].
  exfalso.
  assert (Hd : In msg (filter (isRecentDuplicate now user text) (Room.messages room))).
  { apply filter_In. split; [exact Hin|]. apply isRecentDuplicate_true. auto. }
  rewrite Hf in Hd. exact Hd.
Qed.

(** The push path stores and broadcasts a post when every message of
    the same user and text is stamped 2000 ms or more before [now], or
    with no date at all. *)
Lemma chatMessage_stores_when_old
    now rnd socketId text r user timestamp st room :
  JSMap.get r (Server.rooms st) = Some room ->
  (forall msg, In msg (Room.messages room) ->
               Message.user msg = user -> Message.text msg = text ->
               (8640000000000000 < Z.abs (Message.timestamp msg))%Z \/
               (2000 <= now - Message.timestamp msg)%Z) ->
  let newMessage :=
    Message.mk (toString now ++ "-" ++ rnd)%string user text (orNow timestamp now) in
  chatMessage now rnd socketId text r user timestamp st =
    (setRooms (JSMap.set r (Room.mk (Room.users room) (Room.videoState room)
                                    (Room.messages room ++ [newMessage]))
                         (Server.rooms st)) st,
     [emit (ToRoom r) "chat_message" (PMessage newMessage)]).
Proof.
  intros Hg Hold. cbv zeta. unfold chatMessage. rewrite Hg.
  destruct (filter (isRecentDuplicate now user text) (Room.messages room))
    as [|d ds] eqn:Hf; [reflexivity|].
  exfalso.
  assert (Hd : In d (filter (isRecentDuplicate now user text) (Room.messages room)))
    by (rewrite Hf; now left).
  apply filter_In in Hd. destruct Hd as [Hin Hdup].
  apply isRecentDuplicate_true in Hdup. destruct Hdup as [Hu [Ht [Hr Hlt]]].
  destruct (Hold d Hin Hu Ht); lia.
Qed.

(** The fallback path appends every well-formed post to an existing
    room: its handler has no duplicate check. *)
Lemma httpChat_always_appends now r txt usr st room :
  r <> "" -> txt <> "" -> usr <> "" ->
  JSMap.get r (Server.rooms st) = Some room ->
  let newMessage := Message.mk (toString now) (Some usr) (Some txt) now in
  httpChat now (Some r) (Some txt) (Some usr) st =
    (setRooms (JSMap.set r (Room.mk (Room.users room) (Room.videoState room)
                                    (Room.messages room ++ [newMessage]))
                         (Server.rooms st)) st,
     respond 200 (BChat (toString now)),
     [emit (ToRoom r) "chat_message" (PMessage newMessage)]).
Proof.
  intros Hr Ht Hu Hg. unfold httpChat.
  now rewrite (required_present r Hr), (required_present txt Ht),
    (required_present usr Hu), Hg.
Qed.

(** C3, at the input where the fallback path departs from it: ["A"]
    posts ["hi"] to room ["abc"] twice, 500 ms apart.  Through the
    fallback endpoint both posts are stored and both are broadcast;
    through the push path the second is dropped, and a repeat after
    2000 ms is stored. *)
Theorem fallback_chat_stores_duplicate :
  historyLength "abc"
    (fst (run [PostChat 5000 (Some "abc") (Some "hi") (Some "A");
               PostChat 5500 (Some "abc") (Some "hi") (Some "A")] roomOfOne)) = 2 /\
  List.length
    (snd (run [PostChat 5000 (Some "abc") (Some "hi") (Some "A");
               PostChat 5500 (Some "abc") (Some "hi") (Some "A")] roomOfOne)) = 2 /\
  historyLength "abc"
    (fst (run [OnChatMessage 5000 "r1" "a" (Some "hi") "abc" (Some "A") None;
               OnChatMessage 5500 "r2" "a" (Some "hi") "abc" (Some "A") None]
              roomOfOne)) = 1 /\
  historyLength "abc"
    (fst (run [OnChatMessage 5000 "r1" "a" (Some "hi") "abc" (Some "A") None;
               OnChatMessage 7000 "r2" "a" (Some "hi") "abc" (Some "A") None]
              roomOfOne)) = 2.
Proof.
  repeat split; reflexivity.
Qed.

(** ** System messages *)

(** C4, at the inputs where the push path departs from it.  In room
    ["abc"] (participant ["A"], empty history): socket ["b"] joins as
    ["B"] through the push path, the join message is broadcast once to
    the room but the room's history stays empty; ["B"] then leaves
    through the push path, the leave message is broadcast once and the
    history is still empty.  The same join through the fallback path
    appends the message to the history and broadcasts it once. *)
Theorem push_join_leave_skip_history :
  historyLength "abc" roomWithBystander = 0 /\
  run [OnJoinRoom 2000 "b" "abc" (Some "B")] roomWithBystander =
    (roomOfTwo,
     [emit (ToRoom "abc") "user_joined"
           (PMessage (Message.mk "2000" (Some "B") (Some "B joined the room") 2000));
      emit (ToSocket "b") "room_users"
           (PRoomUsers [User.mk (Some "A") None (Some "a");
                        User.mk (Some "B") None (Some "b")]
                       (VideoState.mk (Some 0%float) (Some false)) [])]) /\
  historyLength "abc" roomOfTwo = 0 /\
  snd (run [OnLeaveRoom 3000 "b" "abc" (Some "B")] roomOfTwo) =
    [emit (ToRoom "abc") "user_left"
          (PMessage (Message.mk "3000" (Some "B") (Some "B left the room") 3000))] /\
  historyLength "abc"
    (fst (run [OnLeaveRoom 3000 "b" "abc" (Some "B")] roomOfTwo)) = 0 /\
  snd (run [PostJoin 2000 "k3x" (Some "abc") (Some "B")] roomWithBystander) =
    [emit (ToRoom "abc") "user_joined"
          (PMessage (Message.mk "2000" (Some "System") (Some "B joined the room") 2000))] /\
  historyLength "abc"
    (fst (run [PostJoin 2000 "k3x" (Some "abc") (Some "B")] roomWithBystander)) = 1.
Proof.
  repeat split; reflexivity.
Qed.

(** ** Requests that lack a field *)

(** The fallback join rejects a request without a username (or without
    a room id) and touches nothing. *)
Lemma httpJoin_missing_field now rnd roomId username st :
  required roomId = None \/ required username = None ->
  httpJoin now rnd roomId username st =
    (st, respond 400 (BError "roomId and username are required"), []).
Proof.
  unfold httpJoin. intros [H|H]; rewrite H; [reflexivity|].
  destruct (required roomId); reflexivity.
Qed.

(** C7, at the input where the push path departs from it: on a fresh
    server, socket ["a"] sends [join_room] with a room id and no
    username.  The fallback path answers 400 and changes nothing; the
    push path creates the room, registers a participant without a
    username and broadcasts ["undefined joined the room"]. *)
Theorem push_join_without_username :
  httpJoin 1000 "k3x" (Some "abc") None (connection "a" Server.initial) =
    (connection "a" Server.initial,
     respond 400 (BError "roomId and username are required"), []) /\
  joinRoom 1000 "a" "abc" None (connection "a" Server.initial) =
    (Server.mk
       [("abc", Room.mk [("a", User.mk None None (Some "a"))]
                        (VideoState.mk (Some 0%float) (Some false)) [])]
       [("a", Conn.mk ["abc"] ["abc"])],
     [emit (ToRoom "abc") "user_joined"
           (PMessage (Message.mk "1000" None (Some "undefined joined the room") 1000));
      emit (ToSocket "a") "room_users"
           (PRoomUsers [User.mk None None (Some "a")]
                       (VideoState.mk (Some 0%float) (Some false)) [])]).
Proof.
  split; reflexivity.
Qed.

(** ** Playback updates *)






(** C6. A playback update for a room that is not in the registry: on
    the push path the handler returns at once, with the state as it was
    and nothing emitted; on the fallback path a request that carries its
    fields (a non-empty room id, a [currentTime], an [isPlaying]) is
    answered 404 ["Room not found"], with the state as it was and
    nothing emitted. *)
Theorem playback_update_unknown_room :
  forall st r,
    JSMap.get r (Server.rooms st) = None ->
    (forall socketId currentTime isPlaying,
        videoStateUpdate socketId currentTime isPlaying r st = (st, [])) /\
    (forall currentTime isPlaying,
        r <> "" ->
        httpVideoState (Some r) (Some currentTime) (Some isPlaying) st =
          (st, respond 404 (BError "Room not found"), [])).
Proof.
  intros st r Hg. split.
  - intros. unfold videoStateUpdate. now rewrite Hg.
  - intros currentTime isPlaying Hr. unfold httpVideoState.
    now rewrite (required_present r Hr), Hg.
Qed.

Lemma playback_update_unknown_room_witness :
  videoStateUpdate "a" (Some 42%float) (Some true) "nowhere" roomOfOne = (roomOfOne, []) /\
  httpVideoState (Some "nowhere") (Some 42%float) (Some true) roomOfOne =
    (roomOfOne, respond 404 (BError "Room not found"), []).
Proof.
  destruct (playback_update_unknown_room roomOfOne "nowhere" eq_refl) as [Hpush Hhttp].
  split; [apply Hpush | apply Hhttp; discriminate].
Defined.

(** The fallback endpoint checks the fields before it looks the room
    up: a request without a room id (or with an empty one), without
    [currentTime] or without [isPlaying] is answered 400 and changes
    nothing. *)
Lemma httpVideoState_missing_field roomId currentTime isPlaying st :
  required roomId = None \/ currentTime = None \/ isPlaying = None ->
  httpVideoState roomId currentTime isPlaying st =
    (st, respond 400 (BError "roomId, currentTime, and isPlaying are required"), []).
Proof.
  unfold httpVideoState. intros [H|[H|H]]; rewrite H.
  - reflexivity.
  - now destruct (required roomId).
  - now destruct (required roomId), currentTime.
Qed.

(** C10. On the push path a playback update for an existing room, sent
    by a socket whose id is no key of the room's participant map, leaves
    the state (and with it the room's [videoState]) as it was and emits
    nothing. *)
Theorem playback_update_by_non_participant :
  forall st socketId currentTime isPlaying r room,
    JSMap.get r (Server.rooms st) = Some room ->
    JSMap.get socketId (Room.users room) = None ->
    videoStateUpdate socketId currentTime isPlaying r st = (st, []).
Proof.
  intros st socketId currentTime isPlaying r room Hg Hu.
  unfold videoStateUpdate. now rewrite Hg, Hu.
Qed.

Lemma playback_update_by_non_participant_witness :
  videoStateUpdate "b" (Some 42%float) (Some true) "abc" roomWithBystander =
    (roomWithBystander, []).
Proof.
  eapply (playback_update_by_non_participant roomWithBystander "b"); reflexivity.
Defined.

(** ** Rooms created on first join *)

(** C9. When a join, on either path, finds no room under the given id,
    the room it creates and then works on has no participant, no
    message and the playback state [{currentTime: 0, isPlaying: false}].
    So after the fallback join the room holds the joiner alone, that
    playback state and the join message as its only message; after the
    push join it holds the joiner alone, that playback state and no
    message, and [room_users] tells the joiner just that. *)
Theorem room_created_on_first_join :
  forall st r,
    JSMap.get r (Server.rooms st) = None ->
    JSMap.get r (ensureRoom r (Server.rooms st)) =
      Some (Room.mk [] (VideoState.mk (Some 0%float) (Some false)) []) /\
    (forall now rnd name,
        r <> "" -> name <> "" ->
        let userId := ("user-" ++ toString now ++ "-" ++ rnd)%string in
        let joiner := User.mk (Some name) (Some userId) None in
        let newMessage := systemMessage now (name ++ " joined the room")%string in
        let playback := VideoState.mk (Some 0%float) (Some false) in
        httpJoin now rnd (Some r) (Some name) st =
          (setRooms (JSMap.set r (Room.mk [(userId, joiner)] playback [newMessage])
                               (Server.rooms st)) st,
           respond 200 (BJoin userId [joiner] playback [newMessage]),
           [emit (ToRoom r) "user_joined" (PMessage newMessage)])) /\
    (forall now socketId username,
        let joiner := User.mk username None (Some socketId) in
        let playback := VideoState.mk (Some 0%float) (Some false) in
        joinRoom now socketId r username st =
          (setRooms (JSMap.set r (Room.mk [(socketId, joiner)] playback [])
                               (Server.rooms st))
                    (socketJoin socketId r st),
           [emit (ToRoom r) "user_joined"
                 (PMessage (Message.mk (toString now) username
                              (Some (interp username ++ " joined the room")%string) now));
            emit (ToSocket socketId) "room_users" (PRoomUsers [joiner] playback [])])).
Proof.
  intros st r Hg. split; [exact (ensureRoom_get_absent r _ Hg)|]. split.
  - intros now rnd name Hr Hn. cbv zeta.
    rewrite (httpJoin_accepted now rnd r name st Hr Hn), Hg. reflexivity.
  - intros now socketId username. cbv zeta. unfold joinRoom.
    assert (Hpre : (if JSSet.has r (Conn.userRooms (connOf socketId st))
                    then leaveRoomCleanup now socketId r username st
                    else (st, [])) = (st, [])).
    { destruct (JSSet.has r _); [|reflexivity].
      unfold leaveRoomCleanup. now rewrite Hg. }
    rewrite Hpre.
    change (Server.rooms (socketJoin socketId r st)) with (Server.rooms st).
    rewrite (ensureRoom_get_absent _ _ Hg), ensureRoom_set. reflexivity.
Qed.

Lemma room_created_on_first_join_witness :
  JSMap.get "den" (Server.rooms (fst (joinRoom 3000 "b" "den" (Some "B") roomOfOne))) =
    Some (Room.mk [("b", User.mk (Some "B") None (Some "b"))]
                  (VideoState.mk (Some 0%float) (Some false)) []) /\
  JSMap.get "den"
    (Server.rooms (fst (fst (httpJoin 3000 "k3x" (Some "den") (Some "B") roomOfOne)))) =
    Some (Room.mk [("user-3000-k3x", User.mk (Some "B") (Some "user-3000-k3x") None)]
                  (VideoState.mk (Some 0%float) (Some false))
                  [systemMessage 3000 "B joined the room"]).
Proof.
  destruct (room_created_on_first_join roomOfOne "den" eq_refl) as [_ [Hhttp Hpush]].
  rewrite (Hpush 3000%Z "b" (Some "B")).
  rewrite (Hhttp 3000%Z "k3x" "B" ltac:(discriminate) ltac:(discriminate)).
  split; reflexivity.
Defined.

(** ** Drift correction on the client *)

Lemma SFcompare_antisym x y :
  SFcompare y x =
  match SFcompare x y with
  | Some c => Some (CompOpp c)
  | None => None
  end.
Proof.
  destruct x as [sx|sx| |sx mx ex], y as [sy|sy| |sy my ey]; cbn;
    try reflexivity; try (destruct sx; reflexivity); try (destruct sy; reflexivity);
    try (destruct sx, sy; reflexivity).
  destruct sx, sy; try reflexivity; f_equal;
    rewrite (Z.compare_antisym ex ey); destruct (ex ?= ey)%Z; cbn; try reflexivity.
  - rewrite (ZC4 mx my). now rewrite !CompOpp_involutive.
  - apply ZC4.
Qed.

(** On doubles, [x <= y] rules out [y < x]. *)
Lemma leb_not_ltb (x y : float) :
  PrimFloat.leb x y = true -> PrimFloat.ltb y x = false.
Proof.
  rewrite leb_spec, ltb_spec. unfold SFleb, SFltb.
  rewrite (SFcompare_antisym (Prim2SF x) (Prim2SF y)).
  destruct (SFcompare (Prim2SF x) (Prim2SF y)) as [[]|]; cbn; congruence.
Qed.

(** C8. When the player has its video element, an incoming playback
    state moves the local position to the incoming [currentTime] if
    [|local - incoming| > 1], and in that case only: if the difference
    is at most 1 (in general, whenever it does not exceed 1) the
    position stays as it was.  In both cases the play state is
    reconciled: the [isPlaying] flag takes the incoming value, a playing
    element is paused when the incoming state is paused, and a paused
    element is asked to play when the incoming state is playing. *)
Theorem drift_correction_tolerance :
  forall canPlay incoming isPlaying p v,
    Player.videoRef p = Some v ->
    exists v',
      Player.videoRef (handleVideoStateUpdate canPlay incoming isPlaying p) = Some v' /\
      (PrimFloat.ltb 1%float (timeDiff v incoming) = true ->
       Video.currentTime v' = incoming) /\
      (PrimFloat.ltb 1%float (timeDiff v incoming) = false ->
       Video.currentTime v' = Video.currentTime v) /\
      (PrimFloat.leb (timeDiff v incoming) 1%float = true ->
       Video.currentTime v' = Video.currentTime v) /\
      Player.isPlaying (handleVideoStateUpdate canPlay incoming isPlaying p) = isPlaying /\
      Video.paused v' =
        (if isPlaying then Video.paused v && negb canPlay else true).
Proof.
  intros canPlay incoming isPlaying p v Hv.
  unfold handleVideoStateUpdate. rewrite Hv.
  eexists. split; [reflexivity|].
  assert (Hpos : forall v1 : Video.t,
             Video.currentTime
               (if isPlaying && Video.paused v1
                then Video.mk (Video.currentTime v1) (negb canPlay)
                else if negb isPlaying && negb (Video.paused v1)
                     then Video.mk (Video.currentTime v1) true
                     else v1) = Video.currentTime v1).
  { intros v1. destruct isPlaying, (Video.paused v1); reflexivity. }
  split; [|split; [|split; [|split]]].
  - intros Hgt. now rewrite Hpos, Hgt.
  - intros Hle. now rewrite Hpos, Hle.
  - intros Hle. now rewrite Hpos, (leb_not_ltb _ _ Hle).
  - reflexivity.
  - destruct v as [local paused]. cbn [Video.paused Video.currentTime].
    destruct (PrimFloat.ltb 1 (timeDiff (Video.mk local paused) incoming)),
      isPlaying, paused; reflexivity.
Qed.

Lemma drift_correction_tolerance_witness :
  (* 10.0 against 10.5: within the tolerance, no seek *)
  Player.videoRef
    (handleVideoStateUpdate true 10.5%float true
       (Player.mk (Some (Video.mk 10%float true)) false false)) =
    Some (Video.mk 10%float false) /\
  (* 10.0 against 12.0: more than a second apart, seek *)
  Player.videoRef
    (handleVideoStateUpdate true 12%float true
       (Player.mk (Some (Video.mk 10%float true)) false false)) =
    Some (Video.mk 12%float false).
Proof.
  split.
  - destruct (drift_correction_tolerance true 10.5%float true
                (Player.mk (Some (Video.mk 10%float true)) false false)
                (Video.mk 10%float true) eq_refl)
      as [v' [Hv' [_ [Hkeep [_ [_ Hp]]]]]].
    rewrite Hv'. destruct v' as [t q]. cbn in Hkeep, Hp.
    now rewrite (Hkeep eq_refl), Hp.
  - destruct (drift_correction_tolerance true 12%float true
                (Player.mk (Some (Video.mk 10%float true)) false false)
                (Video.mk 10%float true) eq_refl)
      as [v' [Hv' [Hseek [_ [_ [_ Hp]]]]]].
    rewrite Hv'. destruct v' as [t q]. cbn in Hseek, Hp.
    now rewrite (Hseek eq_refl), Hp.
Defined.

(** ** The walk-through of the specification *)

(** ["A"] and ["B"] join room ["abc"] over the push path, ["A"] says
    ["hi"], ["B"] reports [(42, true)], ["B"] leaves: the room is still
    there with ["A"] alone, the reported playback state and the one chat
    message; the playback update went to ["a"] only.  Then ["A"] leaves
    and the registry is empty. *)
Example walk_through :
  let session :=
    [OnConnection "a"; OnConnection "b";
     OnJoinRoom 1000 "a" "abc" (Some "A");
     OnJoinRoom 1001 "b" "abc" (Some "B");
     OnChatMessage 1002 "q7" "a" (Some "hi") "abc" (Some "A") None] in
  let st := fst (run session Server.initial) in
  let update := videoStateUpdate "b" (Some 42%float) (Some true) "abc" st in
  map (recipients st) (map target (snd update)) = [["a"]] /\
  Server.rooms (fst (run [OnLeaveRoom 1004 "b" "abc" None] (fst update))) =
    [("abc", Room.mk [("a", User.mk (Some "A") None (Some "a"))]
                     (VideoState.mk (Some 42%float) (Some true))
                     [Message.mk "1002-q7" (Some "A") (Some "hi") 1002])] /\
  Server.rooms (fst (run [OnLeaveRoom 1004 "b" "abc" None;
                          OnLeaveRoom 1005 "a" "abc" (Some "A")] (fst update))) = [].
Proof.
  cbv zeta. repeat split; reflexivity.
Qed.

(** * Further properties of the relay *)

(** ** More facts about [Map] *)
Section JSMapMore.
Context {V : Type}.
Implicit Types (m : JSMap.t V) (k : string) (v : V).

Lemma get_None_keys k m : JSMap.get k m = None <-> ~ In k (JSMap.keys m).
Proof.
  induction m as [|[k' v'] m IH]; simpl.
  - split; [intros _ [] | reflexivity].
  - destruct (String.eqb k' k) eqn:E.
    + apply String.eqb_eq in E. split; [discriminate | intros H; elim H; now left].
    + apply String.eqb_neq in E. rewrite IH. tauto.
Qed.

Lemma get_Some_keys k v m : JSMap.get k m = Some v -> In k (JSMap.keys m).
Proof.
  intros H. apply get_In in H. unfold JSMap.keys.
  now apply (in_map fst) in H.
Qed.

Lemma delete_absent k m : JSMap.get k m = None -> JSMap.delete k m = m.
Proof.
  unfold JSMap.delete. induction m as [|[k' v'] m IH]; simpl; [reflexivity|].
  destruct (String.eqb k' k); [discriminate|]. intros H. simpl. now rewrite IH.
Qed.

Lemma set_absent k v m : JSMap.get k m = None -> JSMap.set k v m = m ++ [(k, v)].
Proof.
  induction m as [|[k' v'] m IH]; simpl; [reflexivity|].
  destruct (String.eqb k' k); [discriminate|]. intros H. now rewrite IH.
Qed.

Lemma delete_set_absent k v m :
  JSMap.get k m = None -> JSMap.delete k (JSMap.set k v m) = m.
Proof.
  intros H. rewrite (set_absent k v m H). unfold JSMap.delete.
  rewrite filter_app. cbn. rewrite String.eqb_refl. cbn. rewrite app_nil_r.
  exact (delete_absent k m H).
Qed.

Lemma delete_set k v m : JSMap.delete k (JSMap.set k v m) = JSMap.delete k m.
Proof.
  unfold JSMap.delete. induction m as [|[k0 v0] m IH]; cbn.
  - now rewrite String.eqb_refl.
  - destruct (String.eqb k0 k) eqn:E; cbn.
    + now rewrite String.eqb_refl.
    + now rewrite E, IH.
Qed.

Lemma set_same k v m : JSMap.get k m = Some v -> JSMap.set k v m = m.
Proof.
  induction m as [|[k' v'] m IH]; simpl; [discriminate|].
  destruct (String.eqb k' k) eqn:E.
  - apply String.eqb_eq in E. now intros [= ->]; subst.
  - intros H. now rewrite IH.
Qed.

Lemma keys_set k v m k' :
  In k' (JSMap.keys (JSMap.set k v m)) <-> k' = k \/ In k' (JSMap.keys m).
Proof.
  induction m as [|[k0 v0] m IH]; simpl.
  - intuition.
  - destruct (String.eqb k0 k) eqn:E; simpl.
    + apply String.eqb_eq in E. subst k0. intuition.
    + rewrite IH. intuition.
Qed.

Lemma keys_delete k m k' :
  In k' (JSMap.keys (JSMap.delete k m)) <-> In k' (JSMap.keys m) /\ k' <> k.
Proof.
  unfold JSMap.delete, JSMap.keys. induction m as [|[k0 v0] m IH]; simpl.
  - intuition.
  - destruct (String.eqb k0 k) eqn:E; simpl.
    + apply String.eqb_eq in E. subst k0. rewrite IH. intuition congruence.
    + apply String.eqb_neq in E. rewrite IH. intuition congruence.
Qed.

Lemma NoDup_keys_set k v m :
  NoDup (JSMap.keys m) -> NoDup (JSMap.keys (JSMap.set k v m)).
Proof.
  induction m as [|[k0 v0] m IH]; simpl; intros H.
  - constructor; [intros [] | constructor].
  - inversion H as [|? ? Hnotin Hm]; subst.
    destruct (String.eqb k0 k) eqn:E; simpl.
    + apply String.eqb_eq in E. subst k0. now constructor.
    + apply String.eqb_neq in E. constructor; [|now apply IH].
      rewrite keys_set. intuition.
Qed.

Lemma NoDup_keys_filter (f : string * V -> bool) m :
  NoDup (JSMap.keys m) -> NoDup (JSMap.keys (filter f m)).
Proof.
  unfold JSMap.keys. induction m as [|e m IH]; simpl; intros H; [constructor|].
  inversion H as [|? ? Hnotin Hm]; subst.
  destruct (f e); simpl; [|now apply IH].
  constructor; [|now apply IH].
  intros Hin. apply Hnotin. apply in_map_iff in Hin.
  destruct Hin as [x [Hx Hin]]. apply filter_In in Hin.
  apply in_map_iff. exists x. tauto.
Qed.

Lemma NoDup_keys_delete k m :
  NoDup (JSMap.keys m) -> NoDup (JSMap.keys (JSMap.delete k m)).
Proof. apply NoDup_keys_filter. Qed.

Lemma length_delete k v m :
  NoDup (JSMap.keys m) -> JSMap.get k m = Some v ->
  S (List.length (JSMap.delete k m)) = List.length m.
Proof.
  unfold JSMap.delete. induction m as [|[k0 v0] m IH]; simpl; [discriminate|].
  intros H Hg. inversion H as [|? ? Hnotin Hm]; subst.
  destruct (String.eqb k0 k) eqn:E; simpl.
  - apply String.eqb_eq in E. subst k0. f_equal.
    apply (f_equal (@List.length _)).
    apply (delete_absent k m). now apply get_None_keys.
  - f_equal. now apply IH.
Qed.

Lemma In_set k v m : In (k, v) (JSMap.set k v m).
Proof.
  induction m as [|[k0 v0] m IH]; simpl; [now left|].
  destruct (String.eqb k0 k); [now left | now right].
Qed.

Lemma In_set_other k v m e :
  In e m -> fst e <> k -> In e (JSMap.set k v m).
Proof.
  induction m as [|[k0 v0] m IH]; simpl; [tauto|].
  intros [<-|Hin] Hne.
  - cbn in Hne. apply String.eqb_neq in Hne. rewrite Hne. now left.
  - destruct (String.eqb k0 k); right; auto.
Qed.

Lemma get_of_In k v m : NoDup (JSMap.keys m) -> In (k, v) m -> JSMap.get k m = Some v.
Proof.
  induction m as [|[k0 v0] m IH]; simpl; [tauto|].
  intros H Hin. inversion H as [|? ? Hnotin Hm]; subst.
  destruct Hin as [[= -> ->]|Hin].
  - now rewrite String.eqb_refl.
  - destruct (String.eqb k0 k) eqn:E; [|now apply IH].
    apply String.eqb_eq in E. subst k0. elim Hnotin.
    apply (in_map fst) in Hin. exact Hin.
Qed.

End JSMapMore.

Lemma room_eta (room : Room.t) :
  Room.mk (Room.users room) (Room.videoState room) (Room.messages room) = room.
Proof. now destruct room. Qed.

Lemma findByUsername_In username users k u :
  findByUsername username users = Some (k, u) ->
  In (k, u) users /\ hasUsername username u = true.
Proof.
  induction users as [|[k0 u0] users IH]; simpl; [discriminate|].
  destruct (hasUsername username u0) eqn:E.
  - intros [= -> ->]. split; [now left | exact E].
  - intros H. destruct (IH H). split; [now right | assumption].
Qed.

(** ** The registry stays a well-formed map of well-formed maps *)

Lemma entriesWf_nil : entriesWf [].
Proof. split; constructor. Qed.

Lemma entriesWf_set k u users :
  entriesWf users -> keyed (k, u) -> entriesWf (JSMap.set k u users).
Proof.
  intros [Hnd Hk] Hu. split; [now apply NoDup_keys_set|].
  clear Hnd. induction Hk as [|[k0 u0] m Hx Hm IH]; simpl.
  - constructor; [exact Hu | constructor].
  - destruct (String.eqb k0 k); constructor; auto.
Qed.

Lemma entriesWf_filter f users : entriesWf users -> entriesWf (filter f users).
Proof.
  intros [Hnd Hk]. split; [now apply NoDup_keys_filter|].
  rewrite Forall_forall in *. intros e He. apply filter_In in He. now apply Hk.
Qed.

Lemma entriesWf_delete k users : entriesWf users -> entriesWf (JSMap.delete k users).
Proof. apply entriesWf_filter. Qed.

Lemma entriesWf_evict username users :
  entriesWf users -> entriesWf (evictUsername username users).
Proof.
  intros H. unfold evictUsername. rewrite evict_fold. now apply entriesWf_filter.
Qed.

Lemma httpLeaveFind_delete userId username users u users1 :
  httpLeaveFind userId username users = Some (u, users1) ->
  exists k, In (k, u) users /\ users1 = JSMap.delete k users /\
            (required userId = Some k \/
             exists name, required username = Some name /\
                          findByUsername name users = Some (k, u)).
Proof.
  unfold httpLeaveFind.
  assert (Hname :
            match required username with
            | Some name =>
                match findByUsername name users with
                | Some (k, u0) => Some (u0, JSMap.delete k users)
                | None => None
                end
            | None => None
            end = Some (u, users1) ->
            exists k, In (k, u) users /\ users1 = JSMap.delete k users /\
                      (required userId = Some k \/
                       exists name, required username = Some name /\
                                    findByUsername name users = Some (k, u))).
  { destruct (required username) as [name|]; [|discriminate].
    destruct (findByUsername name users) as [[k u0]|] eqn:Hf; [|discriminate].
    intros [= -> <-]. exists k. split; [exact (proj1 (findByUsername_In _ _ _ _ Hf))|].
    split; [reflexivity|]. right. now exists name. }
  destruct (required userId) as [uid|]; [|exact Hname].
  destruct (JSMap.get uid users) as [u0|] eqn:Hg; [|exact Hname].
  intros [= -> <-]. exists uid. split; [now apply get_In|]. split; [reflexivity|].
  now left.
Qed.

Lemma cleanupFind_delete socketId username users u users1 :
  cleanupFind socketId username users = Some (u, users1) ->
  exists k, In (k, u) users /\ users1 = JSMap.delete k users /\
            (k = socketId \/
             JSMap.get socketId users = None /\
             exists name, required username = Some name /\
                          findByUsername name users = Some (k, u)).
Proof.
  unfold cleanupFind.
  destruct (JSMap.get socketId users) as [u0|] eqn:Hg.
  - intros [= -> <-]. exists socketId. split; [now apply get_In|]. tauto.
  - destruct (required username) as [name|]; [|discriminate].
    destruct (findByUsername name users) as [[k u0]|] eqn:Hf; [|discriminate].
    assert (Hno : JSMap.has socketId (JSMap.delete k users) = false).
    { unfold JSMap.has.
      destruct (JSMap.get socketId (JSMap.delete k users)) eqn:Hd; [|reflexivity].
      apply get_Some_keys, keys_delete in Hd. destruct Hd as [Hin _].
      apply get_None_keys in Hg. contradiction. }
    rewrite Hno. intros [= -> <-]. exists k.
    split; [exact (proj1 (findByUsername_In _ _ _ _ Hf))|].
    split; [reflexivity|]. right. split; [reflexivity|]. now exists name.
Qed.

Lemma wellFormed_set r room st :
  wellFormed st -> entriesWf (Room.users room) ->
  wellFormed (setRooms (JSMap.set r room (Server.rooms st)) st).
Proof.
  intros [Hnd Hall] Hr. split; cbn.
  - now apply NoDup_keys_set.
  - exact (Forall_set (fun room => entriesWf (Room.users room)) r room _ Hall Hr).
Qed.

Lemma wellFormed_delete r st :
  wellFormed st -> wellFormed (setRooms (JSMap.delete r (Server.rooms st)) st).
Proof.
  intros [Hnd Hall]. split; cbn.
  - now apply NoDup_keys_delete.
  - exact (Forall_delete (fun room => entriesWf (Room.users room)) r _ Hall).
Qed.

Lemma wellFormed_get r room st :
  wellFormed st -> JSMap.get r (Server.rooms st) = Some room ->
  entriesWf (Room.users room).
Proof.
  intros [_ Hall] Hg.
  exact (Forall_get (fun room => entriesWf (Room.users room)) r room _ Hall Hg).
Qed.

Lemma wellFormed_rooms st st' :
  Server.rooms st' = Server.rooms st -> wellFormed st -> wellFormed st'.
Proof. unfold wellFormed. now intros ->. Qed.

Lemma wellFormed_ensured r room st :
  wellFormed st ->
  JSMap.get r (ensureRoom r (Server.rooms st)) = Some room ->
  entriesWf (Room.users room).
Proof.
  intros Hst. destruct (JSMap.get r (Server.rooms st)) as [room0|] eqn:Hg.
  - rewrite (ensureRoom_get_present _ _ _ Hg). intros [= <-].
    exact (wellFormed_get _ _ _ Hst Hg).
  - rewrite (ensureRoom_get_absent _ _ Hg). intros [= <-]. exact entriesWf_nil.
Qed.

Create HintDb relay.
#[local] Hint Resolve wellFormed_set wellFormed_delete entriesWf_set entriesWf_delete
  entriesWf_evict entriesWf_nil : relay.

Lemma keyed_fallback name userId : keyed (userId, User.mk (Some name) (Some userId) None).
Proof. left. now split. Qed.

Lemma keyed_push username socketId :
  keyed (socketId, User.mk username None (Some socketId)).
Proof. right. now split. Qed.

#[local] Hint Resolve keyed_fallback keyed_push : relay.

Lemma wellFormed_socketLeave socketId roomId st :
  wellFormed st -> wellFormed (socketLeave socketId roomId st).
Proof. apply wellFormed_rooms. reflexivity. Qed.

Lemma wellFormed_socketJoin socketId roomId st :
  wellFormed st -> wellFormed (socketJoin socketId roomId st).
Proof. apply wellFormed_rooms. reflexivity. Qed.

Lemma httpJoin_wellFormed now rnd roomId username st :
  wellFormed st -> wellFormed (fst (fst (httpJoin now rnd roomId username st))).
Proof.
  intros Hst. unfold httpJoin.
  destruct (required roomId) as [r|]; [|exact Hst].
  destruct (required username) as [name|]; [|exact Hst].
  destruct (JSMap.get r (ensureRoom r (Server.rooms st))) as [room|] eqn:Hg;
    [|exact Hst].
  cbn [fst]. rewrite ensureRoom_set.
  pose proof (wellFormed_ensured _ _ _ Hst Hg).
  apply wellFormed_set; [exact Hst | cbn [Room.users]; auto with relay].
Qed.

Lemma httpLeave_wellFormed now roomId userId username st :
  wellFormed st -> wellFormed (fst (fst (httpLeave now roomId userId username st))).
Proof.
  intros Hst. unfold httpLeave.
  destruct (required roomId) as [r|]; [|exact Hst].
  destruct (JSMap.get r (Server.rooms st)) as [room|] eqn:Hg; [|exact Hst].
  destruct (httpLeaveFind userId username (Room.users room)) as [[u users1]|] eqn:Hf;
    [|exact Hst].
  apply httpLeaveFind_delete in Hf. destruct Hf as [k [_ [-> _]]].
  pose proof (wellFormed_get _ _ _ Hst Hg).
  destruct (Nat.eqb _ 0); cbn [fst];
    [auto with relay | apply wellFormed_set; cbn [Room.users]; auto with relay].
Qed.

Lemma httpVideoState_wellFormed roomId currentTime isPlaying st :
  wellFormed st ->
  wellFormed (fst (fst (httpVideoState roomId currentTime isPlaying st))).
Proof.
  intros Hst. unfold httpVideoState.
  destruct (required roomId) as [r|]; [|exact Hst].
  destruct currentTime; [|exact Hst]. destruct isPlaying; [|exact Hst].
  destruct (JSMap.get r (Server.rooms st)) as [room|] eqn:Hg; [|exact Hst].
  cbn [fst]. apply wellFormed_set; [exact Hst|].
  exact (wellFormed_get _ _ _ Hst Hg).
Qed.

Lemma httpChat_wellFormed now roomId text user st :
  wellFormed st -> wellFormed (fst (fst (httpChat now roomId text user st))).
Proof.
  intros Hst. unfold httpChat.
  destruct (required roomId) as [r|]; [|exact Hst].
  destruct (required text); [|exact Hst]. destruct (required user); [|exact Hst].
  destruct (JSMap.get r (Server.rooms st)) as [room|] eqn:Hg; [|exact Hst].
  cbn [fst]. apply wellFormed_set; [exact Hst|].
  exact (wellFormed_get _ _ _ Hst Hg).
Qed.

Lemma leaveRoomCleanup_wellFormed now socketId roomId username st :
  wellFormed st ->
  wellFormed (fst (leaveRoomCleanup now socketId roomId username st)).
Proof.
  intros Hst. unfold leaveRoomCleanup.
  destruct (JSMap.get roomId (Server.rooms st)) as [room|] eqn:Hg; [|exact Hst].
  destruct (cleanupFind socketId username (Room.users room)) as [[u users1]|] eqn:Hf;
    cbn [fst]; apply wellFormed_socketLeave; [|exact Hst].
  apply cleanupFind_delete in Hf. destruct Hf as [k [_ [-> _]]].
  pose proof (wellFormed_get _ _ _ Hst Hg).
  destruct (Nat.eqb _ 0);
    [auto with relay | apply wellFormed_set; cbn [Room.users]; auto with relay].
Qed.

Lemma joinRoom_wellFormed now socketId roomId username st :
  wellFormed st -> wellFormed (fst (joinRoom now socketId roomId username st)).
Proof.
  intros Hst. unfold joinRoom.
  assert (H1 : wellFormed
                 (fst (if JSSet.has roomId (Conn.userRooms (connOf socketId st))
                       then leaveRoomCleanup now socketId roomId username st
                       else (st, [])))).
  { destruct (JSSet.has roomId _);
      [now apply leaveRoomCleanup_wellFormed | exact Hst]. }
  destruct (if JSSet.has roomId _ then _ else _) as [st1 out1]. cbn [fst] in H1.
  assert (H2 : wellFormed (socketJoin socketId roomId st1))
    by now apply wellFormed_socketJoin.
  destruct (JSMap.get roomId (ensureRoom roomId _)) as [room|] eqn:Hg; [|exact H2].
  cbn [fst]. rewrite ensureRoom_set.
  pose proof (wellFormed_ensured _ _ _ H2 Hg).
  apply wellFormed_set; [exact H2 | cbn [Room.users]; auto with relay].
Qed.

Lemma videoStateUpdate_wellFormed socketId currentTime isPlaying roomId st :
  wellFormed st ->
  wellFormed (fst (videoStateUpdate socketId currentTime isPlaying roomId st)).
Proof.
  intros Hst. unfold videoStateUpdate.
  destruct (JSMap.get roomId (Server.rooms st)) as [room|] eqn:Hg; [|exact Hst].
  destruct (JSMap.get socketId (Room.users room)); [|exact Hst].
  cbn [fst]. apply wellFormed_set; [exact Hst|].
  exact (wellFormed_get _ _ _ Hst Hg).
Qed.

Lemma chatMessage_wellFormed now rnd socketId text roomId user timestamp st :
  wellFormed st ->
  wellFormed (fst (chatMessage now rnd socketId text roomId user timestamp st)).
Proof.
  intros Hst. unfold chatMessage.
  destruct (JSMap.get roomId (Server.rooms st)) as [room|] eqn:Hg; [|exact Hst].
  destruct (Nat.ltb 0 _); [exact Hst|].
  cbn [fst]. apply wellFormed_set; [exact Hst|].
  exact (wellFormed_get _ _ _ Hst Hg).
Qed.

Lemma fold_wellFormed {A : Type} (f : PushResult -> A -> PushResult) l :
  (forall acc x, wellFormed (fst acc) -> wellFormed (fst (f acc x))) ->
  forall acc, wellFormed (fst acc) -> wellFormed (fst (fold_left f l acc)).
Proof.
  intros Hf. induction l as [|x l IH]; intros acc Hacc; simpl; auto.
Qed.

Lemma disconnect_wellFormed now socketId st :
  wellFormed st -> wellFormed (fst (disconnect now socketId st)).
Proof.
  intros Hst. unfold disconnect. cbn [fst].
  match goal with
  | |- wellFormed (Server.mk (Server.rooms ?s) _) =>
      apply (wellFormed_rooms s); [reflexivity|]
  end.
  apply fold_wellFormed.
  - intros [s out] r Hs. cbn [fst] in Hs.
    destruct (JSMap.get r (Server.rooms s)) as [room|]; [|exact Hs].
    destruct (JSMap.has socketId (Room.users room)); [|exact Hs].
    pose proof (leaveRoomCleanup_wellFormed now socketId r
                  (usernameIn socketId r s) s Hs) as H.
    destruct (leaveRoomCleanup now socketId r (usernameIn socketId r s) s).
    exact H.
  - apply fold_wellFormed; [|exact Hst].
    intros [s out] r Hs. cbn [fst] in Hs.
    pose proof (leaveRoomCleanup_wellFormed now socketId r
                  (usernameIn socketId r s) s Hs) as H.
    destruct (leaveRoomCleanup now socketId r (usernameIn socketId r s) s).
    exact H.
Qed.

Lemma handle_wellFormed rq st : wellFormed st -> wellFormed (fst (handle rq st)).
Proof.
  intros Hst. destruct rq; cbn [handle dropResponse fst];
    auto using httpJoin_wellFormed, httpLeave_wellFormed,
      httpVideoState_wellFormed, httpChat_wellFormed, joinRoom_wellFormed,
      leaveRoomCleanup_wellFormed, videoStateUpdate_wellFormed,
      chatMessage_wellFormed, disconnect_wellFormed.
Qed.

Lemma reachable_wellFormed st : reachable st -> wellFormed st.
Proof.
  induction 1 as [|rq st _ IH]; [|now apply handle_wellFormed].
  split; constructor.
Qed.

(** ** Fallback endpoints: failures and successes *)

Lemma ensureRoom_get_some r rooms :
  exists room, JSMap.get r (ensureRoom r rooms) = Some room.
Proof.
  destruct (JSMap.get r rooms) as [room|] eqn:Hg.
  - exists room. now apply ensureRoom_get_present.
  - exists newRoom. now apply ensureRoom_get_absent.
Qed.

(** ** The fallback join and leave on any request body *)

(** A [Map] with every value sent through [f]. *)
Section JSMapImage.
Context {V W : Type} (f : V -> W).
Implicit Types (m : JSMap.t V) (k : string) (v : V).

Lemma get_image k m :
  JSMap.get k (map (fun e => (fst e, f (snd e))) m) = option_map f (JSMap.get k m).
Proof.
  induction m as [|[k' v] m IH]; cbn; [reflexivity|].
  destruct (String.eqb k' k); [reflexivity | exact IH].
Qed.

Lemma set_image k v m :
  JSMap.set k (f v) (map (fun e => (fst e, f (snd e))) m)
  = map (fun e => (fst e, f (snd e))) (JSMap.set k v m).
Proof.
  induction m as [|[k' v'] m IH]; cbn; [reflexivity|].
  destruct (String.eqb k' k); cbn; [reflexivity | now rewrite IH].
Qed.

Lemma delete_image k m :
  JSMap.delete k (map (fun e => (fst e, f (snd e))) m)
  = map (fun e => (fst e, f (snd e))) (JSMap.delete k m).
Proof.
  unfold JSMap.delete. induction m as [|[k' v'] m IH]; cbn; [reflexivity|].
  destruct (String.eqb k' k); cbn; now rewrite IH.
Qed.

Lemma size_image m :
  JSMap.size (map (fun e => (fst e, f (snd e))) m) = JSMap.size m.
Proof. apply length_map. Qed.

End JSMapImage.

Lemma ofUsers_get k users :
  JSMap.get k (Untyped.ofUsers users) = option_map Untyped.ofUser (JSMap.get k users).
Proof. apply get_image. Qed.

Lemma ofUsers_set k u users :
  JSMap.set k (Untyped.ofUser u) (Untyped.ofUsers users)
  = Untyped.ofUsers (JSMap.set k u users).
Proof. apply (set_image Untyped.ofUser). Qed.

Lemma ofUsers_delete k users :
  JSMap.delete k (Untyped.ofUsers users) = Untyped.ofUsers (JSMap.delete k users).
Proof. apply delete_image. Qed.

Lemma ofUsers_size users : JSMap.size (Untyped.ofUsers users) = JSMap.size users.
Proof. apply size_image. Qed.

Lemma ofRooms_get r rooms :
  JSMap.get r (Untyped.ofRooms rooms) = option_map Untyped.ofRoom (JSMap.get r rooms).
Proof. apply get_image. Qed.

Lemma ofRooms_set r room rooms :
  JSMap.set r (Untyped.ofRoom room) (Untyped.ofRooms rooms)
  = Untyped.ofRooms (JSMap.set r room rooms).
Proof. apply (set_image Untyped.ofRoom). Qed.

Lemma ofRooms_delete r rooms :
  JSMap.delete r (Untyped.ofRooms rooms) = Untyped.ofRooms (JSMap.delete r rooms).
Proof. apply delete_image. Qed.

Lemma untyped_hasUsername name u :
  Untyped.hasUsername (Untyped.Str name) (Untyped.ofUser u) = hasUsername name u.
Proof.
  unfold Untyped.hasUsername, hasUsername, Untyped.ofUser. cbn.
  now destruct (User.username u).
Qed.

Lemma untyped_evict_fold name l acc :
  fold_left
    (fun acc e => if Untyped.hasUsername (Untyped.Str name) (snd e)
                  then JSMap.delete (fst e) acc else acc)
    (Untyped.ofUsers l) (Untyped.ofUsers acc)
  = Untyped.ofUsers
      (fold_left
         (fun acc e => if hasUsername name (snd e) then JSMap.delete (fst e) acc else acc)
         l acc).
Proof.
  revert acc. induction l as [|[k u] l IH]; intros acc; cbn; [reflexivity|].
  rewrite untyped_hasUsername. destruct (hasUsername name u); [|apply IH].
  rewrite ofUsers_delete. apply IH.
Qed.

Lemma untyped_evictUsername name users :
  Untyped.evictUsername (Untyped.Str name) (Untyped.ofUsers users)
  = Untyped.ofUsers (evictUsername name users).
Proof. apply untyped_evict_fold. Qed.

Lemma untyped_findByUsername name users :
  Untyped.findByUsername (Untyped.Str name) (Untyped.ofUsers users)
  = option_map (fun e => (fst e, Untyped.ofUser (snd e))) (findByUsername name users).
Proof.
  induction users as [|[k u] users IH]; cbn; [reflexivity|].
  rewrite untyped_hasUsername. destruct (hasUsername name u); [reflexivity | exact IH].
Qed.

Lemma untyped_httpLeaveFind userId username users :
  Untyped.httpLeaveFind userId (Untyped.ofOption username) (Untyped.ofUsers users)
  = option_map (fun p => (Untyped.ofUser (fst p), Untyped.ofUsers (snd p)))
               (httpLeaveFind userId username users).
Proof.
  unfold Untyped.httpLeaveFind, httpLeaveFind.
  assert (Hname :
            (if Untyped.truthy (Untyped.ofOption username)
             then match Untyped.findByUsername (Untyped.ofOption username)
                          (Untyped.ofUsers users) with
                  | Some (k, u) => Some (u, JSMap.delete k (Untyped.ofUsers users))
                  | None => None
                  end
             else None)
            = option_map (fun p => (Untyped.ofUser (fst p), Untyped.ofUsers (snd p)))
                match required username with
                | Some name =>
                    match findByUsername name users with
                    | Some (k, u) => Some (u, JSMap.delete k users)
                    | None => None
                    end
                | None => None
                end).
  { destruct username as [s|]; cbn; [|reflexivity].
    destruct (String.eqb s ""); cbn; [reflexivity|].
    rewrite untyped_findByUsername.
    destruct (findByUsername s users) as [[k u]|]; cbn; [|reflexivity].
    now rewrite ofUsers_delete. }
  destruct (required userId) as [uid|]; [|exact Hname].
  rewrite ofUsers_get.
  destruct (JSMap.get uid users) as [u|]; cbn [option_map fst snd]; [|exact Hname].
  now rewrite ofUsers_delete.
Qed.

(** On a request whose [username] is a string or absent, the fallback
    join above is the join on any body. *)
Lemma untyped_httpJoin_agrees now rnd roomId username st :
  let typed := httpJoin now rnd roomId username st in
  let untyped := Untyped.httpJoin now rnd roomId (Untyped.ofOption username)
                                  (Untyped.ofRooms (Server.rooms st)) in
  fst (fst untyped) = Untyped.ofRooms (Server.rooms (fst (fst typed))) /\
  Untyped.status (snd (fst untyped)) = status (snd (fst typed)) /\
  snd untyped = snd typed.
Proof.
  cbv zeta. destruct roomId as [r|];
    [|unfold httpJoin, Untyped.httpJoin; cbn; repeat split; reflexivity].
  destruct (String.eqb r "") eqn:Er;
    [unfold httpJoin, Untyped.httpJoin; cbn; rewrite Er; repeat split; reflexivity|].
  destruct username as [name|];
    [|unfold httpJoin, Untyped.httpJoin; cbn; rewrite Er; repeat split; reflexivity].
  destruct (String.eqb name "") eqn:En;
    [unfold httpJoin, Untyped.httpJoin; cbn; rewrite Er, En; repeat split; reflexivity|].
  apply String.eqb_neq in Er, En.
  rewrite (httpJoin_accepted now rnd r name st Er En).
  unfold Untyped.httpJoin. rewrite (required_present r Er).
  apply String.eqb_neq in En. cbn [Untyped.ofOption Untyped.truthy Untyped.interp].
  rewrite En. cbn [negb fst snd setRooms Server.rooms Untyped.status status].
  rewrite ofRooms_get.
  assert (Hroom :
            match option_map Untyped.ofRoom (JSMap.get r (Server.rooms st)) with
            | Some room => room
            | None => Untyped.newRoom
            end
            = Untyped.ofRoom match JSMap.get r (Server.rooms st) with
                             | Some room => room
                             | None => newRoom
                             end)
    by now destruct (JSMap.get r (Server.rooms st)).
  rewrite Hroom. cbn [Untyped.ofRoom Untyped.users Untyped.videoState Untyped.messages].
  rewrite untyped_evictUsername.
  change (Untyped.mkUser (Untyped.Str name)
            (Some ("user-" ++ toString now ++ "-" ++ rnd)%string) None)
    with (Untyped.ofUser (User.mk (Some name)
            (Some ("user-" ++ toString now ++ "-" ++ rnd)%string) None)).
  rewrite ofUsers_set.
  repeat split. now rewrite <- ofRooms_set.
Qed.

(** On a request whose [username] is a string or absent, in a registry
    whose stored usernames are strings or absent, the fallback leave
    above is the leave on any body. *)
Lemma untyped_httpLeave_agrees now roomId userId username st :
  let typed := httpLeave now roomId userId username st in
  let untyped := Untyped.httpLeave now roomId userId (Untyped.ofOption username)
                                   (Untyped.ofRooms (Server.rooms st)) in
  fst (fst untyped) = Untyped.ofRooms (Server.rooms (fst (fst typed))) /\
  Untyped.status (snd (fst untyped)) = status (snd (fst typed)) /\
  snd untyped = snd typed.
Proof.
  cbv zeta. unfold httpLeave, Untyped.httpLeave.
  destruct (required roomId) as [r|]; [|repeat split; reflexivity].
  rewrite ofRooms_get.
  destruct (JSMap.get r (Server.rooms st)) as [room|]; cbn [option_map];
    [|repeat split; reflexivity].
  cbn [Untyped.ofRoom Untyped.users Untyped.videoState Untyped.messages].
  rewrite untyped_httpLeaveFind.
  destruct (httpLeaveFind userId username (Room.users room)) as [[u users1]|];
    cbn [option_map fst snd]; [|repeat split; reflexivity].
  assert (Hshow : Untyped.interp (Untyped.username (Untyped.ofUser u))
                  = Some (interp (User.username u)))
    by (cbn; now destruct (User.username u)).
  rewrite Hshow, ofUsers_size.
  destruct (Nat.eqb (JSMap.size users1) 0);
    cbn [fst snd setRooms Server.rooms Untyped.status status]; repeat split.
  - apply ofRooms_delete.
  - now rewrite <- ofRooms_set.
Qed.

(** C1, at the input where the fallback leave departs from it.  On an
    empty registry, [POST /api/room/join] with [roomId: 'abc'] and a
    [username] that cannot be converted to a string (the JSON object
    {toString: 1}) creates the room and registers the entry, then
    throws while it builds the notice and answers 500.  [POST
    /api/room/leave] for that entry ([userId: 'user-1000-k3x']) deletes
    the entry, the last of the room, then throws while it builds the
    notice and answers 500 before it reaches its check for an empty
    room: the leave is over and the registry holds room ['abc'] with an
    empty participant map.  With the username ['B'] the same two
    requests end with the room deleted, and so does the push leave of a
    room's last participant. *)
Theorem fallback_leave_keeps_emptied_room :
  let playback := VideoState.mk (Some 0%float) (Some false) in
  let entry := Untyped.mkUser (Untyped.Obj None) (Some "user-1000-k3x") None in
  let joined :=
    Untyped.httpJoin 1000 "k3x" (Some "abc") (Untyped.Obj None) [] in
  let left :=
    Untyped.httpLeave 2000 (Some "abc") (Some "user-1000-k3x") Untyped.Undefined
                      (fst (fst joined)) in
  joined = ([("abc", Untyped.mkRoom [("user-1000-k3x", entry)] playback [])],
            Untyped.respond 500 (Untyped.BError "Failed to join room"), []) /\
  left = ([("abc", Untyped.mkRoom [] playback [])],
          Untyped.respond 500 (Untyped.BError "Failed to leave room"), []) /\
  (exists room, JSMap.get "abc" (fst (fst left)) = Some room /\
                JSMap.size (Untyped.users room) = 0) /\
  Untyped.httpLeave 2000 (Some "abc") (Some "user-1000-k3x") Untyped.Undefined
    (fst (fst (Untyped.httpJoin 1000 "k3x" (Some "abc") (Untyped.Str "B") [])))
  = ([], Untyped.respond 200 (Untyped.BLeave true),
     [emit (ToRoom "abc") "user_left"
           (PMessage (systemMessage 2000 "B left the room"))]) /\
  Server.rooms (fst (leaveRoom 2000 "a" "abc" None roomOfOne)) = [].
Proof.
  cbv zeta. split; [reflexivity|]. split; [reflexivity|].
  split; [eexists; split; reflexivity|]. split; reflexivity.
Qed.

(** X1. The fallback join and leave, on any request body and in any
    registry.  An answer 200 comes with exactly one emission.  An answer
    400 or 404 (the join only ever 400) leaves the registry as it was
    and emits nothing.  The only other answer is 500, given when the
    username that goes into the notice cannot be converted to a string;
    nothing is emitted, but the registry has changed: the join has
    created the room if need be and registered the entry under the
    generated id, the leave has removed the entry it found and kept the
    room with the entries that are left. *)
Theorem fallback_join_leave_failures :
  forall rooms,
    (forall now rnd roomId username,
        let res := Untyped.httpJoin now rnd roomId username rooms in
        let userId := ("user-" ++ toString now ++ "-" ++ rnd)%string in
        (Untyped.status (snd (fst res)) = 200%Z /\ List.length (snd res) = 1 /\
         Untyped.interp username <> None) \/
        (Untyped.status (snd (fst res)) = 400%Z /\ fst (fst res) = rooms /\
         snd res = [] /\
         (required roomId = None \/ Untyped.truthy username = false)) \/
        (Untyped.status (snd (fst res)) = 500%Z /\ snd res = [] /\
         Untyped.interp username = None /\
         exists r room',
           required roomId = Some r /\
           JSMap.get r (fst (fst res)) = Some room' /\
           JSMap.get userId (Untyped.users room')
           = Some (Untyped.mkUser username (Some userId) None))) /\
    (forall now roomId userId username,
        let res := Untyped.httpLeave now roomId userId username rooms in
        (Untyped.status (snd (fst res)) = 200%Z /\ List.length (snd res) = 1) \/
        ((Untyped.status (snd (fst res)) = 400%Z \/
          Untyped.status (snd (fst res)) = 404%Z) /\
         fst (fst res) = rooms /\ snd res = []) \/
        (Untyped.status (snd (fst res)) = 500%Z /\ snd res = [] /\
         exists r room u users1,
           required roomId = Some r /\
           JSMap.get r rooms = Some room /\
           Untyped.httpLeaveFind userId username (Untyped.users room)
           = Some (u, users1) /\
           Untyped.interp (Untyped.username u) = None /\
           JSMap.get r (fst (fst res))
           = Some (Untyped.mkRoom users1 (Untyped.videoState room)
                                  (Untyped.messages room)))).
Proof.
  intros rooms. split.
  - intros now rnd roomId username. cbv zeta. unfold Untyped.httpJoin.
    destruct (required roomId) as [r|]; [|right; left; cbn; auto].
    destruct (Untyped.truthy username) eqn:Ht; [|right; left; cbn; auto].
    destruct (Untyped.interp username) as [name|] eqn:Hs.
    + left. cbn. repeat split. discriminate.
    + right. right. cbn [fst snd Untyped.status]. repeat split.
      eexists r, _. split; [reflexivity|]. split; [apply get_set_eq|].
      cbn [Untyped.users]. apply get_set_eq.
  - intros now roomId userId username. cbv zeta. unfold Untyped.httpLeave.
    destruct (required roomId) as [r|]; [|right; left; cbn; auto].
    destruct (JSMap.get r rooms) as [room|] eqn:Hg; [|right; left; cbn; auto].
    destruct (Untyped.httpLeaveFind userId username (Untyped.users room))
      as [[u users1]|] eqn:Hf; [|right; left; cbn; auto].
    destruct (Untyped.interp (Untyped.username u)) as [name|] eqn:Hs.
    + left. destruct (Nat.eqb (JSMap.size users1) 0); split; reflexivity.
    + right. right. cbn [fst snd Untyped.status]. repeat split.
      exists r, room, u, users1. repeat split; try assumption. apply get_set_eq.
Qed.

Lemma In_set_inv {V : Type} k (v : V) m e :
  In e (JSMap.set k v m) -> e = (k, v) \/ In e m.
Proof.
  induction m as [|[k0 v0] m IH]; simpl.
  - intros [<-|[]]. now left.
  - destruct (String.eqb k0 k); simpl; intros [<-|H]; auto.
    destruct (IH H); auto.
Qed.

Lemma evictUsername_subset username users e :
  In e (evictUsername username users) -> In e users.
Proof.
  unfold evictUsername. rewrite evict_fold. intros H. now apply filter_In in H.
Qed.

(** With unique keys, an entry of another name shares its key with no
    entry of that name. *)
Lemma keyOfNamed_other username users k u :
  NoDup (JSMap.keys users) -> In (k, u) users -> hasUsername username u = false ->
  keyOfNamed username users (k, u) = false.
Proof.
  intros Hnd Hin Hu. unfold keyOfNamed.
  destruct (existsb _ users) eqn:E; [|reflexivity].
  apply existsb_exists in E. destruct E as [[k' u'] [Hin' H]]. cbn in H.
  apply andb_true_iff in H. destruct H as [Hnamed Hk].
  apply String.eqb_eq in Hk. subst k'.
  pose proof (get_of_In k u users Hnd Hin) as G1.
  pose proof (get_of_In k u' users Hnd Hin') as G2.
  congruence.
Qed.

(** Without a namesake the eviction loop changes nothing. *)
Lemma evictUsername_no_namesake username users :
  Forall (fun e => hasUsername username (snd e) = false) users ->
  evictUsername username users = users.
Proof.
  intros Hall. unfold evictUsername. rewrite evict_fold.
  rewrite <- (filter_all users) at 2. apply filter_ext_in.
  intros x _. unfold keyOfNamed.
  destruct (existsb _ users) eqn:E; [|reflexivity].
  apply existsb_exists in E. destruct E as [e [Hin H]].
  rewrite Forall_forall in Hall. rewrite (Hall e Hin) in H. discriminate.
Qed.

(** X2. In a reachable state, a well-formed fallback join leaves in the
    room exactly one entry with the joining username, the new one under
    the generated [userId]; every entry of another username stays, and
    nothing else is added. *)
Theorem fallback_join_replaces_namesakes :
  forall st now rnd r name,
    reachable st -> r <> "" -> name <> "" ->
    let userId := ("user-" ++ toString now ++ "-" ++ rnd)%string in
    let joiner := User.mk (Some name) (Some userId) None in
    let before := match JSMap.get r (Server.rooms st) with
                  | Some room => Room.users room
                  | None => []
                  end in
    exists room',
      JSMap.get r (Server.rooms (fst (fst (httpJoin now rnd (Some r) (Some name) st))))
        = Some room' /\
      entriesNamed name room' = [(userId, joiner)] /\
      (forall k u, In (k, u) before -> hasUsername name u = false -> k <> userId ->
                   In (k, u) (Room.users room')) /\
      (forall e, In e (Room.users room') -> e = (userId, joiner) \/ In e before).
Proof.
  intros st now rnd r name Hreach Hr Hn. cbv zeta.
  rewrite (httpJoin_accepted now rnd r name st Hr Hn).
  cbn [fst setRooms Server.rooms]. rewrite get_set_eq.
  eexists. split; [reflexivity|]. cbn [Room.users].
  assert (Hnd : NoDup (JSMap.keys
                         (Room.users match JSMap.get r (Server.rooms st) with
                                     | Some room => room
                                     | None => newRoom
                                     end))).
  { destruct (JSMap.get r (Server.rooms st)) as [room|] eqn:Hg; [|constructor].
    exact (proj1 (wellFormed_get _ _ _ (reachable_wellFormed st Hreach) Hg)). }
  assert (Hbefore : Room.users match JSMap.get r (Server.rooms st) with
                               | Some room => room
                               | None => newRoom
                               end
                    = match JSMap.get r (Server.rooms st) with
                      | Some room => Room.users room
                      | None => []
                      end)
    by now destruct (JSMap.get r (Server.rooms st)).
  rewrite <- Hbefore.
  split; [|split].
  - unfold entriesNamed. cbn [Room.users].
    apply (filter_set_fresh (hasUsername name));
      [apply evictUsername_none | apply hasUsername_refl].
  - intros k u Hin Hu Hk. apply In_set_other; [|exact Hk].
    apply evictUsername_keeps; [exact Hin|].
    now apply keyOfNamed_other.
  - intros e He. apply In_set_inv in He. destruct He as [->|He]; [now left|].
    right. now apply evictUsername_subset in He.
Qed.

Lemma fallback_join_replaces_namesakes_witness :
  exists room',
    JSMap.get "abc"
      (Server.rooms (fst (fst (httpJoin 2000 "k3x" (Some "abc") (Some "A") roomOfTwo))))
      = Some room' /\
    JSMap.keys (Room.users room') = ["b"; "user-2000-k3x"].
Proof.
  destruct (fallback_join_replaces_namesakes roomOfTwo 2000%Z "k3x" "abc" "A")
    as [room' [Hg _]];
    [apply run_reachable, reachable_initial | discriminate | discriminate |].
  exists room'. split; [exact Hg|].
  cbv in Hg. injection Hg as <-. reflexivity.
Defined.

Lemma httpLeave_status_200 now r userId username st room :
  r <> "" ->
  JSMap.get r (Server.rooms st) = Some room ->
  status (snd (fst (httpLeave now (Some r) userId username st))) = 200%Z ->
  exists u users1, httpLeaveFind userId username (Room.users room) = Some (u, users1).
Proof.
  intros Hr Hg. unfold httpLeave. rewrite (required_present r Hr), Hg.
  destruct (httpLeaveFind userId username (Room.users room)) as [[u users1]|].
  - intros _. now exists u, users1.
  - cbn. discriminate.
Qed.

(** The entry a fallback leave settles on, with the order of the two
    lookups: [userId] first, the username only when [userId] is absent,
    empty or no key of the room. *)
Lemma httpLeaveFind_priority userId username users u users1 :
  httpLeaveFind userId username users = Some (u, users1) ->
  exists k, In (k, u) users /\ users1 = JSMap.delete k users /\
            if match required userId with
               | Some uid => JSMap.has uid users
               | None => false
               end
            then required userId = Some k
            else exists name, required username = Some name /\
                              findByUsername name users = Some (k, u).
Proof.
  unfold httpLeaveFind, JSMap.has.
  assert (Hname :
            match required username with
            | Some name =>
                match findByUsername name users with
                | Some (k, u0) => Some (u0, JSMap.delete k users)
                | None => None
                end
            | None => None
            end = Some (u, users1) ->
            exists k, In (k, u) users /\ users1 = JSMap.delete k users /\
                      exists name, required username = Some name /\
                                   findByUsername name users = Some (k, u)).
  { destruct (required username) as [name|]; [|discriminate].
    destruct (findByUsername name users) as [[k u0]|] eqn:Hf; [|discriminate].
    intros [= -> <-]. exists k. split; [exact (proj1 (findByUsername_In _ _ _ _ Hf))|].
    split; [reflexivity|]. now exists name. }
  destruct (required userId) as [uid|]; [|exact Hname].
  destruct (JSMap.get uid users) as [u0|] eqn:Hg; [|exact Hname].
  intros [= -> <-]. exists uid. split; [now apply get_In|]. split; reflexivity.
Qed.

(** X3. A fallback leave answered 200 removes exactly one participant
    entry of the room (a [Map], so no key twice): the one under
    [userId] when [userId] is given and is a key of the room, and only
    otherwise the earliest-inserted entry with the given [username].
    Every other entry stays; the room is deleted exactly when no entry
    remains, and otherwise keeps the remaining entries and gains the
    leave notice of the removed participant. *)
Theorem fallback_leave_removes_one_entry :
  forall st now r userId username room,
    NoDup (JSMap.keys (Room.users room)) -> r <> "" ->
    JSMap.get r (Server.rooms st) = Some room ->
    status (snd (fst (httpLeave now (Some r) userId username st))) = 200%Z ->
    exists k u,
      JSMap.get k (Room.users room) = Some u /\
      (if match required userId with
          | Some uid => JSMap.has uid (Room.users room)
          | None => false
          end
       then required userId = Some k
       else exists name, required username = Some name /\
                         findByUsername name (Room.users room) = Some (k, u)) /\
      let remaining := JSMap.delete k (Room.users room) in
      let notice :=
        systemMessage now (interp (User.username u) ++ " left the room")%string in
      S (List.length remaining) = List.length (Room.users room) /\
      (forall k', k' <> k -> JSMap.get k' remaining = JSMap.get k' (Room.users room)) /\
      httpLeave now (Some r) userId username st =
        (setRooms (if Nat.eqb (JSMap.size remaining) 0
                   then JSMap.delete r (Server.rooms st)
                   else JSMap.set r (Room.mk remaining (Room.videoState room)
                                             (Room.messages room ++ [notice]))
                                  (Server.rooms st)) st,
         respond 200 (BLeave (Nat.eqb (JSMap.size remaining) 0)),
         [emit (ToRoom r) "user_left" (PMessage notice)]).
Proof.
  intros st now r userId username room Hnd Hr Hg H200.
  destruct (httpLeave_status_200 now r userId username st room Hr Hg H200)
    as [u [users1 Hf]].
  pose proof (httpLeave_found now r userId username st room u users1 Hr Hg Hf) as Hres.
  destruct (httpLeaveFind_priority _ _ _ _ _ Hf) as [k [Hin [-> Hwho]]].
  pose proof (get_of_In k u _ Hnd Hin) as Hk.
  exists k, u. split; [exact Hk|]. split; [exact Hwho|]. cbv zeta.
  split; [exact (length_delete k u _ Hnd Hk)|].
  split; [intros k' Hne; apply get_delete_ne; congruence | exact Hres].
Qed.

(** Both lookups would match, at different entries: [userId] wins. *)
Lemma fallback_leave_removes_one_entry_witness :
  JSMap.get "abc"
    (Server.rooms (fst (fst (httpLeave 3000 (Some "abc") (Some "a") (Some "B")
                               roomOfTwo)))) =
    Some (Room.mk [("b", User.mk (Some "B") None (Some "b"))]
                  (VideoState.mk (Some 0%float) (Some false))
                  [systemMessage 3000 "A left the room"]).
Proof.
  destruct (fallback_leave_removes_one_entry roomOfTwo 3000%Z "abc" (Some "a") (Some "B")
              (Room.mk [("a", User.mk (Some "A") None (Some "a"));
                        ("b", User.mk (Some "B") None (Some "b"))]
                       (VideoState.mk (Some 0%float) (Some false)) []))
    as [k [u [Hk [Hwho [_ [_ Hres]]]]]];
    [repeat constructor; cbn; intuition discriminate | discriminate | reflexivity
    | reflexivity |].
  cbn in Hwho. injection Hwho as <-. cbn in Hk. injection Hk as <-.
  rewrite Hres. reflexivity.
Defined.

(** ** Push chat: the duplicate window *)

(** X4. A push chat post to an existing room is dropped, without any
    emission, when the history holds a message of the same user and
    text whose stored timestamp is a date (at most 8.64e15 ms away from
    the epoch) less than 2000 ms before the server's clock (a stored
    timestamp in the future counts); it is appended and broadcast to
    the room when every such message is 2000 ms old or older, or
    stamped with a number that is no date.  The stored timestamp is the
    one the client supplied, the server's clock when it supplied none
    or 0. *)
Theorem push_chat_duplicate_window :
  forall st now rnd socketId text r user timestamp room,
    JSMap.get r (Server.rooms st) = Some room ->
    ((exists msg, In msg (Room.messages room) /\
                  Message.user msg = user /\ Message.text msg = text /\
                  (Z.abs (Message.timestamp msg) <= 8640000000000000)%Z /\
                  (now - Message.timestamp msg < 2000)%Z) ->
     chatMessage now rnd socketId text r user timestamp st = (st, [])) /\
    ((forall msg, In msg (Room.messages room) ->
                  Message.user msg = user -> Message.text msg = text ->
                  (8640000000000000 < Z.abs (Message.timestamp msg))%Z \/
                  (2000 <= now - Message.timestamp msg)%Z) ->
     let newMessage :=
       Message.mk (toString now ++ "-" ++ rnd)%string user text
                  (match timestamp with
                   | Some t => if (t =? 0)%Z then now else t
                   | None => now
                   end) in
     chatMessage now rnd socketId text r user timestamp st =
       (setRooms (JSMap.set r (Room.mk (Room.users room) (Room.videoState room)
                                       (Room.messages room ++ [newMessage]))
                            (Server.rooms st)) st,
        [emit (ToRoom r) "chat_message" (PMessage newMessage)])).
Proof.
  intros st now rnd socketId text r user timestamp room Hg. split.
  - intros [msg [Hin [Hu [Ht [Hr Hlt]]]]].
    exact (chatMessage_drops_recent_duplicate now rnd socketId text r user timestamp
             st room msg Hg Hin Hu Ht Hr Hlt).
  - intros Hold.
    exact (chatMessage_stores_when_old now rnd socketId text r user timestamp
             st room Hg Hold).
Qed.

Lemma push_chat_duplicate_window_witness :
  chatMessage 5000 "r1" "a" (Some "hi") "abc" (Some "A") (Some 0%Z) roomOfOne =
    (setRooms [("abc", Room.mk [("a", User.mk (Some "A") None (Some "a"))]
                               (VideoState.mk (Some 0%float) (Some false))
                               [Message.mk "5000-r1" (Some "A") (Some "hi") 5000])]
              roomOfOne,
     [emit (ToRoom "abc") "chat_message"
           (PMessage (Message.mk "5000-r1" (Some "A") (Some "hi") 5000))]) /\
  chatMessage 5500 "r2" "a" (Some "hi") "abc" (Some "A") None
    (fst (chatMessage 5000 "r1" "a" (Some "hi") "abc" (Some "A") (Some 0%Z) roomOfOne)) =
    (fst (chatMessage 5000 "r1" "a" (Some "hi") "abc" (Some "A") (Some 0%Z) roomOfOne),
     []).
Proof.
  split.
  - refine (proj2 (push_chat_duplicate_window roomOfOne 5000%Z "r1" "a" (Some "hi")
                     "abc" (Some "A") (Some 0%Z) _ eq_refl) _).
    intros msg [].
  - refine (proj1 (push_chat_duplicate_window
                     (fst (chatMessage 5000 "r1" "a" (Some "hi") "abc" (Some "A")
                             (Some 0%Z) roomOfOne))
                     5500%Z "r2" "a" (Some "hi") "abc" (Some "A") None
                     (Room.mk [("a", User.mk (Some "A") None (Some "a"))]
                              (VideoState.mk (Some 0%float) (Some false))
                              [Message.mk "5000-r1" (Some "A") (Some "hi") 5000])
                     eq_refl) _).
    exists (Message.mk "5000-r1" (Some "A") (Some "hi") 5000).
    split; [now left|]. split; [reflexivity|]. split; [reflexivity|].
    split; cbn; lia.
Defined.

Lemma historyLength_set r room st :
  historyLength r (setRooms (JSMap.set r room (Server.rooms st)) st) =
  List.length (Room.messages room).
Proof. unfold historyLength. cbn. now rewrite get_set_eq. Qed.

(** X5. Two push posts of the same user and text to a room whose
    history holds no such message: the first is stored under the
    timestamp [stamp] (the client's, else, when that is absent or 0,
    the server's clock).  The second, handled at [now'], is dropped
    while [stamp] is a date and [now' - stamp < 2000], and leaves one
    stored copy; once [now' - stamp >= 2000], or when [stamp] is more
    than 8.64e15 ms away from the epoch and so no date, it is stored
    too and the history holds two. *)
Theorem push_chat_repeat :
  forall st now now' rnd rnd' socketId socketId' text r user timestamp timestamp' room,
    JSMap.get r (Server.rooms st) = Some room ->
    (forall msg, In msg (Room.messages room) ->
                 Message.user msg = user -> Message.text msg = text -> False) ->
    let stamp := match timestamp with
                 | Some t => if (t =? 0)%Z then now else t
                 | None => now
                 end in
    let st1 := fst (chatMessage now rnd socketId text r user timestamp st) in
    historyLength r st1 = S (List.length (Room.messages room)) /\
    ((Z.abs stamp <= 8640000000000000)%Z -> (now' - stamp < 2000)%Z ->
     chatMessage now' rnd' socketId' text r user timestamp' st1 = (st1, [])) /\
    ((8640000000000000 < Z.abs stamp)%Z \/ (2000 <= now' - stamp)%Z ->
     historyLength r (fst (chatMessage now' rnd' socketId' text r user timestamp' st1))
       = S (S (List.length (Room.messages room)))).
Proof.
  intros st now now' rnd rnd' socketId socketId' text r user timestamp timestamp'
    room Hg Hnone. cbv zeta.
  assert (Hold : forall msg, In msg (Room.messages room) ->
                   Message.user msg = user -> Message.text msg = text ->
                   (8640000000000000 < Z.abs (Message.timestamp msg))%Z \/
                   (2000 <= now - Message.timestamp msg)%Z)
    by (intros msg Hin Hu Ht; destruct (Hnone msg Hin Hu Ht)).
  rewrite (chatMessage_stores_when_old now rnd socketId text r user timestamp
             st room Hg Hold).
  cbn [fst].
  change (match timestamp with
          | Some t => if (t =? 0)%Z then now else t
          | None => now
          end) with (orNow timestamp now).
  set (first := Message.mk _ user text (orNow timestamp now)).
  set (room1 := Room.mk (Room.users room) (Room.videoState room)
                        (Room.messages room ++ [first])).
  set (st1 := setRooms (JSMap.set r room1 (Server.rooms st)) st).
  assert (Hg1 : JSMap.get r (Server.rooms st1) = Some room1) by apply get_set_eq.
  split; [|split].
  - unfold st1. rewrite historyLength_set. cbn. rewrite length_app. cbn. lia.
  - intros Hr Hlt.
    apply (chatMessage_drops_recent_duplicate now' rnd' socketId' text r user
             timestamp' st1 room1 first Hg1); try reflexivity; [|exact Hr|exact Hlt].
    cbn. apply in_or_app. right. now left.
  - intros Hge.
    rewrite (chatMessage_stores_when_old now' rnd' socketId' text r user timestamp'
               st1 room1 Hg1).
    + cbn [fst]. rewrite historyLength_set. cbn. rewrite !length_app. cbn. lia.
    + intros msg Hin Hu Ht. cbn in Hin. apply in_app_or in Hin.
      destruct Hin as [Hin|[<-|[]]]; [destruct (Hnone msg Hin Hu Ht) | exact Hge].
Qed.

Lemma push_chat_repeat_witness :
  chatMessage 5500 "r2" "b" (Some "hi") "abc" (Some "A") None
    (fst (chatMessage 5000 "r1" "a" (Some "hi") "abc" (Some "A") (Some 0%Z) roomOfOne)) =
    (fst (chatMessage 5000 "r1" "a" (Some "hi") "abc" (Some "A") (Some 0%Z) roomOfOne),
     []) /\
  historyLength "abc"
    (fst (chatMessage 7000 "r2" "b" (Some "hi") "abc" (Some "A") None
            (fst (chatMessage 5000 "r1" "a" (Some "hi") "abc" (Some "A") None
                    roomOfOne)))) = 2 /\
  historyLength "abc"
    (fst (chatMessage 5500 "r2" "b" (Some "hi") "abc" (Some "A") None
            (fst (chatMessage 5000 "r1" "a" (Some "hi") "abc" (Some "A")
                    (Some 8640000000000001%Z) roomOfOne)))) = 2.
Proof.
  destruct (push_chat_repeat roomOfOne 5000%Z 5500%Z "r1" "r2" "a" "b" (Some "hi") "abc"
              (Some "A") (Some 0%Z) None _ eq_refl) as [_ [Hdrop _]];
    [intros msg [] |].
  destruct (push_chat_repeat roomOfOne 5000%Z 7000%Z "r1" "r2" "a" "b" (Some "hi") "abc"
              (Some "A") None None _ eq_refl) as [_ [_ Hkeep]];
    [intros msg [] |].
  destruct (push_chat_repeat roomOfOne 5000%Z 5500%Z "r1" "r2" "a" "b" (Some "hi") "abc"
              (Some "A") (Some 8640000000000001%Z) None _ eq_refl) as [_ [_ Hnodate]];
    [intros msg [] |].
  split; [apply Hdrop; cbn; lia | split].
  - apply Hkeep. right. lia.
  - apply Hnodate. left. cbn. lia.
Defined.

(** ** Disconnecting *)

(** Called for the socket's own username, [leaveRoomCleanup] removes the
    socket's entry from the room and nothing else. *)
Lemma leaveRoomCleanup_own now socketId r s :
  Server.rooms (fst (leaveRoomCleanup now socketId r (usernameIn socketId r s) s))
  = dropSocket socketId r (Server.rooms s).
Proof.
  unfold leaveRoomCleanup, usernameIn, dropSocket.
  destruct (JSMap.get r (Server.rooms s)) as [room|]; [|reflexivity].
  unfold cleanupFind.
  destruct (JSMap.get socketId (Room.users room)) as [u|]; [|reflexivity].
  cbn. now destruct (Nat.eqb _ 0).
Qed.

Lemma dropSocket_other socketId r r0 rooms :
  r <> r0 -> JSMap.get r0 (dropSocket socketId r rooms) = JSMap.get r0 rooms.
Proof.
  intros Hne. unfold dropSocket.
  destruct (JSMap.get r rooms) as [room|]; [|reflexivity].
  destruct (JSMap.get socketId (Room.users room)); [|reflexivity].
  cbv zeta. destruct (Nat.eqb _ 0);
    [now apply get_delete_ne | now apply get_set_ne].
Qed.

(** The registry after a disconnect: the socket is dropped from the
    rooms of [userRooms], then from every room that is left. *)
Lemma disconnect_rooms now socketId st :
  Server.rooms (fst (disconnect now socketId st)) =
  let tracked :=
    dropAll socketId (Conn.userRooms (connOf socketId st)) (Server.rooms st) in
  dropAll socketId (JSMap.keys tracked) tracked.
Proof.
  unfold disconnect. cbn [fst Server.rooms]. cbv zeta.
  set (st0 := setConn socketId _ st).
  assert (Htracked :
            forall l (acc : PushResult),
              Server.rooms
                (fst (fold_left
                        (fun (acc : PushResult) roomId =>
                           let '(s, out) := acc in
                           let '(s', o) :=
                             leaveRoomCleanup now socketId roomId
                               (usernameIn socketId roomId s) s in
                           (s', out ++ o)) l acc))
              = dropAll socketId l (Server.rooms (fst acc))).
  { induction l as [|r l IH]; intros [s out]; simpl; [reflexivity|].
    pose proof (leaveRoomCleanup_own now socketId r s) as H.
    destruct (leaveRoomCleanup now socketId r (usernameIn socketId r s) s) as [s' o].
    rewrite IH. cbn [fst] in *. now rewrite H. }
  assert (Hlegacy :
            forall l (acc : PushResult),
              Server.rooms
                (fst (fold_left
                        (fun (acc : PushResult) roomId =>
                           let '(s, out) := acc in
                           match JSMap.get roomId (Server.rooms s) with
                           | Some room =>
                               if JSMap.has socketId (Room.users room)
                               then let '(s', o) :=
                                      leaveRoomCleanup now socketId roomId
                                        (usernameIn socketId roomId s) s in
                                    (s', out ++ o)
                               else acc
                           | None => acc
                           end) l acc))
              = dropAll socketId l (Server.rooms (fst acc))).
  { induction l as [|r l IH]; intros [s out]; simpl; [reflexivity|].
    rewrite IH. f_equal. cbn [fst].
    pose proof (leaveRoomCleanup_own now socketId r s) as H.
    unfold dropSocket in *. unfold JSMap.has.
    destruct (JSMap.get r (Server.rooms s)) as [room|]; [|reflexivity].
    destruct (JSMap.get socketId (Room.users room)); [|reflexivity].
    destruct (leaveRoomCleanup now socketId r (usernameIn socketId r s) s) as [s' o].
    exact H. }
  rewrite Hlegacy, Htracked. reflexivity.
Qed.

Lemma dropSocket_settles socketId r0 room0 rooms :
  JSMap.get r0 rooms = Some room0 ->
  settled socketId r0 room0 (dropSocket socketId r0 rooms).
Proof.
  intros Hg. unfold settled, dropSocket. rewrite Hg.
  destruct (JSMap.get socketId (Room.users room0)); [|exact Hg].
  cbv zeta. destruct (Nat.eqb _ 0); [apply get_delete_eq | apply get_set_eq].
Qed.

Lemma dropSocket_settled socketId r r0 room0 rooms :
  settled socketId r0 room0 rooms ->
  settled socketId r0 room0 (dropSocket socketId r rooms).
Proof.
  intros Hs. destruct (String.eqb r r0) eqn:E.
  - apply String.eqb_eq in E. subst r. revert Hs. unfold settled, dropSocket.
    destruct (JSMap.get socketId (Room.users room0)) eqn:Hu.
    + cbv zeta. destruct (Nat.eqb _ 0) eqn:Hz; intros Hs; rewrite Hs; [exact Hs|].
      cbn [Room.users]. now rewrite get_delete_eq.
    + intros Hs. now rewrite Hs, Hu.
  - apply String.eqb_neq in E. revert Hs. unfold settled.
    rewrite (dropSocket_other socketId r r0 rooms E). exact (fun H => H).
Qed.

Lemma dropAll_settled socketId rs r0 room0 rooms :
  settled socketId r0 room0 rooms ->
  settled socketId r0 room0 (dropAll socketId rs rooms).
Proof.
  revert rooms. unfold dropAll.
  induction rs as [|r rs IH]; intros rooms Hs; simpl; [exact Hs|].
  apply IH. now apply dropSocket_settled.
Qed.

Lemma dropAll_pending socketId rs r0 room0 rooms :
  JSMap.get r0 rooms = Some room0 ->
  JSMap.get r0 (dropAll socketId rs rooms) = Some room0 \/
  settled socketId r0 room0 (dropAll socketId rs rooms).
Proof.
  revert rooms. unfold dropAll.
  induction rs as [|r rs IH]; intros rooms Hg; simpl; [now left|].
  destruct (String.eqb r r0) eqn:E.
  - apply String.eqb_eq in E. subst r. right.
    apply (dropAll_settled socketId rs). now apply dropSocket_settles.
  - apply String.eqb_neq in E. apply IH.
    now rewrite (dropSocket_other socketId r r0 rooms E).
Qed.

Lemma dropAll_covers socketId rs r0 room0 rooms :
  JSMap.get r0 rooms = Some room0 -> In r0 rs ->
  settled socketId r0 room0 (dropAll socketId rs rooms).
Proof.
  revert rooms. unfold dropAll.
  induction rs as [|r rs IH]; intros rooms Hg Hin; simpl; [destruct Hin|].
  destruct (String.eqb r r0) eqn:E.
  - apply String.eqb_eq in E. subst r.
    apply (dropAll_settled socketId rs). now apply dropSocket_settles.
  - apply String.eqb_neq in E. destruct Hin as [->|Hin]; [congruence|].
    apply IH; [|exact Hin]. now rewrite (dropSocket_other socketId r r0 rooms E).
Qed.

(** Every room of the registry, after the socket disconnected. *)
Lemma disconnect_room now socketId st r room :
  JSMap.get r (Server.rooms st) = Some room ->
  settled socketId r room (Server.rooms (fst (disconnect now socketId st))).
Proof.
  intros Hg. rewrite disconnect_rooms. cbv zeta.
  destruct (dropAll_pending socketId (Conn.userRooms (connOf socketId st)) r room
              (Server.rooms st) Hg) as [Hp|Hs].
  - apply (dropAll_covers socketId _ r room _ Hp). exact (get_Some_keys _ _ _ Hp).
  - now apply dropAll_settled.
Qed.

Lemma dropSocket_absent socketId r r0 rooms :
  JSMap.get r0 rooms = None -> JSMap.get r0 (dropSocket socketId r rooms) = None.
Proof.
  intros Hg. destruct (String.eqb r r0) eqn:E.
  - apply String.eqb_eq in E. subst r. unfold dropSocket. now rewrite Hg.
  - apply String.eqb_neq in E. now rewrite dropSocket_other.
Qed.

Lemma dropAll_absent socketId rs r0 rooms :
  JSMap.get r0 rooms = None -> JSMap.get r0 (dropAll socketId rs rooms) = None.
Proof.
  revert rooms. unfold dropAll.
  induction rs as [|r rs IH]; intros rooms Hg; simpl; [exact Hg|].
  apply IH. now apply dropSocket_absent.
Qed.

(** X6. When a socket disconnects, its entry is removed from every
    room of the registry, whether [userRooms] lists the room or not: a
    room that held no entry of the socket is left exactly as it was, a
    room that held only the socket's entry is deleted, any other room
    keeps its other entries, its playback state and its history.  No
    room is created, and the socket's connection record is gone. *)
Theorem disconnect_clears_socket :
  forall st now socketId,
    let st' := fst (disconnect now socketId st) in
    JSMap.get socketId (Server.conns st') = None /\
    (forall r, JSMap.get r (Server.rooms st) = None ->
               JSMap.get r (Server.rooms st') = None) /\
    (forall r room,
        JSMap.get r (Server.rooms st) = Some room ->
        match JSMap.get socketId (Room.users room) with
        | None => JSMap.get r (Server.rooms st') = Some room
        | Some _ =>
            let users1 := JSMap.delete socketId (Room.users room) in
            if Nat.eqb (JSMap.size users1) 0
            then JSMap.get r (Server.rooms st') = None
            else JSMap.get r (Server.rooms st') =
                   Some (Room.mk users1 (Room.videoState room) (Room.messages room))
        end) /\
    (forall r room',
        JSMap.get r (Server.rooms st') = Some room' ->
        JSMap.get socketId (Room.users room') = None).
Proof.
  intros st now socketId. cbv zeta. split; [|split; [|split]].
  - unfold disconnect. cbn [fst Server.conns]. apply get_delete_eq.
  - intros r Hg. rewrite disconnect_rooms. cbv zeta.
    now apply dropAll_absent, dropAll_absent.
  - intros r room Hg. exact (disconnect_room now socketId st r room Hg).
  - intros r room' Hg'.
    destruct (JSMap.get r (Server.rooms st)) as [room|] eqn:Hg.
    + pose proof (disconnect_room now socketId st r room Hg) as Hs.
      unfold settled in Hs.
      destruct (JSMap.get socketId (Room.users room)) eqn:Hu.
      * cbv zeta in Hs. destruct (Nat.eqb _ 0); [congruence|].
        rewrite Hs in Hg'. injection Hg' as <-. cbn. apply get_delete_eq.
      * congruence.
    + rewrite disconnect_rooms in Hg'. cbv zeta in Hg'.
      rewrite (dropAll_absent socketId _ r _
                 (dropAll_absent socketId _ r _ Hg)) in Hg'. discriminate.
Qed.

(** ** Push join: what it leaves behind *)

Lemma JSSet_has_add x s : JSSet.has x (JSSet.add x s) = true.
Proof.
  unfold JSSet.add. destruct (JSSet.has x s) eqn:E; [exact E|].
  unfold JSSet.has. rewrite existsb_app. cbn. rewrite String.eqb_refl.
  now rewrite orb_true_r.
Qed.

Lemma JSSet_delete_add x s : JSSet.has x s = false -> JSSet.delete x (JSSet.add x s) = s.
Proof.
  intros H. unfold JSSet.add. rewrite H. unfold JSSet.delete.
  rewrite filter_app. cbn. rewrite String.eqb_refl. cbn. rewrite app_nil_r.
  unfold JSSet.has in H.
  induction s as [|y s IH]; cbn in *; [reflexivity|].
  apply orb_false_iff in H. destruct H as [Hy Hs]. rewrite Hy. cbn. now rewrite IH.
Qed.

(** The push join in general: whatever the cleanup of an earlier
    membership did, the socket's entry is set in the room found or
    created afterwards. *)
Lemma joinRoom_general now socketId r username st :
  exists st1 out1,
    (if JSSet.has r (Conn.userRooms (connOf socketId st))
     then leaveRoomCleanup now socketId r username st
     else (st, [])) = (st1, out1) /\
    let room := match JSMap.get r (Server.rooms st1) with
                | Some room => room
                | None => newRoom
                end in
    let users1 := JSMap.set socketId (User.mk username None (Some socketId))
                            (Room.users room) in
    joinRoom now socketId r username st =
      (setRooms (JSMap.set r (Room.mk users1 (Room.videoState room) (Room.messages room))
                           (Server.rooms st1))
                (socketJoin socketId r st1),
       out1 ++
       [emit (ToRoom r) "user_joined"
             (PMessage (Message.mk (toString now) username
                          (Some (interp username ++ " joined the room")%string) now));
        emit (ToSocket socketId) "room_users"
             (PRoomUsers (JSMap.values users1) (Room.videoState room)
                         (Room.messages room))]).
Proof.
  unfold joinRoom.
  destruct (if JSSet.has r (Conn.userRooms (connOf socketId st))
            then leaveRoomCleanup now socketId r username st
            else (st, [])) as [st1 out1].
  exists st1, out1. split; [reflexivity|]. cbv zeta.
  change (Server.rooms (socketJoin socketId r st1)) with (Server.rooms st1).
  destruct (JSMap.get r (Server.rooms st1)) as [room|] eqn:Hg.
  - rewrite (ensureRoom_get_present _ _ _ Hg), ensureRoom_set. reflexivity.
  - rewrite (ensureRoom_get_absent _ _ Hg), ensureRoom_set. reflexivity.
Qed.

(** X7. After a push join, whatever the state before: the room exists
    and holds the socket's entry [{username, socketId}] under
    [socket.id], the socket is in the room's broadcast audience and in
    its own [userRooms], and a playback update the socket then sends
    for that room is accepted: it overwrites the room's playback state
    and is emitted to the room except the sender, labelled with the
    socket's id and username. *)
Theorem push_join_registers_socket :
  forall st now socketId r username,
    let st1 := fst (joinRoom now socketId r username st) in
    exists room1,
      JSMap.get r (Server.rooms st1) = Some room1 /\
      JSMap.get socketId (Room.users room1) =
        Some (User.mk username None (Some socketId)) /\
      In socketId (recipients st1 (ToRoom r)) /\
      JSSet.has r (Conn.userRooms (connOf socketId st1)) = true /\
      forall currentTime isPlaying,
        videoStateUpdate socketId currentTime isPlaying r st1 =
          (setRooms (JSMap.set r (Room.mk (Room.users room1)
                                          (VideoState.mk currentTime isPlaying)
                                          (Room.messages room1))
                               (Server.rooms st1)) st1,
           [emit (ToRoomExcept r socketId) "video_state_update"
                 (PVideoState currentTime isPlaying (Some socketId) username)]).
Proof.
  intros st now socketId r username. cbv zeta.
  destruct (joinRoom_general now socketId r username st) as [st0 [out0 [_ Hjoin]]].
  cbv zeta in Hjoin. rewrite Hjoin. cbn [fst].
  set (room := match JSMap.get r (Server.rooms st0) with
               | Some room => room
               | None => newRoom
               end).
  set (entry := User.mk username None (Some socketId)).
  set (room1 := Room.mk (JSMap.set socketId entry (Room.users room))
                        (Room.videoState room) (Room.messages room)).
  exists room1.
  assert (Hg : JSMap.get r (Server.rooms
                 (setRooms (JSMap.set r room1 (Server.rooms st0))
                           (socketJoin socketId r st0))) = Some room1)
    by apply get_set_eq.
  assert (Hu : JSMap.get socketId (Room.users room1) = Some entry) by apply get_set_eq.
  split; [exact Hg|]. split; [exact Hu|]. split; [|split].
  - unfold recipients, JSMap.keys. apply in_map_iff.
    exists (socketId,
            Conn.mk (JSSet.add r (Conn.userRooms (connOf socketId st0)))
                    (JSSet.add r (Conn.joined (connOf socketId st0)))).
    split; [reflexivity|]. apply filter_In. split; [apply In_set|].
    cbn. apply JSSet_has_add.
  - unfold connOf at 1. cbn [setRooms Server.conns socketJoin setConn].
    rewrite get_set_eq. cbn. apply JSSet_has_add.
  - intros currentTime isPlaying. unfold videoStateUpdate. now rewrite Hg, Hu.
Qed.

(** X8. A socket that is not in the room (no entry under its id, room
    not in its [userRooms]) joins and then leaves over the push path.
    When the room held at least one participant, or did not exist, the
    registry is afterwards exactly what it was before the join: the
    room keeps its participants, its playback state and its history,
    and a room the join created is deleted again.  When the room
    existed with an empty participant map, the leave empties it again
    and deletes it. *)
Theorem push_join_then_leave_restores_registry :
  forall st now now' socketId r username username',
    JSSet.has r (Conn.userRooms (connOf socketId st)) = false ->
    (forall room, JSMap.get r (Server.rooms st) = Some room ->
                  JSMap.get socketId (Room.users room) = None) ->
    let after :=
      Server.rooms
        (fst (leaveRoom now' socketId r username'
                (fst (joinRoom now socketId r username st)))) in
    match JSMap.get r (Server.rooms st) with
    | Some room =>
        if Nat.eqb (JSMap.size (Room.users room)) 0
        then after = JSMap.delete r (Server.rooms st)
        else after = Server.rooms st
    | None => after = Server.rooms st
    end.
Proof.
  intros st now now' socketId r username username' Hfresh Hnone. cbv zeta.
  rewrite (joinRoom_first_time now socketId r username st Hfresh). cbn [fst].
  set (entry := User.mk username None (Some socketId)).
  destruct (JSMap.get r (Server.rooms st)) as [room|] eqn:Hg.
  - pose proof (Hnone room eq_refl) as Hu.
    erewrite leaveRoom_found;
      [| apply get_set_eq
       | cbn [Room.users]; unfold cleanupFind; rewrite get_set_eq; reflexivity].
    cbn [fst]. rewrite (delete_set_absent socketId entry _ Hu).
    destruct (Nat.eqb (JSMap.size (Room.users room)) 0) eqn:Hsz.
    + cbn [socketLeave setConn setRooms Server.rooms]. apply delete_set.
    + cbn [socketLeave setConn setRooms Server.rooms Room.videoState Room.messages].
      rewrite set_set, room_eta. now apply set_same.
  - erewrite leaveRoom_found;
      [| apply get_set_eq
       | cbn [Room.users newRoom]; unfold cleanupFind; rewrite get_set_eq; reflexivity].
    cbn [fst]. rewrite (delete_set_absent socketId entry [] eq_refl).
    cbn [JSMap.size List.length Nat.eqb socketLeave setConn setRooms Server.rooms].
    now apply delete_set_absent.
Qed.

Lemma push_join_then_leave_restores_registry_witness :
  Server.rooms
    (fst (leaveRoom 3000 "b" "abc" None
            (fst (joinRoom 2000 "b" "abc" (Some "B") roomWithBystander))))
  = Server.rooms roomWithBystander /\
  Server.rooms
    (fst (leaveRoom 3000 "b" "abc" None
            (fst (joinRoom 2000 "b" "abc" (Some "B")
                    (Server.mk [("abc", Room.mk [] (VideoState.mk (Some 7%float) (Some true))
                                                [])] [])))))
  = [].
Proof.
  split.
  - refine (push_join_then_leave_restores_registry roomWithBystander 2000%Z 3000%Z
              "b" "abc" (Some "B") None eq_refl _).
    intros room [= <-]. reflexivity.
  - refine (push_join_then_leave_restores_registry
              (Server.mk [("abc", Room.mk [] (VideoState.mk (Some 7%float) (Some true))
                                          [])] [])
              2000%Z 3000%Z "b" "abc" (Some "B") None eq_refl _).
    intros room [= <-]. reflexivity.
Defined.

(** ** Fallback join, then leave *)

Lemma generated_userId_required now rnd :
  required (Some ("user-" ++ toString now ++ "-" ++ rnd)%string)
  = Some ("user-" ++ toString now ++ "-" ++ rnd)%string.
Proof. reflexivity. Qed.

Lemma httpLeaveFind_by_userId userId username users u :
  required (Some userId) = Some userId ->
  JSMap.get userId users = Some u ->
  httpLeaveFind (Some userId) username users = Some (u, JSMap.delete userId users).
Proof.
  intros Hreq Hg. unfold httpLeaveFind. now rewrite Hreq, Hg.
Qed.

(** X9. A well-formed fallback join followed by the fallback leave of
    the returned [userId].  When the room existed with at least one
    participant, held no entry with the joining username and none under
    the generated id, its participant map is afterwards exactly what it
    was, its playback state is untouched and its history has gained the
    join notice and the leave notice, in this order; the leave answers
    [roomDeleted: false].  When the room existed with an empty
    participant map, the leave empties it again, deletes it and answers
    [roomDeleted: true].  When the room did not exist, the join creates
    it and the leave deletes it again: the registry is what it was and
    the leave answers [roomDeleted: true]. *)
Theorem fallback_join_then_leave :
  forall st now now' rnd r name username',
    r <> "" -> name <> "" ->
    let userId := ("user-" ++ toString now ++ "-" ++ rnd)%string in
    let st1 := fst (fst (httpJoin now rnd (Some r) (Some name) st)) in
    let res := httpLeave now' (Some r) (Some userId) username' st1 in
    match JSMap.get r (Server.rooms st) with
    | Some room =>
        Forall (fun e => hasUsername name (snd e) = false) (Room.users room) ->
        JSMap.get userId (Room.users room) = None ->
        if Nat.eqb (JSMap.size (Room.users room)) 0
        then Server.rooms (fst (fst res)) = JSMap.delete r (Server.rooms st) /\
             snd (fst res) = respond 200 (BLeave true)
        else JSMap.get r (Server.rooms (fst (fst res))) =
               Some (Room.mk (Room.users room) (Room.videoState room)
                             (Room.messages room ++
                              [systemMessage now (name ++ " joined the room")%string;
                               systemMessage now' (name ++ " left the room")%string])) /\
             snd (fst res) = respond 200 (BLeave false)
    | None =>
        Server.rooms (fst (fst res)) = Server.rooms st /\
        snd (fst res) = respond 200 (BLeave true)
    end.
Proof.
  intros st now now' rnd r name username' Hr Hn. cbv zeta.
  rewrite (httpJoin_accepted now rnd r name st Hr Hn). cbn [fst].
  set (userId := ("user-" ++ toString now ++ "-" ++ rnd)%string).
  set (joiner := User.mk (Some name) (Some userId) None).
  destruct (JSMap.get r (Server.rooms st)) as [room|] eqn:Hg.
  - intros Hnames Hfresh.
    rewrite (evictUsername_no_namesake name _ Hnames).
    erewrite httpLeave_found;
      [| exact Hr
       | apply get_set_eq
       | cbn [Room.users];
         apply (httpLeaveFind_by_userId userId username' _ joiner);
         [apply generated_userId_required | apply get_set_eq]].
    rewrite (delete_set_absent userId joiner _ Hfresh).
    destruct (Nat.eqb (JSMap.size (Room.users room)) 0) eqn:Hsz.
    + cbn [fst snd setRooms Server.rooms].
      split; [apply delete_set | reflexivity].
    + cbn [fst snd setRooms Server.rooms Room.videoState Room.messages User.username
           joiner interp].
      rewrite get_set_eq, <- app_assoc. split; reflexivity.
  - cbn [newRoom Room.users].
    change (evictUsername name []) with (@nil (string * User.t)).
    erewrite httpLeave_found;
      [| exact Hr
       | apply get_set_eq
       | cbn [Room.users];
         apply (httpLeaveFind_by_userId userId username' _ joiner);
         [apply generated_userId_required | apply get_set_eq]].
    rewrite (delete_set_absent userId joiner [] eq_refl).
    cbn [fst snd JSMap.size List.length Nat.eqb setRooms Server.rooms].
    split; [now apply delete_set_absent | reflexivity].
Qed.

Lemma fallback_join_then_leave_witness :
  JSMap.get "abc"
    (Server.rooms
       (fst (fst (httpLeave 3000 (Some "abc") (Some "user-2000-k3x") None
                    (fst (fst (httpJoin 2000 "k3x" (Some "abc") (Some "B")
                                 roomOfOne))))))) =
    Some (Room.mk [("a", User.mk (Some "A") None (Some "a"))]
                  (VideoState.mk (Some 0%float) (Some false))
                  [systemMessage 2000 "B joined the room";
                   systemMessage 3000 "B left the room"]).
Proof.
  pose proof (fallback_join_then_leave roomOfOne 2000%Z 3000%Z "k3x" "abc" "B" None
                ltac:(discriminate) ltac:(discriminate)) as H.
  cbv zeta in H.
  change (JSMap.get "abc" (Server.rooms roomOfOne))
    with (Some (Room.mk [("a", User.mk (Some "A") None (Some "a"))]
                        (VideoState.mk (Some 0%float) (Some false)) [])) in H.
  cbv beta iota in H.
  exact (proj1 (H ltac:(repeat constructor) eq_refl)).
Defined.

(** ** Re-joining *)

(** X10. A socket that is the only participant of a room and sends
    [join_room] for it again (the room is in its [userRooms]) is first
    cleaned up, which deletes the room, and then joins a room created
    anew: the history is empty and the playback state is back to
    [(0, false)], whatever they were; the room is told that the
    participant left and joined. *)
Theorem sole_participant_rejoin_resets_room :
  forall st now socketId r username room u,
    JSMap.get r (Server.rooms st) = Some room ->
    Room.users room = [(socketId, u)] ->
    JSSet.has r (Conn.userRooms (connOf socketId st)) = true ->
    let entry := User.mk username None (Some socketId) in
    let playback := VideoState.mk (Some 0%float) (Some false) in
    JSMap.get r (Server.rooms (fst (joinRoom now socketId r username st))) =
      Some (Room.mk [(socketId, entry)] playback []) /\
    snd (joinRoom now socketId r username st) =
      [emit (ToRoom r) "user_left"
            (PMessage (Message.mk (toString now) (User.username u)
                         (Some (interp (User.username u) ++ " left the room")%string)
                         now));
       emit (ToRoom r) "user_joined"
            (PMessage (Message.mk (toString now) username
                         (Some (interp username ++ " joined the room")%string) now));
       emit (ToSocket socketId) "room_users" (PRoomUsers [entry] playback [])].
Proof.
  intros st now socketId r username room u Hg Hsole Hin. cbv zeta.
  destruct (joinRoom_general now socketId r username st) as [st1 [out1 [Hpre Hjoin]]].
  rewrite Hin in Hpre.
  assert (Hf : cleanupFind socketId username (Room.users room) = Some (u, []))
    by (rewrite Hsole; apply cleanupFind_sole).
  change (leaveRoomCleanup now socketId r username st)
    with (leaveRoom now socketId r username st) in Hpre.
  rewrite (leaveRoom_found now socketId r username st room u [] Hg Hf) in Hpre.
  injection Hpre as <- <-. cbv zeta in Hjoin. rewrite Hjoin. clear Hjoin.
  cbn [JSMap.size List.length Nat.eqb socketLeave setConn setRooms Server.rooms
       fst snd].
  rewrite get_delete_eq. cbn [newRoom Room.users Room.videoState Room.messages].
  rewrite get_set_eq. split; reflexivity.
Qed.

Lemma sole_participant_rejoin_resets_room_witness :
  let st :=
    fst (run [OnChatMessage 1500 "q7" "a" (Some "hi") "abc" (Some "A") None;
              OnVideoStateUpdate "a" (Some 42%float) (Some true) "abc"] roomOfOne) in
  historyLength "abc" st = 1 /\
  JSMap.get "abc" (Server.rooms (fst (joinRoom 2000 "a" "abc" (Some "A") st))) =
    Some (Room.mk [("a", User.mk (Some "A") None (Some "a"))]
                  (VideoState.mk (Some 0%float) (Some false)) []).
Proof.
  cbv zeta. split; [reflexivity|].
  refine (proj1 (sole_participant_rejoin_resets_room _ 2000%Z "a" "abc" (Some "A")
                   (Room.mk [("a", User.mk (Some "A") None (Some "a"))]
                            (VideoState.mk (Some 42%float) (Some true))
                            [Message.mk "1500-q7" (Some "A") (Some "hi") 1500])
                   (User.mk (Some "A") None (Some "a")) _ _ _)); reflexivity.
Defined.

(** ** One request, one room *)

Lemma Some_neq (r r' : string) : Some r <> Some r' -> r <> r'.
Proof. congruence. Qed.

Lemma leaveRoomCleanup_other now socketId r username st r' :
  r <> r' ->
  JSMap.get r' (Server.rooms (fst (leaveRoomCleanup now socketId r username st)))
  = JSMap.get r' (Server.rooms st).
Proof.
  intros Hne. unfold leaveRoomCleanup.
  destruct (JSMap.get r (Server.rooms st)) as [room|]; [|reflexivity].
  destruct (cleanupFind socketId username (Room.users room)) as [[u users1]|];
    [|reflexivity].
  cbn. destruct (Nat.eqb _ 0); [now apply get_delete_ne | now apply get_set_ne].
Qed.

Lemma leaveRoomCleanup_within now socketId r username st :
  Forall (withinRoom r) (snd (leaveRoomCleanup now socketId r username st)).
Proof.
  unfold leaveRoomCleanup.
  destruct (JSMap.get r (Server.rooms st)) as [room|]; [|constructor].
  destruct (cleanupFind socketId username (Room.users room)) as [[u users1]|];
    [|constructor].
  cbn. repeat constructor.
Qed.

Lemma joinRoom_other now socketId r username st r' :
  r <> r' ->
  JSMap.get r' (Server.rooms (fst (joinRoom now socketId r username st)))
  = JSMap.get r' (Server.rooms st).
Proof.
  intros Hne.
  destruct (joinRoom_general now socketId r username st) as [st1 [out1 [Hpre Hjoin]]].
  cbv zeta in Hjoin. rewrite Hjoin. cbn [fst setRooms Server.rooms].
  rewrite (get_set_ne r r' _ _ Hne).
  destruct (JSSet.has r (Conn.userRooms (connOf socketId st))).
  - pose proof (leaveRoomCleanup_other now socketId r username st r' Hne) as H.
    rewrite Hpre in H. exact H.
  - now injection Hpre as <- _.
Qed.

Lemma joinRoom_within now socketId r username st :
  Forall (withinRoom r) (snd (joinRoom now socketId r username st)).
Proof.
  destruct (joinRoom_general now socketId r username st) as [st1 [out1 [Hpre Hjoin]]].
  cbv zeta in Hjoin. rewrite Hjoin. cbn [snd]. apply Forall_app. split.
  - destruct (JSSet.has r (Conn.userRooms (connOf socketId st))).
    + pose proof (leaveRoomCleanup_within now socketId r username st) as H.
      now rewrite Hpre in H.
    + injection Hpre as _ <-. constructor.
  - repeat constructor.
Qed.

(** A request other than a disconnect leaves every room it is not
    addressed to as it was. *)
Lemma handle_other_room rq st r' :
  (forall now socketId, rq <> OnDisconnect now socketId) ->
  roomOf rq <> Some r' ->
  JSMap.get r' (Server.rooms (fst (handle rq st))) = JSMap.get r' (Server.rooms st).
Proof.
  intros Hnd Hr. destruct rq; cbn [handle roomOf dropResponse fst] in *.
  - unfold httpJoin. destruct (required roomId) as [r|]; [|reflexivity].
    apply Some_neq in Hr. destruct (required username); [|reflexivity].
    destruct (JSMap.get r (ensureRoom r (Server.rooms st))); [|reflexivity].
    cbn. rewrite ensureRoom_set. now apply get_set_ne.
  - unfold httpLeave. destruct (required roomId) as [r|]; [|reflexivity].
    apply Some_neq in Hr.
    destruct (JSMap.get r (Server.rooms st)) as [room|]; [|reflexivity].
    destruct (httpLeaveFind userId username (Room.users room)) as [[u users1]|];
      [|reflexivity].
    destruct (Nat.eqb _ 0); cbn; [now apply get_delete_ne | now apply get_set_ne].
  - unfold httpVideoState. destruct (required roomId) as [r|]; [|reflexivity].
    apply Some_neq in Hr. destruct currentTime; [|reflexivity].
    destruct isPlaying; [|reflexivity].
    destruct (JSMap.get r (Server.rooms st)); [|reflexivity].
    cbn. now apply get_set_ne.
  - unfold httpChat. destruct (required roomId) as [r|]; [|reflexivity].
    apply Some_neq in Hr. destruct (required text); [|reflexivity].
    destruct (required user); [|reflexivity].
    destruct (JSMap.get r (Server.rooms st)); [|reflexivity].
    cbn. now apply get_set_ne.
  - reflexivity.
  - apply joinRoom_other. congruence.
  - apply leaveRoomCleanup_other. congruence.
  - apply Some_neq in Hr. unfold videoStateUpdate.
    destruct (JSMap.get roomId (Server.rooms st)) as [room|]; [|reflexivity].
    destruct (JSMap.get socketId (Room.users room)); [|reflexivity].
    cbn. now apply get_set_ne.
  - apply Some_neq in Hr. unfold chatMessage.
    destruct (JSMap.get roomId (Server.rooms st)) as [room|]; [|reflexivity].
    destruct (Nat.ltb 0 _); [reflexivity|]. cbn. now apply get_set_ne.
  - elim (Hnd now socketId). reflexivity.
Qed.

Lemma handle_within rq st :
  (forall now socketId, rq <> OnDisconnect now socketId) ->
  match roomOf rq with
  | Some r => Forall (withinRoom r) (snd (handle rq st))
  | None => snd (handle rq st) = []
  end.
Proof.
  intros Hnd. destruct rq; cbn [handle roomOf dropResponse snd].
  - unfold httpJoin. destruct (required roomId) as [r|]; [|reflexivity].
    destruct (required username); [|constructor].
    destruct (JSMap.get r (ensureRoom r (Server.rooms st))); repeat constructor.
  - unfold httpLeave. destruct (required roomId) as [r|]; [|reflexivity].
    destruct (JSMap.get r (Server.rooms st)) as [room|]; [|constructor].
    destruct (httpLeaveFind userId username (Room.users room)) as [[u users1]|];
      [|constructor].
    destruct (Nat.eqb _ 0); repeat constructor.
  - unfold httpVideoState. destruct (required roomId) as [r|]; [|reflexivity].
    destruct currentTime; [|constructor]. destruct isPlaying; [|constructor].
    destruct (JSMap.get r (Server.rooms st)); repeat constructor.
  - unfold httpChat. destruct (required roomId) as [r|]; [|reflexivity].
    destruct (required text); [|constructor]. destruct (required user); [|constructor].
    destruct (JSMap.get r (Server.rooms st)); repeat constructor.
  - reflexivity.
  - apply joinRoom_within.
  - apply leaveRoomCleanup_within.
  - unfold videoStateUpdate.
    destruct (JSMap.get roomId (Server.rooms st)) as [room|]; [|constructor].
    destruct (JSMap.get socketId (Room.users room)); repeat constructor.
  - unfold chatMessage.
    destruct (JSMap.get roomId (Server.rooms st)) as [room|]; [|constructor].
    destruct (Nat.ltb 0 _); repeat constructor.
  - elim (Hnd now socketId). reflexivity.
Qed.

(** X11. A request that carries a room id (an event of the push path
    with its [roomId], a fallback request with a non-empty [roomId]),
    other than a disconnect, touches that room at most: every other
    room is afterwards what it was (present or absent), and whatever
    the request emits goes to that room (all of it, or all but the
    sender) or to one socket.  A fallback request whose [roomId] is
    absent or empty leaves every room as it was and emits nothing, and
    so does a new connection. *)
Theorem request_touches_one_room :
  forall rq st,
    (forall now socketId, rq <> OnDisconnect now socketId) ->
    (forall r r', roomOf rq = Some r -> r' <> r ->
                  JSMap.get r' (Server.rooms (fst (handle rq st)))
                  = JSMap.get r' (Server.rooms st)) /\
    (forall r, roomOf rq = Some r -> Forall (withinRoom r) (snd (handle rq st))) /\
    (match rq with
     | PostJoin _ _ roomId _ | PostLeave _ roomId _ _
     | PostVideoState roomId _ _ | PostChat _ roomId _ _ =>
         required roomId = None ->
         snd (handle rq st) = [] /\
         forall r', JSMap.get r' (Server.rooms (fst (handle rq st)))
                    = JSMap.get r' (Server.rooms st)
     | OnConnection _ =>
         snd (handle rq st) = [] /\
         forall r', JSMap.get r' (Server.rooms (fst (handle rq st)))
                    = JSMap.get r' (Server.rooms st)
     | _ => True
     end).
Proof.
  intros rq st Hnd. split; [|split].
  - intros r r' Hr Hne. apply handle_other_room; [exact Hnd|].
    rewrite Hr. congruence.
  - intros r Hr. pose proof (handle_within rq st Hnd) as H. now rewrite Hr in H.
  - pose proof (handle_within rq st Hnd) as Hw.
    assert (Ho : forall r', roomOf rq = None ->
                   JSMap.get r' (Server.rooms (fst (handle rq st)))
                   = JSMap.get r' (Server.rooms st)).
    { intros r' Hnone. apply handle_other_room; [exact Hnd|].
      rewrite Hnone. discriminate. }
    destruct rq; cbn [roomOf] in Hw, Ho; try exact I;
      try (intros Hreq; rewrite Hreq in Hw, Ho; split; [exact Hw|];
           intros r'; now apply Ho);
      split; [exact Hw | intros r'; now apply Ho].
Qed.

Lemma request_touches_one_room_witness :
  JSMap.get "den"
    (Server.rooms (fst (handle (PostChat 5000 (Some "abc") (Some "hi") (Some "A"))
                               roomOfOne)))
  = JSMap.get "den" (Server.rooms roomOfOne) /\
  snd (handle (PostChat 5000 (Some "") (Some "hi") (Some "A")) roomOfOne) = [].
Proof.
  split.
  - refine (proj1 (request_touches_one_room
                     (PostChat 5000 (Some "abc") (Some "hi") (Some "A")) roomOfOne _)
                  "abc" "den" eq_refl _); [intros now socketId|]; discriminate.
  - refine (proj1 (proj2 (proj2 (request_touches_one_room
                     (PostChat 5000 (Some "") (Some "hi") (Some "A")) roomOfOne _))
                     eq_refl)).
    intros now socketId; discriminate.
Defined.

(** ** The history of a room *)

(** Settles one branch of a handler: the room was deleted, replaced by a
    room with a known history, or left alone. *)
Ltac same_room_history Hg Hg' :=
  cbn [fst setRooms Server.rooms socketLeave socketJoin setConn] in Hg';
  first
    [ rewrite get_delete_eq in Hg'; discriminate Hg'
    | rewrite get_set_eq in Hg'; injection Hg' as <-; cbn [Room.messages];
      first [ exists (@nil Message.t); now rewrite app_nil_r
            | eexists; reflexivity ]
    | rewrite Hg in Hg'; injection Hg' as <-;
      exists (@nil Message.t); now rewrite app_nil_r ].

Lemma handle_same_room_history rq st r room room' :
  (forall now socketId, rq <> OnDisconnect now socketId) ->
  (forall now socketId username,
      rq = OnJoinRoom now socketId r username ->
      JSSet.has r (Conn.userRooms (connOf socketId st)) = false) ->
  roomOf rq = Some r ->
  JSMap.get r (Server.rooms st) = Some room ->
  JSMap.get r (Server.rooms (fst (handle rq st))) = Some room' ->
  exists more, Room.messages room' = Room.messages room ++ more.
Proof.
  intros Hnd Hfirst Hr Hg Hg'.
  destruct rq; cbn [handle roomOf dropResponse fst] in *; try discriminate.
  - revert Hg'. unfold httpJoin. rewrite Hr.
    destruct (required username); [|intros Hg'; same_room_history Hg Hg'].
    rewrite (ensureRoom_get_present _ _ _ Hg), ensureRoom_set.
    intros Hg'. same_room_history Hg Hg'.
  - revert Hg'. unfold httpLeave. rewrite Hr, Hg.
    destruct (httpLeaveFind userId username (Room.users room)) as [[u users1]|];
      [|intros Hg'; same_room_history Hg Hg'].
    destruct (Nat.eqb _ 0); intros Hg'; same_room_history Hg Hg'.
  - revert Hg'. unfold httpVideoState. rewrite Hr.
    destruct currentTime; [|intros Hg'; same_room_history Hg Hg'].
    destruct isPlaying; [|intros Hg'; same_room_history Hg Hg'].
    rewrite Hg. intros Hg'. same_room_history Hg Hg'.
  - revert Hg'. unfold httpChat. rewrite Hr.
    destruct (required text); [|intros Hg'; same_room_history Hg Hg'].
    destruct (required user); [|intros Hg'; same_room_history Hg Hg'].
    rewrite Hg. intros Hg'. same_room_history Hg Hg'.
  - injection Hr as ->.
    rewrite (joinRoom_first_time now socketId r username st
               (Hfirst now socketId username eq_refl)), Hg in Hg'.
    same_room_history Hg Hg'.
  - injection Hr as ->. revert Hg'. unfold leaveRoom, leaveRoomCleanup. rewrite Hg.
    destruct (cleanupFind socketId username (Room.users room)) as [[u users1]|];
      [|intros Hg'; same_room_history Hg Hg'].
    cbv zeta. destruct (Nat.eqb _ 0); intros Hg'; same_room_history Hg Hg'.
  - injection Hr as ->. revert Hg'. unfold videoStateUpdate. rewrite Hg.
    destruct (JSMap.get socketId (Room.users room));
      intros Hg'; same_room_history Hg Hg'.
  - injection Hr as ->. revert Hg'. unfold chatMessage. rewrite Hg.
    destruct (Nat.ltb 0 _); intros Hg'; same_room_history Hg Hg'.
Qed.

Lemma disconnect_history now socketId st r room room' :
  JSMap.get r (Server.rooms st) = Some room ->
  JSMap.get r (Server.rooms (fst (disconnect now socketId st))) = Some room' ->
  Room.messages room' = Room.messages room /\
  Room.videoState room' = Room.videoState room.
Proof.
  intros Hg Hg'. pose proof (disconnect_room now socketId st r room Hg) as Hs.
  unfold settled in Hs. destruct (JSMap.get socketId (Room.users room)).
  - cbv zeta in Hs. destruct (Nat.eqb _ 0); [congruence|].
    rewrite Hs in Hg'. injection Hg' as <-. now split.
  - rewrite Hs in Hg'. injection Hg' as <-. now split.
Qed.

(** X12. The history of a room only grows: for every request of either
    path, disconnects included, a room that is in the registry before
    and after the request has afterwards its previous messages, in
    order, followed by what the request appended.  The one exception,
    left out here, is a [join_room] by a socket whose [userRooms]
    already lists the room, which may delete and re-create the room. *)
Theorem history_only_grows :
  forall rq st r room room',
    (forall now socketId username,
        rq = OnJoinRoom now socketId r username ->
        JSSet.has r (Conn.userRooms (connOf socketId st)) = false) ->
    JSMap.get r (Server.rooms st) = Some room ->
    JSMap.get r (Server.rooms (fst (handle rq st))) = Some room' ->
    exists more, Room.messages room' = Room.messages room ++ more.
Proof.
  intros rq st r room room' Hfirst Hg Hg'.
  assert (Hcases : (exists now socketId, rq = OnDisconnect now socketId) \/
                   (forall now socketId, rq <> OnDisconnect now socketId)).
  { destruct rq; try (right; discriminate). left. now exists now, socketId. }
  destruct Hcases as [[now [socketId ->]]|Hnd].
  - cbn [handle] in Hg'.
    destruct (disconnect_history now socketId st r room room' Hg Hg') as [-> _].
    exists []. now rewrite app_nil_r.
  - destruct (roomOf rq) as [r0|] eqn:Hr.
    + destruct (String.eqb r0 r) eqn:E.
      * apply String.eqb_eq in E. subst r0.
        exact (handle_same_room_history rq st r room room' Hnd Hfirst Hr Hg Hg').
      * apply String.eqb_neq in E.
        rewrite (handle_other_room rq st r Hnd) in Hg' by congruence.
        rewrite Hg in Hg'. injection Hg' as <-. exists []. now rewrite app_nil_r.
    + rewrite (handle_other_room rq st r Hnd) in Hg' by congruence.
      rewrite Hg in Hg'. injection Hg' as <-. exists []. now rewrite app_nil_r.
Qed.

Lemma history_only_grows_witness :
  exists more,
    [Message.mk "1500-q7" (Some "A") (Some "hi") 1500;
     systemMessage 2000 "B joined the room"] =
    [Message.mk "1500-q7" (Some "A") (Some "hi") 1500] ++ more.
Proof.
  refine (history_only_grows
            (PostJoin 2000 "k3x" (Some "abc") (Some "B"))
            (fst (run [OnChatMessage 1500 "q7" "a" (Some "hi") "abc" (Some "A") None]
                      roomOfOne))
            "abc"
            (Room.mk [("a", User.mk (Some "A") None (Some "a"))]
                     (VideoState.mk (Some 0%float) (Some false))
                     [Message.mk "1500-q7" (Some "A") (Some "hi") 1500])
            (Room.mk [("a", User.mk (Some "A") None (Some "a"));
                      ("user-2000-k3x", User.mk (Some "B") (Some "user-2000-k3x") None)]
                     (VideoState.mk (Some 0%float) (Some false))
                     [Message.mk "1500-q7" (Some "A") (Some "hi") 1500;
                      systemMessage 2000 "B joined the room"])
            _ _ _); [discriminate | reflexivity | reflexivity].
Defined.

(** ** Participants and their identifiers *)

(** X13. In a reachable state every participant entry is stored under
    its own identifier: an entry made by the fallback join carries its
    key as [userId] (and no [socketId]), an entry made by the push join
    carries its key as [socketId] (and no [userId]); looking the key up
    in the room returns that entry. *)
Theorem participants_keyed_by_identifier :
  forall st r room k u,
    reachable st ->
    JSMap.get r (Server.rooms st) = Some room ->
    In (k, u) (Room.users room) ->
    ((User.userId u = Some k /\ User.socketId u = None) \/
     (User.socketId u = Some k /\ User.userId u = None)) /\
    JSMap.get k (Room.users room) = Some u.
Proof.
  intros st r room k u Hreach Hg Hin.
  destruct (wellFormed_get _ _ _ (reachable_wellFormed st Hreach) Hg) as [Hnd Hk].
  split.
  - rewrite Forall_forall in Hk. exact (Hk (k, u) Hin).
  - now apply get_of_In.
Qed.

Lemma participants_keyed_by_identifier_witness :
  JSMap.get "b"
    [("a", User.mk (Some "A") None (Some "a")); ("b", User.mk (Some "B") None (Some "b"))]
  = Some (User.mk (Some "B") None (Some "b")).
Proof.
  refine (proj2 (participants_keyed_by_identifier roomOfTwo "abc"
                   (Room.mk [("a", User.mk (Some "A") None (Some "a"));
                             ("b", User.mk (Some "B") None (Some "b"))]
                            (VideoState.mk (Some 0%float) (Some false)) [])
                   "b" (User.mk (Some "B") None (Some "b")) _ _ _)).
  - apply run_reachable, reachable_initial.
  - reflexivity.
  - right. now left.
Defined.

(** ** What a late joiner is told *)

(** X14. Once a participant's playback update has been accepted, the
    next join of the room reports the updated playback state, together
    with the room's history: a socket joining over the push path for
    the first time gets it in [room_users], a fallback join gets it in
    the response body. *)
Theorem late_joiner_gets_current_state :
  forall st socketId currentTime isPlaying r room u,
    JSMap.get r (Server.rooms st) = Some room ->
    JSMap.get socketId (Room.users room) = Some u ->
    let st1 := fst (videoStateUpdate socketId currentTime isPlaying r st) in
    (forall now socketId2 username2,
        JSSet.has r (Conn.userRooms (connOf socketId2 st)) = false ->
        In (emit (ToSocket socketId2) "room_users"
                 (PRoomUsers
                    (JSMap.values
                       (JSMap.set socketId2 (User.mk username2 None (Some socketId2))
                                  (Room.users room)))
                    (VideoState.mk currentTime isPlaying)
                    (Room.messages room)))
           (snd (joinRoom now socketId2 r username2 st1))) /\
    (forall now rnd name,
        r <> "" -> name <> "" ->
        let userId := ("user-" ++ toString now ++ "-" ++ rnd)%string in
        snd (fst (httpJoin now rnd (Some r) (Some name) st1)) =
          respond 200
            (BJoin userId
               (JSMap.values
                  (JSMap.set userId (User.mk (Some name) (Some userId) None)
                             (evictUsername name (Room.users room))))
               (VideoState.mk currentTime isPlaying)
               (Room.messages room ++
                [systemMessage now (name ++ " joined the room")%string]))).
Proof.
  intros st socketId currentTime isPlaying r room u Hg Hu. cbv zeta.
  unfold videoStateUpdate. rewrite Hg, Hu. cbn [fst].
  set (room1 := Room.mk (Room.users room) (VideoState.mk currentTime isPlaying)
                        (Room.messages room)).
  set (st1 := setRooms (JSMap.set r room1 (Server.rooms st)) st).
  assert (Hg1 : JSMap.get r (Server.rooms st1) = Some room1) by apply get_set_eq.
  split.
  - intros now socketId2 username2 Hfresh.
    rewrite (joinRoom_first_time now socketId2 r username2 st1 Hfresh), Hg1.
    cbn [snd]. right. now left.
  - intros now rnd name Hr Hn.
    rewrite (httpJoin_accepted now rnd r name st1 Hr Hn), Hg1. reflexivity.
Qed.

Lemma late_joiner_gets_current_state_witness :
  In (emit (ToSocket "b") "room_users"
           (PRoomUsers [User.mk (Some "A") None (Some "a");
                        User.mk (Some "B") None (Some "b")]
                       (VideoState.mk (Some 42%float) (Some true)) []))
     (snd (joinRoom 3000 "b" "abc" (Some "B")
             (fst (videoStateUpdate "a" (Some 42%float) (Some true) "abc"
                                    roomWithBystander)))).
Proof.
  exact (proj1 (late_joiner_gets_current_state roomWithBystander "a"
                  (Some 42%float) (Some true) "abc"
                  (Room.mk [("a", User.mk (Some "A") None (Some "a"))]
                           (VideoState.mk (Some 0%float) (Some false)) [])
                  (User.mk (Some "A") None (Some "a")) eq_refl eq_refl)
               3000%Z "b" (Some "B") eq_refl).
Defined.

(** ** A fallback leave of a push participant *)

(** X15. The fallback leave removes a participant by username even when
    the entry was made by a push join, but it never touches the socket:
    when it removes the only participant, the room is deleted while the
    socket stays in the room's broadcast audience and keeps the room in
    its [userRooms]; the socket's own [leave_room] then finds no room
    and returns before it leaves anything, so the socket would still
    receive what a later room of that name broadcasts. *)
Theorem fallback_leave_keeps_socket_subscribed :
  forall st now now' r name socketId room u username',
    r <> "" -> name <> "" ->
    JSMap.get r (Server.rooms st) = Some room ->
    Room.users room = [(socketId, u)] ->
    User.username u = Some name ->
    In socketId (recipients st (ToRoom r)) ->
    let st1 := fst (fst (httpLeave now (Some r) None (Some name) st)) in
    JSMap.get r (Server.rooms st1) = None /\
    Server.conns st1 = Server.conns st /\
    In socketId (recipients st1 (ToRoom r)) /\
    leaveRoom now' socketId r username' st1 = (st1, []).
Proof.
  intros st now now' r name socketId room u username' Hr Hn Hg Hsole Hname Hsub.
  cbv zeta.
  assert (Hf : httpLeaveFind None (Some name) (Room.users room) = Some (u, [])).
  { unfold httpLeaveFind. rewrite (required_present name Hn), Hsole. cbn.
    unfold hasUsername. rewrite Hname. cbn. rewrite String.eqb_refl. cbn.
    now rewrite String.eqb_refl. }
  rewrite (httpLeave_found now r None (Some name) st room u [] Hr Hg Hf).
  cbn [fst JSMap.size List.length Nat.eqb].
  assert (Hgone : JSMap.get r (Server.rooms
                     (setRooms (JSMap.delete r (Server.rooms st)) st)) = None)
    by apply get_delete_eq.
  split; [exact Hgone|]. split; [reflexivity|]. split; [exact Hsub|].
  unfold leaveRoom, leaveRoomCleanup. now rewrite Hgone.
Qed.

Lemma fallback_leave_keeps_socket_subscribed_witness :
  JSMap.get "abc"
    (Server.rooms (fst (fst (httpLeave 2000 (Some "abc") None (Some "A") roomOfOne))))
    = None /\
  In "a" (recipients (fst (fst (httpLeave 2000 (Some "abc") None (Some "A") roomOfOne)))
                     (ToRoom "abc")).
Proof.
  destruct (fallback_leave_keeps_socket_subscribed roomOfOne 2000%Z 3000%Z "abc" "A" "a"
              (Room.mk [("a", User.mk (Some "A") None (Some "a"))]
                       (VideoState.mk (Some 0%float) (Some false)) [])
              (User.mk (Some "A") None (Some "a")) None
              ltac:(discriminate) ltac:(discriminate) eq_refl eq_refl eq_refl
              ltac:(now left)) as [Hgone [_ [Hsub _]]].
  exact (conj Hgone Hsub).
Defined.

(** ** The chat panel *)

Lemma known_false_fresh message prevMessages :
  ChatView.known message prevMessages = false ->
  ~ In (Message.id message) (ChatView.ids prevMessages).
Proof.
  unfold ChatView.known, ChatView.ids. intros Hk Hin.
  apply in_map_iff in Hin. destruct Hin as [m [Hid Hin]].
  assert (Ht : existsb (fun m => (Message.id m =? Message.id message)%string)
                       prevMessages = true).
  { apply existsb_exists. exists m. split; [exact Hin|]. now apply String.eqb_eq. }
  congruence.
Qed.

Lemma known_true_listed message prevMessages :
  ChatView.known message prevMessages = true <->
  In (Message.id message) (ChatView.ids prevMessages).
Proof.
  unfold ChatView.known, ChatView.ids. rewrite existsb_exists, in_map_iff.
  split; intros [m [H1 H2]]; exists m.
  - apply String.eqb_eq in H2. tauto.
  - split; [exact H2 | now apply String.eqb_eq].
Qed.

Lemma ids_append prevMessages message :
  ChatView.ids (prevMessages ++ [message]) =
  ChatView.ids prevMessages ++ [Message.id message].
Proof. unfold ChatView.ids. now rewrite map_app. Qed.

(** One delivery either changes nothing or appends one message that
    carries the delivered id. *)
Lemma receive_step prevMessages ev :
  ChatView.receive prevMessages ev = prevMessages \/
  exists m, ChatView.receive prevMessages ev = prevMessages ++ [m] /\
            ~ In (Message.id m) (ChatView.ids prevMessages).
Proof.
  destruct ev as [message|message|message]; cbn;
    unfold ChatView.handleChatMessage, ChatView.handleUserJoined,
      ChatView.handleUserLeft;
    destruct (ChatView.known message prevMessages) eqn:Hk; try (now left);
    right; eexists; (split; [reflexivity|]); now apply known_false_fresh.
Qed.

(** X16. The chat panel never lists two messages with the same id:
    starting from a list without repeated ids, any sequence of
    [chat_message], [user_joined] and [user_left] deliveries leaves a
    list without repeated ids. *)
Theorem chat_panel_ids_stay_unique :
  forall evs prevMessages,
    NoDup (ChatView.ids prevMessages) ->
    NoDup (ChatView.ids (ChatView.receiveAll evs prevMessages)).
Proof.
  unfold ChatView.receiveAll.
  induction evs as [|ev evs IH]; intros prevMessages Hnd; simpl; [exact Hnd|].
  apply IH. destruct (receive_step prevMessages ev) as [->|[m [-> Hfresh]]];
    [exact Hnd|].
  rewrite ids_append. apply NoDup_app; [exact Hnd | repeat constructor; intros [] |].
  intros x Hx [<-|[]]. contradiction.
Qed.

Lemma chat_panel_ids_stay_unique_witness :
  NoDup (ChatView.ids
           (ChatView.receiveAll
              [ChatView.UserJoined (Message.mk "1000" (Some "A")
                                               (Some "A joined the room") 1000);
               ChatView.ChatMessage (Message.mk "1002-q7" (Some "A") (Some "hi") 1002);
               ChatView.ChatMessage (Message.mk "1002-q7" (Some "A") (Some "hi") 1002)]
              [])).
Proof.
  apply chat_panel_ids_stay_unique. constructor.
Defined.

(** X17. In the chat panel the first delivery of an id wins: a
    delivery whose id is already listed changes nothing, whatever its
    content, so delivering the same event twice is the same as
    delivering it once; and no delivery ever changes, removes or
    reorders what is listed, it can only append. *)
Theorem chat_panel_first_delivery_wins :
  forall prevMessages,
    (forall ev, ChatView.receive (ChatView.receive prevMessages ev) ev
                = ChatView.receive prevMessages ev) /\
    (forall message,
        In (Message.id message) (ChatView.ids prevMessages) ->
        ChatView.receive prevMessages (ChatView.ChatMessage message) = prevMessages /\
        ChatView.receive prevMessages (ChatView.UserJoined message) = prevMessages /\
        ChatView.receive prevMessages (ChatView.UserLeft message) = prevMessages) /\
    (forall evs, exists more,
        ChatView.receiveAll evs prevMessages = prevMessages ++ more).
Proof.
  intros prevMessages. split; [|split].
  - intros ev. destruct ev as [message|message|message]; cbn;
      unfold ChatView.handleChatMessage, ChatView.handleUserJoined,
        ChatView.handleUserLeft;
      destruct (ChatView.known message prevMessages) eqn:Hk;
      try (now rewrite Hk);
      match goal with
      | |- context [ChatView.known message (prevMessages ++ [?m])] =>
          assert (Hin : ChatView.known message (prevMessages ++ [m]) = true)
            by (apply known_true_listed; rewrite ids_append;
                apply in_or_app; right; now left);
          now rewrite Hin
      end.
  - intros message Hin. apply known_true_listed in Hin. cbn.
    unfold ChatView.handleChatMessage, ChatView.handleUserJoined,
      ChatView.handleUserLeft. now rewrite Hin.
  - intros evs. revert prevMessages. unfold ChatView.receiveAll.
    induction evs as [|ev evs IH]; intros prevMessages; simpl.
    + exists []. now rewrite app_nil_r.
    + destruct (IH (ChatView.receive prevMessages ev)) as [more Hmore].
      rewrite Hmore.
      destruct (receive_step prevMessages ev) as [->|[m [-> _]]].
      * now exists more.
      * exists (m :: more). now rewrite <- app_assoc.
Qed.

(** ** The player: what is reported back *)

(** X18. After the player has applied an incoming playback update
    (its video element present), the next [play] or [pause] event of
    the element is not reported to the server, whether the update
    caused it or the user did: the listener only clears the
    external-update mark and keeps the incoming [isPlaying]; the event
    after that is reported again when the player is in a room. *)
Theorem first_event_after_update_not_reported :
  forall canPlay currentTime isPlaying s v,
    Player.videoRef (Session.player s) = Some v ->
    let s1 := onVideoStateUpdate canPlay currentTime isPlaying s in
    snd (onPlay s1) = [] /\ snd (onPause s1) = [] /\
    Player.isPlaying (Session.player (fst (onPlay s1))) = isPlaying /\
    Player.isPlaying (Session.player (fst (onPause s1))) = isPlaying /\
    Player.isExternalUpdate (Session.player (fst (onPlay s1))) = false /\
    Player.isExternalUpdate (Session.player (fst (onPause s1))) = false /\
    (forall r, required (Session.roomId s) = Some r ->
               exists t, snd (onPlay (fst (onPlay s1))) = [(t, true)] /\
                         snd (onPlay (fst (onPause s1))) = [(t, true)]).
Proof.
  intros canPlay currentTime isPlaying s v Hv. cbv zeta.
  unfold onVideoStateUpdate, handleVideoStateUpdate. rewrite Hv.
  unfold onPlay, onPause. cbn.
  repeat (split; [reflexivity|]).
  intros r Hr. unfold report. cbn. rewrite Hr. eexists. split; reflexivity.
Qed.

Lemma first_event_after_update_not_reported_witness :
  snd (onPause
         (onVideoStateUpdate true 12%float false
            (Session.mk (Player.mk (Some (Video.mk 10%float false)) true false)
                        (Some "abc") false))) = [].
Proof.
  exact (proj1 (proj2 (first_event_after_update_not_reported true 12%float false
                         (Session.mk (Player.mk (Some (Video.mk 10%float false))
                                                true false)
                                     (Some "abc") false)
                         (Video.mk 10%float false) eq_refl))).
Defined.

(** Where the element stands after an update that is out of tolerance. *)
Lemma drift_position canPlay currentTime isPlaying p v :
  Player.videoRef p = Some v ->
  exists v',
    Player.videoRef (handleVideoStateUpdate canPlay currentTime isPlaying p) = Some v' /\
    (PrimFloat.ltb 1%float (timeDiff v currentTime) = true ->
     Video.currentTime v' = currentTime).
Proof.
  intros Hv. unfold handleVideoStateUpdate. rewrite Hv.
  eexists. split; [reflexivity|]. intros Hfar. rewrite Hfar.
  destruct v as [local paused]. cbn. now destruct isPlaying, paused.
Qed.

(** X19. A remote update that moves the position is reported back
    once the seek completes: when the incoming [currentTime] is more
    than a second away and the player is in a room, the [seeking] and
    [seeked] events that follow make [handleSeekEnd] send exactly the
    incoming pair [(currentTime, isPlaying)], the external-update mark
    notwithstanding. *)
Theorem remote_seek_is_reported_back :
  forall canPlay currentTime isPlaying s v r,
    Player.videoRef (Session.player s) = Some v ->
    required (Session.roomId s) = Some r ->
    PrimFloat.ltb 1%float (timeDiff v currentTime) = true ->
    snd (handleSeekEnd
           (handleSeekStart (onVideoStateUpdate canPlay currentTime isPlaying s)))
    = [(currentTime, isPlaying)].
Proof.
  intros canPlay currentTime isPlaying s v r Hv Hr Hfar.
  unfold handleSeekEnd, handleSeekStart, onVideoStateUpdate, report.
  cbn [Session.isSeeking Session.player Session.roomId snd]. rewrite Hr.
  destruct (drift_position canPlay currentTime isPlaying (Session.player s) v Hv)
    as [v' [Hv' Hpos]].
  rewrite Hv'. unfold handleVideoStateUpdate. rewrite Hv. cbn [Player.isPlaying].
  now rewrite (Hpos Hfar).
Qed.

Lemma remote_seek_is_reported_back_witness :
  snd (handleSeekEnd
         (handleSeekStart
            (onVideoStateUpdate true 12%float true
               (Session.mk (Player.mk (Some (Video.mk 10%float true)) false false)
                           (Some "abc") false))))
  = [(12%float, true)].
Proof.
  apply (remote_seek_is_reported_back true 12%float true _ (Video.mk 10%float true) "abc");
    reflexivity.
Defined.
